(** * Vehicle Conspicuity Certificate backend: role-scoped authorization

    A shallow embedding of the two server implementations of the
    repository,

    - [Sql]   : [src/server.py]          (SQLAlchemy models of [src/database.py]),
    - [Mongo] : [src/backend/server.py]  (MongoDB collections),

    and the properties of their authorization and data-visibility rules.

    Modelling conventions.

    - A table or collection is the list of its rows, in storage order.
      [select ... where] and [find] are [filter]; [scalar_one_or_none]
      raises [MultipleResultsFound] on more than one row; [find_one] is the
      first match; [update ... where] rewrites every matching row and
      [update_one] the first one.
    - Of the SQL schema, the primary keys and UNIQUE constraints that an
      insert of the handlers below can violate are checked by the insert
      ([IntegrityError]); column widths and foreign keys are not modelled.
      MongoDB checks nothing.
    - Every handler is a computation in a state-and-exception monad over
      the database: it returns what the Python function returns, or the
      exception it raises, together with the database it leaves behind.
    - A handler receives, as [caller], the identity that FastAPI obtained
      from [Depends(get_current_user)]; [Depends(require_roles(...))] is
      the first step of the handlers that declare it.  [get_current_user]
      itself receives the bearer token that [HTTPBearer] extracted from the
      request; a request without one is refused by [HTTPBearer] and reaches
      neither.
    - [datetime.now(timezone.utc)], [uuid.uuid4()] and [os.urandom] are
      inputs of the handler that reads them ([now], [uid], [salt]); a
      [datetime] is its number of microseconds since the epoch.
    - Password hashing and JWT decoding are opaque functions (Section
      variables). *)

From Stdlib Require Import SpecFloat Ascii.
From stdpp Require Import base option list gmap strings.

Local Open Scope Z_scope.
Local Open Scope string_scope.

(** ** Exceptions and the handler monad *)

Inductive exn : Type :=
  | HTTPException (status_code : Z) (detail : string)
  | IntegrityError
  | MultipleResultsFound
  | AttributeError
  | TypeError.

Inductive outcome (A : Type) : Type :=
  | Ok (a : A)
  | Raise (e : exn).
Arguments Ok {A} a.
Arguments Raise {A} e.

(** The error kinds of the specification, read off the HTTP response. *)
Definition forbidden {A} (o : outcome A) : Prop :=
  ∃ detail, o = Raise (HTTPException 403 detail).
Definition not_found {A} (o : outcome A) : Prop :=
  ∃ detail, o = Raise (HTTPException 404 detail).
Definition unauthenticated {A} (o : outcome A) : Prop :=
  ∃ detail, o = Raise (HTTPException 401 detail).
Definition conflict {A} (o : outcome A) : Prop :=
  o = Raise (HTTPException 400 "Username already registered")
  ∨ o = Raise (HTTPException 400 "Username already exists").
Definition succeeds {A} (o : outcome A) : Prop :=
  ∃ a, o = Ok a.

(** [M S A]: a handler over a database of type [S]. *)
Definition M (S A : Type) : Type := S → outcome A * S.

Global Instance handler_ret {S} : MRet (M S) := λ A a s, (Ok a, s).
Global Instance handler_bind {S} : MBind (M S) := λ A B k m s,
  match m s with
  | (Ok a, s') => k a s'
  | (Raise e, s') => (Raise e, s')
  end.

Definition raise {S A} (e : exn) : M S A := λ s, (Raise e, s).
Definition gets {S A} (f : S → A) : M S A := λ s, (Ok (f s), s).
Definition modify {S} (f : S → S) : M S unit := λ s, (Ok tt, f s).

(** [if not cond: raise e] *)
Definition unless {S} (cond : Prop) `{Decision cond} (e : exn) : M S unit :=
  if decide cond then mret tt else raise e.

(** ** Pydantic models *)

Module UserRole.
Definition ADMIN : string := "admin".
Definition DISTRIBUTOR : string := "distributor".
Definition RETAILER : string := "retailer".
End UserRole.

Module User.
Record t : Type := mk {
  id : string;
  username : string;
  role : string;
  company_name : option string;
  contact_number : option string;
  created_by : option string;
  created_at : Z }.
End User.

Module UserCreate.
Record t : Type := mk {
  username : string;
  password : string;
  role : string;
  company_name : option string;
  contact_number : option string }.
End UserCreate.

Module VehicleDetails.
Record t : Type := mk {
  registration_no : string;
  chassis_no : string;
  vehicle_make : string;
  vehicle_model : string;
  registration_year : Z;
  engine_no : string }.
End VehicleDetails.

Module OwnerDetails.
Record t : Type := mk {
  owner_name : string;
  contact_number : string }.
End OwnerDetails.

(** The tape lengths are Python floats: IEEE-754 binary64 values, as
    [spec_float] (sign, mantissa, exponent). *)
Module FitmentDetails.
Record t : Type := mk {
  red_20mm : spec_float;
  white_20mm : spec_float;
  yellow_20mm : spec_float;
  red_50mm : spec_float;
  white_50mm : spec_float;
  yellow_50mm : spec_float;
  c3_plates : Z;
  c4_plates : Z }.
End FitmentDetails.

(** [Certificate], which is also the shape of a stored certificate
    ([CertificateModel] row, [certificates] document). *)
Module Certificate.
Record t : Type := mk {
  id : string;
  certificate_no : string;
  retailer_id : string;
  dealer_name : string;
  dealer_license : string;
  vehicle_details : VehicleDetails.t;
  owner_details : OwnerDetails.t;
  fitment_details : FitmentDetails.t;
  fitment_date : Z;
  images : gmap string string;
  status : string;
  created_at : Z;
  updated_at : Z }.
End Certificate.

Module CertificateUpdate.
Record t : Type := mk {
  dealer_name : option string;
  dealer_license : option string;
  vehicle_details : option VehicleDetails.t;
  owner_details : option OwnerDetails.t;
  fitment_details : option FitmentDetails.t;
  status : option string }.
End CertificateUpdate.

Module CertificateCreate.
Record t : Type := mk {
  dealer_name : string;
  dealer_license : string;
  vehicle_details : VehicleDetails.t;
  owner_details : OwnerDetails.t;
  fitment_details : FitmentDetails.t;
  status : string }.
End CertificateCreate.

Module UserLogin.
Record t : Type := mk {
  username : string;
  password : string }.
End UserLogin.

Module Token.
Record t : Type := mk {
  access_token : string;
  token_type : string;
  user : User.t }.
End Token.

(** ** Library functions used by both servers *)

(** [base64.b64encode(contents).decode("utf-8")], on the byte values. *)
Definition b64_alphabet : string :=
  "ABCDEFGHIJKLMNOPQRSTUVWXYZabcdefghijklmnopqrstuvwxyz0123456789+/".

Definition b64_char (n : N) : ascii :=
  default "="%char (String.get (N.to_nat n) b64_alphabet).

Fixpoint b64encode (contents : list N) : string :=
  match contents with
  | [] => ""
  | [a] =>
      String (b64_char (a / 4))
        (String (b64_char ((a mod 4) * 16)) "==")
  | [a; b] =>
      String (b64_char (a / 4))
        (String (b64_char ((a mod 4) * 16 + b / 16))
           (String (b64_char ((b mod 16) * 4)) "="))
  | a :: b :: c :: rest =>
      String (b64_char (a / 4))
        (String (b64_char ((a mod 4) * 16 + b / 16))
           (String (b64_char ((b mod 16) * 4 + c / 64))
              (String (b64_char (c mod 64)) (b64encode rest))))
  end%N.

(** [require_roles(allowed_roles)]: the inner [role_checker]. *)
Definition require_roles {S} (allowed_roles : list string)
    (current_user : User.t) : M S User.t :=
  unless (User.role current_user ∈ allowed_roles)
    (HTTPException 403 "Insufficient permissions") ;;
  mret current_user.

(** The tags accepted by [upload_certificate_image]. *)
Definition image_types : list string := ["front"; "back"; "side1"; "side2"].

(** [timedelta(minutes=m)], in microseconds. *)
Definition timedelta_minutes (m : Z) : Z := m * 60 * 1000000.

(** [str.upper()] on the ASCII text of a UUID. *)
Definition upper_char (c : ascii) : ascii :=
  let n := N_of_ascii c in
  if ((97 <=? n) && (n <=? 122))%N then ascii_of_N (n - 32) else c.

Fixpoint upper (s : string) : string :=
  match s with
  | EmptyString => EmptyString
  | String c s' => String (upper_char c) (upper s')
  end.

(** The default of [Certificate.certificate_no]:
    [f"CERT{str(uuid.uuid4())[:8].upper()}"], from the text of the UUID. *)
Definition default_certificate_no (uuid_text : string) : string :=
  "CERT" +:+ upper (String.substring 0 8 uuid_text).

(** [Certificate(retailer_id=..., dealer_name=..., ..., status=...)] with
    the defaults of the other fields. *)
Definition new_certificate (retailer_id : string) (cert_data : CertificateCreate.t)
    (uid no_uuid : string) (fitment_date created_at updated_at : Z) : Certificate.t :=
  Certificate.mk uid (default_certificate_no no_uuid) retailer_id
    (CertificateCreate.dealer_name cert_data)
    (CertificateCreate.dealer_license cert_data)
    (CertificateCreate.vehicle_details cert_data)
    (CertificateCreate.owner_details cert_data)
    (CertificateCreate.fitment_details cert_data)
    fitment_date ∅ (CertificateCreate.status cert_data) created_at updated_at.

(** [create_access_token(data={"sub": sub}, expires_delta)]: the expiry
    passed to [jwt.encode].  A zero [timedelta] is falsy, so it takes the
    15-minute branch like an absent one. *)
Definition token_expiry (expires_delta : option Z) (now : Z) : Z :=
  match expires_delta with
  | Some delta => if decide (delta = 0) then now + timedelta_minutes 15 else now + delta
  | None => now + timedelta_minutes 15
  end.

(** [len(rows)] and [len([r for r in rows if r.status == "submitted"])]. *)
Definition count_submitted (rows : list Certificate.t) : Z :=
  Z.of_nat (length (filter (λ c, Certificate.status c = "submitted") rows)).

(** The three certificate counters of every dashboard answer. *)
Definition certificate_counters (rows : list Certificate.t) : list (string * Z) :=
  [("total_certificates", Z.of_nat (length rows));
   ("submitted_certificates", count_submitted rows);
   ("draft_certificates", Z.of_nat (length rows) - count_submitted rows)].

(** Keyword-argument update of a stored certificate: the columns named
    by a [.values(...)] or a [$set], the others kept. *)
Definition set_fields
    (dealer_name dealer_license : option string)
    (vehicle_details : option VehicleDetails.t)
    (owner_details : option OwnerDetails.t)
    (fitment_details : option FitmentDetails.t)
    (status : option string) (updated_at : Z)
    (c : Certificate.t) : Certificate.t :=
  Certificate.mk
    (Certificate.id c) (Certificate.certificate_no c)
    (Certificate.retailer_id c)
    (default (Certificate.dealer_name c) dealer_name)
    (default (Certificate.dealer_license c) dealer_license)
    (default (Certificate.vehicle_details c) vehicle_details)
    (default (Certificate.owner_details c) owner_details)
    (default (Certificate.fitment_details c) fitment_details)
    (Certificate.fitment_date c) (Certificate.images c)
    (default (Certificate.status c) status)
    (Certificate.created_at c) updated_at.

Definition set_images (images : gmap string string) (updated_at : Z)
    (c : Certificate.t) : Certificate.t :=
  Certificate.mk
    (Certificate.id c) (Certificate.certificate_no c)
    (Certificate.retailer_id c)
    (Certificate.dealer_name c) (Certificate.dealer_license c)
    (Certificate.vehicle_details c) (Certificate.owner_details c)
    (Certificate.fitment_details c)
    (Certificate.fitment_date c) images
    (Certificate.status c)
    (Certificate.created_at c) updated_at.

(** ** [src/server.py] over the tables of [src/database.py] *)

Module UserModel.
Record t : Type := mk {
  id : string;
  username : string;
  password_hash : string;
  password_salt : string;
  role : string;
  company_name : option string;
  contact_number : option string;
  created_by : option string;
  created_at : Z }.
End UserModel.

Module RelationshipModel.
Record t : Type := mk {
  id : string;
  distributor_id : string;
  retailer_id : string;
  created_at : Z }.
End RelationshipModel.

Module Sql.

Record DB : Type := mkDB {
  users : list UserModel.t;
  relationships : list RelationshipModel.t;
  certificates : list Certificate.t }.

(** [result.scalar_one_or_none()] *)
Definition scalar_one_or_none {A} (rows : list A) : M DB (option A) :=
  match rows with
  | [] => mret None
  | [r] => mret (Some r)
  | _ => raise MultipleResultsFound
  end.

(** [select(UserModel).where(UserModel.username == username)] *)
Definition select_user_by_username (username : string) : M DB (list UserModel.t) :=
  gets (λ db, filter (λ u, UserModel.username u = username) (users db)).

(** [select(RelationshipModel).where(distributor_id == d)] *)
Definition select_relationships_of (distributor_id : string)
    : M DB (list RelationshipModel.t) :=
  gets (λ db, filter (λ r, RelationshipModel.distributor_id r = distributor_id)
                (relationships db)).

(** The reachable retailer set of a distributor: the [retailer_id]s of
    the edges whose [distributor_id] is his (the list [retailer_ids] of
    the handlers). *)
Definition reachable_retailers (db : DB) (distributor_id : string) : list string :=
  RelationshipModel.retailer_id <$>
    filter (λ r, RelationshipModel.distributor_id r = distributor_id)
      (relationships db).

(** [select(RelationshipModel).where(distributor_id == d, retailer_id == r)] *)
Definition select_relationship (distributor_id retailer_id : string)
    : M DB (list RelationshipModel.t) :=
  gets (λ db, filter (λ r, RelationshipModel.distributor_id r = distributor_id
                           ∧ RelationshipModel.retailer_id r = retailer_id)
                (relationships db)).

(** [select(CertificateModel).where(CertificateModel.id == certificate_id)] *)
Definition select_certificate (certificate_id : string) : M DB (list Certificate.t) :=
  gets (λ db, filter (λ c, Certificate.id c = certificate_id) (certificates db)).

(** The database after [update ... where id == certificate_id]. *)
Definition updated (certificate_id : string)
    (values : Certificate.t → Certificate.t) (db : DB) : DB :=
  mkDB (users db) (relationships db)
    ((λ c, if decide (Certificate.id c = certificate_id) then values c else c)
       <$> certificates db).

(** [update(CertificateModel).where(id == certificate_id).values(...)]
    followed by [session.commit()] *)
Definition update_certificates (certificate_id : string)
    (values : Certificate.t → Certificate.t) : M DB unit :=
  modify (updated certificate_id values).

(** [session.add(db_user); session.commit()]: the primary key [id] and
    the UNIQUE [username] are checked by the store. *)
Definition insert_user (row : UserModel.t) : M DB unit :=
  λ db,
    if decide (UserModel.id row ∈ UserModel.id <$> users db
               ∨ UserModel.username row ∈ UserModel.username <$> users db)
    then (Raise IntegrityError, db)
    else (Ok tt, mkDB (users db ++ [row]) (relationships db) (certificates db)).

(** [session.add(rel); session.commit()]: primary key [id] and
    [uq_distributor_retailer]. *)
Definition insert_relationship (row : RelationshipModel.t) : M DB unit :=
  λ db,
    if decide (RelationshipModel.id row ∈ RelationshipModel.id <$> relationships db
               ∨ Exists (λ r, RelationshipModel.distributor_id r
                                = RelationshipModel.distributor_id row
                              ∧ RelationshipModel.retailer_id r
                                = RelationshipModel.retailer_id row)
                   (relationships db))
    then (Raise IntegrityError, db)
    else (Ok tt, mkDB (users db) (relationships db ++ [row]) (certificates db)).

(** [User(id=user_row.id, username=user_row.username, ...)] *)
Definition to_user (user_row : UserModel.t) : User.t :=
  User.mk (UserModel.id user_row) (UserModel.username user_row)
    (UserModel.role user_row) (UserModel.company_name user_row)
    (UserModel.contact_number user_row) (UserModel.created_by user_row)
    (UserModel.created_at user_row).

Definition credentials_exception : exn :=
  HTTPException 401 "Could not validate credentials".

Section Handlers.

(** [jwt.decode(token, SECRET_KEY, algorithms=[ALGORITHM])] followed by
    [payload.get("sub")]: [None] when decoding raises [PyJWTError],
    [Some None] when the payload has no ["sub"]. *)
Variable jwt_decode_sub : string → option (option string).

(** [hashlib.pbkdf2_hmac("sha256", password, salt, 100000)] *)
Variable pbkdf2_hmac_sha256 : string → string → string.

Definition get_current_user (credentials : string) : M DB User.t :=
  match jwt_decode_sub credentials with
  | None => raise credentials_exception
  | Some None => raise credentials_exception
  | Some (Some username) =>
      rows ← select_user_by_username username;
      user_row ← scalar_one_or_none rows;
      match user_row with
      | None => raise credentials_exception
      | Some user_row => mret (to_user user_row)
      end
  end.

(** A credential that resolves to no stored identity. *)
Definition no_identity (credentials : string) (db : DB) : Prop :=
  jwt_decode_sub credentials = None
  ∨ jwt_decode_sub credentials = Some None
  ∨ ∃ username, jwt_decode_sub credentials = Some (Some username)
                ∧ username ∉ UserModel.username <$> users db.

(** [register_user]; [uid], [now] are the defaults of the new [User],
    [salt] is [os.urandom(16)], [rel_uid] and [rel_now] the defaults of
    the [RelationshipModel] row. *)
Definition register_user (user_data : UserCreate.t)
    (current_user : option User.t)
    (uid : string) (now : Z) (salt : string)
    (rel_uid : string) (rel_now : Z) : M DB User.t :=
  existing ← (rows ← select_user_by_username (UserCreate.username user_data);
              scalar_one_or_none rows);
  unless (existing = None :> option UserModel.t)
    (HTTPException 400 "Username already registered") ;;
  (if decide (UserCreate.role user_data = UserRole.ADMIN) then
     raise (HTTPException 403 "Cannot create admin users through registration")
   else if decide (UserCreate.role user_data = UserRole.DISTRIBUTOR) then
     match current_user with
     | Some cu =>
         unless (User.role cu = UserRole.ADMIN)
           (HTTPException 403 "Only admins can create distributors")
     | None => raise (HTTPException 403 "Only admins can create distributors")
     end
   else if decide (UserCreate.role user_data = UserRole.RETAILER) then
     match current_user with
     | Some cu =>
         unless (User.role cu ∈ [UserRole.ADMIN; UserRole.DISTRIBUTOR])
           (HTTPException 403 "Only admins or distributors can create retailers")
     | None =>
         raise (HTTPException 403 "Only admins or distributors can create retailers")
     end
   else mret tt) ;;
  let hashed_password := pbkdf2_hmac_sha256 (UserCreate.password user_data) salt in
  let user_obj :=
    User.mk uid (UserCreate.username user_data) (UserCreate.role user_data)
      (UserCreate.company_name user_data) (UserCreate.contact_number user_data)
      (User.id <$> current_user) now in
  let db_user :=
    UserModel.mk (User.id user_obj) (User.username user_obj)
      hashed_password salt (User.role user_obj)
      (User.company_name user_obj) (User.contact_number user_obj)
      (User.created_by user_obj) (User.created_at user_obj) in
  (λ db, match insert_user db_user db with
         | (Raise IntegrityError, _) =>
             (Raise (HTTPException 400 "Username already exists"), db)
         | r => r
         end) ;;
  match current_user with
  | Some cu =>
      if decide (UserCreate.role user_data = UserRole.RETAILER
                 ∧ User.role cu = UserRole.DISTRIBUTOR)
      then insert_relationship
             (RelationshipModel.mk rel_uid (User.id cu) (User.id user_obj) rel_now)
      else mret tt
  | None => mret tt
  end ;;
  mret user_obj.

(** The route [POST /api/auth/register] as FastAPI runs it: the
    dependency [get_current_user] first, then the handler. *)
Definition register_route (credentials : string) (user_data : UserCreate.t)
    (uid : string) (now : Z) (salt : string)
    (rel_uid : string) (rel_now : Z) : M DB User.t :=
  current_user ← get_current_user credentials;
  register_user user_data (Some current_user) uid now salt rel_uid rel_now.

End Handlers.

(** [GET /api/certificates] *)
Definition get_certificates (caller : User.t) : M DB (list Certificate.t) :=
  if decide (User.role caller = UserRole.ADMIN) then
    gets certificates
  else if decide (User.role caller = UserRole.DISTRIBUTOR) then
    rels ← select_relationships_of (User.id caller);
    let retailer_ids := RelationshipModel.retailer_id <$> rels in
    match retailer_ids with
    | [] => mret []
    | _ :: _ =>
        gets (λ db, filter (λ c, Certificate.retailer_id c ∈ retailer_ids)
                      (certificates db))
    end
  else
    gets (λ db, filter (λ c, Certificate.retailer_id c = User.id caller)
                  (certificates db)).

(** [GET /api/certificates/{certificate_id}] *)
Definition get_certificate (certificate_id : string) (caller : User.t)
    : M DB Certificate.t :=
  rows ← select_certificate certificate_id;
  r ← scalar_one_or_none rows;
  match r with
  | None => raise (HTTPException 404 "Certificate not found")
  | Some cert_obj =>
      (if decide (User.role caller = UserRole.RETAILER
                  ∧ Certificate.retailer_id cert_obj ≠ User.id caller) then
         raise (HTTPException 403 "Access forbidden")
       else if decide (User.role caller = UserRole.DISTRIBUTOR) then
         rel_rows ← select_relationship (User.id caller)
                      (Certificate.retailer_id cert_obj);
         rel ← scalar_one_or_none rel_rows;
         unless (is_Some rel) (HTTPException 403 "Access forbidden")
       else mret tt) ;;
      mret cert_obj
  end.

(** [PUT /api/certificates/{certificate_id}].  [cert_data.dict(...)]
    turns the nested models into plain dicts, so [.model_dump()] on a
    supplied [vehicle_details], [owner_details] or [fitment_details]
    raises [AttributeError]. *)
Definition update_certificate (certificate_id : string)
    (cert_data : CertificateUpdate.t) (caller : User.t) (now : Z)
    : M DB Certificate.t :=
  current_user ← require_roles [UserRole.RETAILER] caller;
  rows ← select_certificate certificate_id;
  r ← scalar_one_or_none rows;
  match r with
  | None => raise (HTTPException 404 "Certificate not found")
  | Some r =>
      unless (Certificate.retailer_id r = User.id current_user)
        (HTTPException 403 "Access forbidden") ;;
      unless (CertificateUpdate.vehicle_details cert_data = None) AttributeError ;;
      unless (CertificateUpdate.owner_details cert_data = None) AttributeError ;;
      unless (CertificateUpdate.fitment_details cert_data = None) AttributeError ;;
      update_certificates certificate_id
        (set_fields (CertificateUpdate.dealer_name cert_data)
           (CertificateUpdate.dealer_license cert_data)
           None None None
           (CertificateUpdate.status cert_data) now) ;;
      rows ← select_certificate certificate_id;
      r ← scalar_one_or_none rows;
      match r with
      | None => raise AttributeError
      | Some r => mret r
      end
  end.

(** [POST /api/certificates/{certificate_id}/upload-image]; the result
    is the ["image_type"] entry of the acknowledgement. *)
Definition upload_certificate_image (certificate_id image_type : string)
    (contents : list N) (caller : User.t) (now : Z) : M DB string :=
  current_user ← require_roles [UserRole.RETAILER] caller;
  rows ← select_certificate certificate_id;
  r ← scalar_one_or_none rows;
  match r with
  | None => raise (HTTPException 404 "Certificate not found")
  | Some r =>
      unless (Certificate.retailer_id r = User.id current_user)
        (HTTPException 403 "Access forbidden") ;;
      unless (image_type ∈ image_types)
        (HTTPException 400 "Invalid image type") ;;
      let encoded_image := b64encode contents in
      let new_images := <[image_type := encoded_image]> (Certificate.images r) in
      update_certificates certificate_id (set_images new_images now) ;;
      mret image_type
  end.

(** [count_users], [count_certificates] of [src/database.py]. *)
Definition count_users (db : DB) : Z := Z.of_nat (length (users db)).
Definition count_certificates (db : DB) : Z := Z.of_nat (length (certificates db)).

(** [GET /api/users] *)
Definition get_users (caller : User.t) : M DB (list User.t) :=
  current_user ← require_roles [UserRole.ADMIN; UserRole.DISTRIBUTOR] caller;
  rows ← (if decide (User.role current_user = UserRole.ADMIN) then
            gets users
          else
            rels ← select_relationships_of (User.id current_user);
            let retailer_ids := RelationshipModel.retailer_id <$> rels in
            match retailer_ids with
            | [] => mret []
            | _ :: _ =>
                gets (λ db, filter (λ u, UserModel.id u ∈ retailer_ids) (users db))
            end);
  mret (to_user <$> rows).

(** [session.add(db_cert); session.commit()]: primary key [id] and the
    UNIQUE [certificate_no]. *)
Definition insert_certificate (row : Certificate.t) : M DB unit :=
  λ db,
    if decide (Certificate.id row ∈ Certificate.id <$> certificates db
               ∨ Certificate.certificate_no row
                 ∈ Certificate.certificate_no <$> certificates db)
    then (Raise IntegrityError, db)
    else (Ok tt, mkDB (users db) (relationships db) (certificates db ++ [row])).

(** [POST /api/certificates]; [uid], [no_uuid] are the two UUIDs drawn
    for [id] and [certificate_no], the three times the clock readings of
    [fitment_date], [created_at] and [updated_at]. *)
Definition create_certificate (cert_data : CertificateCreate.t) (caller : User.t)
    (uid no_uuid : string) (fitment_date created_at updated_at : Z)
    : M DB Certificate.t :=
  current_user ← require_roles [UserRole.RETAILER] caller;
  let cert_obj := new_certificate (User.id current_user) cert_data
                    uid no_uuid fitment_date created_at updated_at in
  insert_certificate cert_obj ;;
  mret cert_obj.

(** [GET /api/dashboard/stats]: the answer as a dictionary. *)
Definition get_dashboard_stats (caller : User.t) : M DB (gmap string Z) :=
  if decide (User.role caller = UserRole.ADMIN) then
    gets (λ db,
      list_to_map
        ([("total_users", Z.of_nat (length (users db)));
          ("total_distributors",
           Z.of_nat (length (filter (λ u, UserModel.role u = UserRole.DISTRIBUTOR)
                               (users db))));
          ("total_retailers",
           Z.of_nat (length (filter (λ u, UserModel.role u = UserRole.RETAILER)
                               (users db))))]
         ++ certificate_counters (certificates db)))
  else if decide (User.role caller = UserRole.DISTRIBUTOR) then
    rels ← select_relationships_of (User.id caller);
    let retailer_ids := RelationshipModel.retailer_id <$> rels in
    rows ← match retailer_ids with
           | [] => mret []
           | _ :: _ =>
               gets (λ db, filter (λ c, Certificate.retailer_id c ∈ retailer_ids)
                             (certificates db))
           end;
    mret (list_to_map
            (("total_retailers", Z.of_nat (length retailer_ids))
             :: certificate_counters rows))
  else
    rows ← gets (λ db, filter (λ c, Certificate.retailer_id c = User.id caller)
                         (certificates db));
    mret (list_to_map (certificate_counters rows)).

Section Session.

Variable pbkdf2_hmac_sha256 : string → string → string.

(** [jwt.encode({"sub": sub, "exp": exp}, SECRET_KEY, algorithm=ALGORITHM)] *)
Variable jwt_encode : string → Z → string.

(** [int(os.environ.get("ACCESS_TOKEN_EXPIRE_MINUTES", 30))] *)
Variable ACCESS_TOKEN_EXPIRE_MINUTES : Z.

Definition verify_password (password salt stored_key : string) : bool :=
  bool_decide (pbkdf2_hmac_sha256 password salt = stored_key).

Definition create_access_token (sub : string) (expires_delta : option Z) (now : Z)
    : string :=
  jwt_encode sub (token_expiry expires_delta now).

(** [POST /api/auth/login] *)
Definition login (user_credentials : UserLogin.t) (now : Z) : M DB Token.t :=
  rows ← select_user_by_username (UserLogin.username user_credentials);
  user_row ← scalar_one_or_none rows;
  match user_row with
  | Some user_row =>
      if verify_password (UserLogin.password user_credentials)
           (UserModel.password_salt user_row) (UserModel.password_hash user_row)
      then
        let access_token :=
          create_access_token (UserModel.username user_row)
            (Some (timedelta_minutes ACCESS_TOKEN_EXPIRE_MINUTES)) now in
        mret (Token.mk access_token "bearer" (to_user user_row))
      else raise (HTTPException 401 "Incorrect username or password")
  | None => raise (HTTPException 401 "Incorrect username or password")
  end.

End Session.

End Sql.

(** ** [src/backend/server.py] over MongoDB collections *)

(** A [users] document: [user_obj.dict()] plus ["password_hash"]. *)
Module UserDoc.
Record t : Type := mk {
  user : User.t;
  password_hash : string }.
End UserDoc.

(** A [relationships] document. *)
Module RelationshipDoc.
Record t : Type := mk {
  distributor_id : string;
  retailer_id : string;
  created_at : Z }.
End RelationshipDoc.

Module Mongo.

Record DB : Type := mkDB {
  users : list UserDoc.t;
  relationships : list RelationshipDoc.t;
  certificates : list Certificate.t }.

(** [collection.find_one(query)]: the first matching document. *)
Definition find_one {A} (query : A → Prop) `{∀ x, Decision (query x)}
    (collection : list A) : option A :=
  head (filter query collection).

(** [collection.update_one(query, {"$set": ...})]: the first matching
    document is rewritten. *)
Fixpoint update_one {A} (query : A → Prop) `{∀ x, Decision (query x)}
    (set : A → A) (collection : list A) : list A :=
  match collection with
  | [] => []
  | doc :: rest =>
      if decide (query doc) then set doc :: rest
      else doc :: update_one query set rest
  end.

Definition find_user (username : string) : M DB (option UserDoc.t) :=
  gets (λ db, find_one (λ u, User.username (UserDoc.user u) = username) (users db)).

Definition find_certificate (certificate_id : string) : M DB (option Certificate.t) :=
  gets (λ db, find_one (λ c, Certificate.id c = certificate_id) (certificates db)).

(** The database after [update_one({"id": certificate_id}, {"$set": ...})]. *)
Definition updated (certificate_id : string)
    (set : Certificate.t → Certificate.t) (db : DB) : DB :=
  mkDB (users db) (relationships db)
    (update_one (λ c, Certificate.id c = certificate_id) set (certificates db)).

Definition update_certificate_doc (certificate_id : string)
    (set : Certificate.t → Certificate.t) : M DB unit :=
  modify (updated certificate_id set).

(** [db.relationships.find({"distributor_id": d})], then the list of
    [rel["retailer_id"]]. *)
Definition retailer_ids_of (distributor_id : string) : M DB (list string) :=
  gets (λ db, RelationshipDoc.retailer_id <$>
                filter (λ r, RelationshipDoc.distributor_id r = distributor_id)
                  (relationships db)).

(** The reachable retailer set of a distributor, as a function of the
    database. *)
Definition reachable_retailers (db : DB) (distributor_id : string) : list string :=
  RelationshipDoc.retailer_id <$>
    filter (λ r, RelationshipDoc.distributor_id r = distributor_id)
      (relationships db).

Definition credentials_exception : exn :=
  HTTPException 401 "Could not validate credentials".

Section Handlers.

(** [jwt.decode(...)] then [payload.get("sub")], as for [Sql]. *)
Variable jwt_decode_sub : string → option (option string).

(** [hashlib.sha256(password.encode()).hexdigest()] *)
Variable sha256_hexdigest : string → string.

Definition get_current_user (credentials : string) : M DB User.t :=
  match jwt_decode_sub credentials with
  | None => raise credentials_exception
  | Some None => raise credentials_exception
  | Some (Some username) =>
      user ← find_user username;
      match user with
      | None => raise credentials_exception
      | Some user => mret (UserDoc.user user)
      end
  end.

(** A credential that resolves to no stored identity. *)
Definition no_identity (credentials : string) (db : DB) : Prop :=
  jwt_decode_sub credentials = None
  ∨ jwt_decode_sub credentials = Some None
  ∨ ∃ username, jwt_decode_sub credentials = Some (Some username)
                ∧ username ∉ (λ u, User.username (UserDoc.user u)) <$> users db.

(** [register_user]; [uid], [now] are the defaults of the new [User],
    [rel_now] the [created_at] of the relationship document. *)
Definition register_user (user_data : UserCreate.t)
    (current_user : option User.t)
    (uid : string) (now : Z) (rel_now : Z) : M DB User.t :=
  existing_user ← find_user (UserCreate.username user_data);
  unless (existing_user = None :> option UserDoc.t)
    (HTTPException 400 "Username already registered") ;;
  (if decide (UserCreate.role user_data = UserRole.ADMIN) then
     raise (HTTPException 403 "Cannot create admin users through registration")
   else if decide (UserCreate.role user_data = UserRole.DISTRIBUTOR) then
     match current_user with
     | Some cu =>
         unless (User.role cu = UserRole.ADMIN)
           (HTTPException 403 "Only admins can create distributors")
     | None => raise (HTTPException 403 "Only admins can create distributors")
     end
   else if decide (UserCreate.role user_data = UserRole.RETAILER) then
     match current_user with
     | Some cu =>
         unless (User.role cu ∈ [UserRole.ADMIN; UserRole.DISTRIBUTOR])
           (HTTPException 403 "Only admins or distributors can create retailers")
     | None =>
         raise (HTTPException 403 "Only admins or distributors can create retailers")
     end
   else mret tt) ;;
  let hashed_password := sha256_hexdigest (UserCreate.password user_data) in
  let user_obj :=
    User.mk uid (UserCreate.username user_data) (UserCreate.role user_data)
      (UserCreate.company_name user_data) (UserCreate.contact_number user_data)
      (User.id <$> current_user) now in
  modify (λ db, mkDB (users db ++ [UserDoc.mk user_obj hashed_password])
                  (relationships db) (certificates db)) ;;
  match current_user with
  | Some cu =>
      if decide (UserCreate.role user_data = UserRole.RETAILER
                 ∧ User.role cu = UserRole.DISTRIBUTOR)
      then modify (λ db, mkDB (users db)
                           (relationships db ++
                              [RelationshipDoc.mk (User.id cu) (User.id user_obj) rel_now])
                           (certificates db))
      else mret tt
  | None => mret tt
  end ;;
  mret user_obj.

(** The route [POST /api/auth/register]: the dependency
    [get_current_user] first, then the handler. *)
Definition register_route (credentials : string) (user_data : UserCreate.t)
    (uid : string) (now : Z) (rel_now : Z) : M DB User.t :=
  current_user ← get_current_user credentials;
  register_user user_data (Some current_user) uid now rel_now.

End Handlers.

(** [GET /api/certificates] *)
Definition get_certificates (caller : User.t) : M DB (list Certificate.t) :=
  if decide (User.role caller = UserRole.ADMIN) then
    gets certificates
  else if decide (User.role caller = UserRole.DISTRIBUTOR) then
    retailer_ids ← retailer_ids_of (User.id caller);
    gets (λ db, filter (λ c, Certificate.retailer_id c ∈ retailer_ids)
                  (certificates db))
  else
    gets (λ db, filter (λ c, Certificate.retailer_id c = User.id caller)
                  (certificates db)).

(** [GET /api/certificates/{certificate_id}] *)
Definition get_certificate (certificate_id : string) (caller : User.t)
    : M DB Certificate.t :=
  certificate ← find_certificate certificate_id;
  match certificate with
  | None => raise (HTTPException 404 "Certificate not found")
  | Some cert_obj =>
      (if decide (User.role caller = UserRole.RETAILER
                  ∧ Certificate.retailer_id cert_obj ≠ User.id caller) then
         raise (HTTPException 403 "Access forbidden")
       else if decide (User.role caller = UserRole.DISTRIBUTOR) then
         relationship ←
           gets (λ db, find_one
                         (λ r, RelationshipDoc.distributor_id r = User.id caller
                               ∧ RelationshipDoc.retailer_id r
                                 = Certificate.retailer_id cert_obj)
                         (relationships db));
         unless (is_Some relationship) (HTTPException 403 "Access forbidden")
       else mret tt) ;;
      mret cert_obj
  end.

(** [PUT /api/certificates/{certificate_id}] *)
Definition update_certificate (certificate_id : string)
    (cert_data : CertificateUpdate.t) (caller : User.t) (now : Z)
    : M DB Certificate.t :=
  current_user ← require_roles [UserRole.RETAILER] caller;
  certificate ← find_certificate certificate_id;
  match certificate with
  | None => raise (HTTPException 404 "Certificate not found")
  | Some certificate =>
      unless (Certificate.retailer_id certificate = User.id current_user)
        (HTTPException 403 "Access forbidden") ;;
      update_certificate_doc certificate_id
        (set_fields (CertificateUpdate.dealer_name cert_data)
           (CertificateUpdate.dealer_license cert_data)
           (CertificateUpdate.vehicle_details cert_data)
           (CertificateUpdate.owner_details cert_data)
           (CertificateUpdate.fitment_details cert_data)
           (CertificateUpdate.status cert_data) now) ;;
      updated_cert ← find_certificate certificate_id;
      match updated_cert with
      | None => raise TypeError
      | Some updated_cert => mret updated_cert
      end
  end.

(** [POST /api/certificates/{certificate_id}/upload-image]:
    [$set] of [images.<image_type>] and [updated_at]. *)
Definition upload_certificate_image (certificate_id image_type : string)
    (contents : list N) (caller : User.t) (now : Z) : M DB string :=
  current_user ← require_roles [UserRole.RETAILER] caller;
  certificate ← find_certificate certificate_id;
  match certificate with
  | None => raise (HTTPException 404 "Certificate not found")
  | Some certificate =>
      unless (Certificate.retailer_id certificate = User.id current_user)
        (HTTPException 403 "Access forbidden") ;;
      unless (image_type ∈ image_types)
        (HTTPException 400 "Invalid image type") ;;
      let encoded_image := b64encode contents in
      update_certificate_doc certificate_id
        (λ doc, set_images (<[image_type := encoded_image]> (Certificate.images doc))
                  now doc) ;;
      mret image_type
  end.

(** [GET /api/users] *)
Definition get_users (caller : User.t) : M DB (list User.t) :=
  current_user ← require_roles [UserRole.ADMIN; UserRole.DISTRIBUTOR] caller;
  docs ← (if decide (User.role current_user = UserRole.ADMIN) then
            gets users
          else
            retailer_ids ← retailer_ids_of (User.id current_user);
            gets (λ db, filter (λ u, User.id (UserDoc.user u) ∈ retailer_ids)
                          (users db)));
  mret (UserDoc.user <$> docs).

(** [POST /api/certificates] *)
Definition create_certificate (cert_data : CertificateCreate.t) (caller : User.t)
    (uid no_uuid : string) (fitment_date created_at updated_at : Z)
    : M DB Certificate.t :=
  current_user ← require_roles [UserRole.RETAILER] caller;
  let cert_obj := new_certificate (User.id current_user) cert_data
                    uid no_uuid fitment_date created_at updated_at in
  modify (λ db, mkDB (users db) (relationships db) (certificates db ++ [cert_obj])) ;;
  mret cert_obj.

(** [GET /api/dashboard/stats] *)
Definition get_dashboard_stats (caller : User.t) : M DB (gmap string Z) :=
  if decide (User.role caller = UserRole.ADMIN) then
    gets (λ db,
      list_to_map
        ([("total_users", Z.of_nat (length (users db)));
          ("total_distributors",
           Z.of_nat (length (filter (λ u, User.role (UserDoc.user u)
                                          = UserRole.DISTRIBUTOR) (users db))));
          ("total_retailers",
           Z.of_nat (length (filter (λ u, User.role (UserDoc.user u)
                                          = UserRole.RETAILER) (users db))))]
         ++ certificate_counters (certificates db)))
  else if decide (User.role caller = UserRole.DISTRIBUTOR) then
    retailer_ids ← retailer_ids_of (User.id caller);
    rows ← gets (λ db, filter (λ c, Certificate.retailer_id c ∈ retailer_ids)
                         (certificates db));
    mret (list_to_map
            (("total_retailers", Z.of_nat (length retailer_ids))
             :: certificate_counters rows))
  else
    rows ← gets (λ db, filter (λ c, Certificate.retailer_id c = User.id caller)
                         (certificates db));
    mret (list_to_map (certificate_counters rows)).

Section Session.

Variable sha256_hexdigest : string → string.

(** [jwt.encode({"sub": sub, "exp": exp}, SECRET_KEY, algorithm=ALGORITHM)] *)
Variable jwt_encode : string → Z → string.

Definition ACCESS_TOKEN_EXPIRE_MINUTES : Z := 30.

Definition get_password_hash (password : string) : string :=
  sha256_hexdigest password.

Definition verify_password (plain_password hashed_password : string) : bool :=
  bool_decide (sha256_hexdigest plain_password = hashed_password).

Definition create_access_token (sub : string) (expires_delta : option Z) (now : Z)
    : string :=
  jwt_encode sub (token_expiry expires_delta now).

(** [POST /api/auth/login] *)
Definition login (user_credentials : UserLogin.t) (now : Z) : M DB Token.t :=
  user ← find_user (UserLogin.username user_credentials);
  match user with
  | Some user =>
      if verify_password (UserLogin.password user_credentials)
           (UserDoc.password_hash user)
      then
        let access_token :=
          create_access_token (User.username (UserDoc.user user))
            (Some (timedelta_minutes ACCESS_TOKEN_EXPIRE_MINUTES)) now in
        mret (Token.mk access_token "bearer" (UserDoc.user user))
      else raise (HTTPException 401 "Incorrect username or password")
  | None => raise (HTTPException 401 "Incorrect username or password")
  end.

(** The startup hook [create_default_admin]; [uid] and [now] are the
    UUID and the clock reading of the inserted document. *)
Definition create_default_admin (uid : string) (now : Z) : M DB unit :=
  admin_exists ← gets (λ db, find_one (λ u, User.role (UserDoc.user u) = UserRole.ADMIN)
                               (users db));
  match admin_exists with
  | Some _ => mret tt
  | None =>
      modify (λ db,
        mkDB (users db ++
                [UserDoc.mk
                   (User.mk uid "admin" UserRole.ADMIN (Some "System Admin")
                      None None now)
                   (get_password_hash "admin123")])
          (relationships db) (certificates db))
  end.

End Session.

End Mongo.

(** ** Vocabulary of the properties *)

(** What it means for a handler that targets [certificate_id] to be
    reserved to the owning retailer. *)
Definition owner_only {DB A} (certificates : DB → list Certificate.t)
    (certificate_id : string) (caller : User.t) (handler : M DB A) : Prop :=
  ∀ db,
    (succeeds (handler db).1 →
     User.role caller = UserRole.RETAILER
     ∧ ∃ c, c ∈ certificates db ∧ Certificate.id c = certificate_id
            ∧ Certificate.retailer_id c = User.id caller)
    ∧ (User.role caller ≠ UserRole.RETAILER → forbidden (handler db).1)
    ∧ (∀ c, NoDup (Certificate.id <$> certificates db) →
            c ∈ certificates db → Certificate.id c = certificate_id →
            Certificate.retailer_id c ≠ User.id caller →
            forbidden (handler db).1)
    ∧ (¬ succeeds (handler db).1 → (handler db).2 = db)
    ∧ filter (λ c, Certificate.retailer_id c ≠ User.id caller)
        (certificates (handler db).2)
      = filter (λ c, Certificate.retailer_id c ≠ User.id caller) (certificates db).

(** The ways a handler guarded by role, lookup and ownership can end on
    the database [db]: refused for the role, for a missing or ambiguous
    id, or for a certificate of somebody else; failed later on a
    certificate of the caller; or done, the certificates of others being
    what they were. *)
Inductive guarded {DB A} (certificates : DB → list Certificate.t)
    (certificate_id : string) (caller : User.t) (db : DB) : outcome A * DB → Prop :=
  | guarded_role detail :
      User.role caller ≠ UserRole.RETAILER →
      guarded certificates certificate_id caller db
        (Raise (HTTPException 403 detail), db)
  | guarded_missing e :
      User.role caller = UserRole.RETAILER →
      (∀ c, c ∈ certificates db → Certificate.id c ≠ certificate_id) →
      guarded certificates certificate_id caller db (Raise e, db)
  | guarded_ambiguous e :
      User.role caller = UserRole.RETAILER →
      ¬ NoDup (Certificate.id <$> certificates db) →
      guarded certificates certificate_id caller db (Raise e, db)
  | guarded_stranger c detail :
      User.role caller = UserRole.RETAILER →
      c ∈ certificates db → Certificate.id c = certificate_id →
      Certificate.retailer_id c ≠ User.id caller →
      guarded certificates certificate_id caller db
        (Raise (HTTPException 403 detail), db)
  | guarded_failed c e :
      User.role caller = UserRole.RETAILER →
      c ∈ certificates db → Certificate.id c = certificate_id →
      Certificate.retailer_id c = User.id caller →
      guarded certificates certificate_id caller db (Raise e, db)
  | guarded_done c a db' :
      User.role caller = UserRole.RETAILER →
      c ∈ certificates db → Certificate.id c = certificate_id →
      Certificate.retailer_id c = User.id caller →
      filter (λ c, Certificate.retailer_id c ≠ User.id caller) (certificates db')
      = filter (λ c, Certificate.retailer_id c ≠ User.id caller) (certificates db) →
      guarded certificates certificate_id caller db (Ok a, db').

(** Map-update semantics of image attachment, for an [upload] handler
    of the owner [caller] on the certificate [certificate_id]: attaching
    "front" then "back" leaves both tags with their payloads, attaching
    "front" twice leaves the second payload under the one "front" key
    (the map has the size it had after the first attachment), and the
    other tags are as before. *)
Definition image_map_update {DB} (certificates : DB → list Certificate.t)
    (upload : string → list N → Z → M DB string)
    (certificate_id : string) (caller : User.t) : Prop :=
  ∀ (db : DB) (c : Certificate.t) (p1 p2 : list N) (t1 t2 : Z),
    NoDup (Certificate.id <$> certificates db) →
    c ∈ certificates db → Certificate.id c = certificate_id →
    User.role caller = UserRole.RETAILER →
    Certificate.retailer_id c = User.id caller →
    (∃ db1 db2 c2,
        upload "front" p1 t1 db = (Ok "front", db1)
        ∧ upload "back" p2 t2 db1 = (Ok "back", db2)
        ∧ c2 ∈ certificates db2 ∧ Certificate.id c2 = certificate_id
        ∧ Certificate.images c2 !! "front" = Some (b64encode p1)
        ∧ Certificate.images c2 !! "back" = Some (b64encode p2)
        ∧ ∀ tag, tag ≠ "front" → tag ≠ "back" →
                 Certificate.images c2 !! tag = Certificate.images c !! tag)
    ∧ (∃ db1 db2 c1 c2,
        upload "front" p1 t1 db = (Ok "front", db1)
        ∧ c1 ∈ certificates db1 ∧ Certificate.id c1 = certificate_id
        ∧ upload "front" p2 t2 db1 = (Ok "front", db2)
        ∧ c2 ∈ certificates db2 ∧ Certificate.id c2 = certificate_id
        ∧ Certificate.images c2 = <["front" := b64encode p2]> (Certificate.images c)
        ∧ Certificate.images c2 !! "front" = Some (b64encode p2)
        ∧ size (Certificate.images c2) = size (Certificate.images c1)
        ∧ ∀ tag, tag ≠ "front" →
                 Certificate.images c2 !! tag = Certificate.images c !! tag).

(** Whether the rules of [get_certificate] let [caller] read [c]: a
    retailer must own it, a distributor must be linked to its owner, and
    no other role is asked anything. *)
Definition sql_visible (db : Sql.DB) (caller : User.t) (c : Certificate.t) : Prop :=
  (User.role caller = UserRole.RETAILER →
   Certificate.retailer_id c = User.id caller)
  ∧ (User.role caller = UserRole.DISTRIBUTOR →
     Certificate.retailer_id c ∈ Sql.reachable_retailers db (User.id caller)).

Definition mongo_visible (db : Mongo.DB) (caller : User.t) (c : Certificate.t) : Prop :=
  (User.role caller = UserRole.RETAILER →
   Certificate.retailer_id c = User.id caller)
  ∧ (User.role caller = UserRole.DISTRIBUTOR →
     Certificate.retailer_id c ∈ Mongo.reachable_retailers db (User.id caller)).

(** [uq_distributor_retailer]: at most one edge per pair. *)
Definition sql_unique_edges (db : Sql.DB) : Prop :=
  NoDup ((λ r, (RelationshipModel.distributor_id r, RelationshipModel.retailer_id r))
           <$> Sql.relationships db).

Global Instance sql_visible_dec db caller c : Decision (sql_visible db caller c).
Proof. unfold sql_visible. apply _. Defined.

Global Instance mongo_visible_dec db caller c : Decision (mongo_visible db caller c).
Proof. unfold mongo_visible. apply _. Defined.

(** The registration rules as a table: nobody registers an admin, only
    an admin registers a distributor, only an admin or a distributor
    registers a retailer, and any other role string is unrestricted. *)
Definition may_register (current_user : option User.t) (new_role : string) : Prop :=
  new_role ≠ UserRole.ADMIN
  ∧ (new_role = UserRole.DISTRIBUTOR →
     User.role <$> current_user = Some UserRole.ADMIN)
  ∧ (new_role = UserRole.RETAILER →
     User.role <$> current_user ∈ [Some UserRole.ADMIN; Some UserRole.DISTRIBUTOR]).

Global Instance may_register_dec cu r : Decision (may_register cu r).
Proof. unfold may_register. apply _. Defined.

(** A registration that links the new retailer to the caller. *)
Definition links (current_user : option User.t) (new_role : string) : Prop :=
  new_role = UserRole.RETAILER
  ∧ User.role <$> current_user = Some UserRole.DISTRIBUTOR.

Global Instance links_dec cu r : Decision (links cu r).
Proof. unfold links. apply _. Defined.

(** Every key of every stored image map is one of the four tags. *)
Definition well_tagged (certificates : list Certificate.t) : Prop :=
  ∀ c, c ∈ certificates →
       ∀ tag, is_Some (Certificate.images c !! tag) → tag ∈ image_types.

(** The two stores hold the same data: the same users as the handlers
    return them, the same edges as pairs, the same certificates, each in
    the same order. *)
Definition same_data (s : Sql.DB) (m : Mongo.DB) : Prop :=
  Sql.to_user <$> Sql.users s = UserDoc.user <$> Mongo.users m
  ∧ (λ r, (RelationshipModel.distributor_id r, RelationshipModel.retailer_id r))
      <$> Sql.relationships s
    = (λ r, (RelationshipDoc.distributor_id r, RelationshipDoc.retailer_id r))
        <$> Mongo.relationships m
  ∧ Sql.certificates s = Mongo.certificates m.

(** ** A small population used by the examples *)

Module Fixture.

Definition admin : User.t :=
  User.mk "a1" "admin" "admin" (Some "System Admin") None None 1.
Definition dist : User.t :=
  User.mk "d1" "dist" "distributor" None None (Some "a1") 2.
Definition dist2 : User.t :=
  User.mk "d2" "dist2" "distributor" None None (Some "a1") 3.
Definition shop1 : User.t :=
  User.mk "r1" "shop1" "retailer" None None (Some "d1") 4.
Definition shop2 : User.t :=
  User.mk "r2" "shop2" "retailer" None None (Some "a1") 5.

Definition vehicle : VehicleDetails.t :=
  VehicleDetails.mk "KA01AB1234" "CH123" "Tata" "Ace" 2021 "EN123".
Definition owner : OwnerDetails.t := OwnerDetails.mk "Asha" "9999999999".
Definition fitment : FitmentDetails.t :=
  FitmentDetails.mk (S754_finite false 3 (-1)) (S754_zero false) (S754_zero false)
    (S754_finite false 1 1) (S754_zero false) (S754_zero false) 1 0.

Definition cert1 : Certificate.t :=
  Certificate.mk "c1" "CERT0000C1" "r1" "Dealer One" "L-1"
    vehicle owner fitment 100 ∅ "draft" 100 100.
Definition cert2 : Certificate.t :=
  Certificate.mk "c2" "CERT0000C2" "r2" "Dealer Two" "L-2"
    vehicle owner fitment 200 {["side1" := "AAAA"]} "submitted" 200 250.
Definition cert3 : Certificate.t :=
  Certificate.mk "c3" "CERT0000C3" "r1" "Dealer One" "L-1"
    vehicle owner fitment 300 ∅ "draft" 300 300.

Definition row (u : User.t) : UserModel.t :=
  UserModel.mk (User.id u) (User.username u) "key" "salt" (User.role u)
    (User.company_name u) (User.contact_number u) (User.created_by u)
    (User.created_at u).

Definition sql : Sql.DB :=
  Sql.mkDB (row <$> [admin; dist; dist2; shop1; shop2])
    [RelationshipModel.mk "e1" "d1" "r1" 4]
    [cert1; cert2; cert3].

Definition mongo : Mongo.DB :=
  Mongo.mkDB ((λ u, UserDoc.mk u "digest") <$> [admin; dist; dist2; shop1; shop2])
    [RelationshipDoc.mk "d1" "r1" 4]
    [cert1; cert2; cert3].

(** A token is the bare user name; ["garbage"] does not decode and
    ["nosub"] decodes to a payload without subject. *)
Definition jwt (token : string) : option (option string) :=
  if decide (token = "garbage") then None
  else if decide (token = "nosub") then Some None
  else Some (Some token).

Definition pbkdf2 (password salt : string) : string := salt +:+ password.
Definition sha256 (password : string) : string := "sha256:" +:+ password.

Definition new_user (username role : string) : UserCreate.t :=
  UserCreate.mk username "TestPass123!" role None None.

Definition patch : CertificateUpdate.t :=
  CertificateUpdate.mk (Some "Updated Dealer Name") None None None None
    (Some "submitted").


Definition order : CertificateCreate.t :=
  CertificateCreate.mk "Dealer One" "L-1" vehicle owner fitment "draft".

(** [jwt.encode] of the examples: the token is the subject. *)
Definition jwt_encode (sub : string) (exp : Z) : string := sub.

End Fixture.

(** * Properties *)

(** Unfolding of the handler monad. *)
Ltac run :=
  unfold mbind, mret, handler_bind, handler_ret, raise, gets, modify,
    unless, require_roles in *;
  simpl in *.

Example b64encode_foobar :
  b64encode [102; 111; 111; 98; 97; 114]%N = "Zm9vYmFy"
  ∧ b64encode [102; 111; 111; 98; 97]%N = "Zm9vYmE="
  ∧ b64encode [102; 111; 111; 98]%N = "Zm9vYg=="
  ∧ b64encode [] = "".
Proof. repeat split; reflexivity. Qed.

Ltac run_all :=
  repeat progress
    (unfold mbind, mret, handler_bind, handler_ret, raise, gets, modify,
       unless, require_roles in *;
     simpl in *).

(** Closed decidable propositions are settled by evaluation. *)
Ltac decide_by_compute := apply (bool_decide_unpack _); vm_compute; exact I.

Lemma role_constants_distinct :
  UserRole.ADMIN ≠ UserRole.DISTRIBUTOR
  ∧ UserRole.ADMIN ≠ UserRole.RETAILER
  ∧ UserRole.DISTRIBUTOR ≠ UserRole.RETAILER.
Proof. repeat split; discriminate. Qed.

(** ** Certificate listing *)

Section Listing.

Lemma filter_elem_of_nil {A} (P : A → Prop) `{∀ x, Decision (P x)} (l : list A) :
  (∀ x, x ∈ l → ¬ P x) → filter P l = [].
Proof.
  induction l as [|x l IH]; intros Hn; [done|].
  rewrite filter_cons_False; [|apply Hn; left].
  apply IH. intros y Hy. apply Hn. by right.
Qed.

Lemma sql_get_certificates_retailer (i : User.t) (db : Sql.DB) :
  User.role i = UserRole.RETAILER →
  Sql.get_certificates i db
  = (Ok (filter (λ c, Certificate.retailer_id c = User.id i) (Sql.certificates db)), db).
Proof.
  intros Hr. unfold Sql.get_certificates. rewrite Hr.
  rewrite !decide_False by discriminate. done.
Qed.

Lemma mongo_get_certificates_retailer (i : User.t) (db : Mongo.DB) :
  User.role i = UserRole.RETAILER →
  Mongo.get_certificates i db
  = (Ok (filter (λ c, Certificate.retailer_id c = User.id i) (Mongo.certificates db)), db).
Proof.
  intros Hr. unfold Mongo.get_certificates. rewrite Hr.
  rewrite !decide_False by discriminate. done.
Qed.

Lemma sql_get_certificates_distributor (d : User.t) (db : Sql.DB) :
  User.role d = UserRole.DISTRIBUTOR →
  Sql.get_certificates d db
  = (Ok (filter (λ c, Certificate.retailer_id c ∈ Sql.reachable_retailers db (User.id d))
           (Sql.certificates db)), db).
Proof.
  intros Hr. unfold Sql.get_certificates. rewrite Hr.
  rewrite decide_False by discriminate. rewrite decide_True by done.
  unfold Sql.select_relationships_of, Sql.reachable_retailers. run.
  destruct (RelationshipModel.retailer_id <$> _) as [|x ids] eqn:E; [|done].
  rewrite filter_elem_of_nil; [done|].
  intros c _ Hc. by apply elem_of_nil in Hc.
Qed.

Lemma mongo_get_certificates_distributor (d : User.t) (db : Mongo.DB) :
  User.role d = UserRole.DISTRIBUTOR →
  Mongo.get_certificates d db
  = (Ok (filter (λ c, Certificate.retailer_id c ∈ Mongo.reachable_retailers db (User.id d))
           (Mongo.certificates db)), db).
Proof.
  intros Hr. unfold Mongo.get_certificates. rewrite Hr.
  rewrite decide_False by discriminate. rewrite decide_True by done.
  done.
Qed.

End Listing.

(** C2. A retailer's listing is exactly the certificates he owns: the
    handler succeeds, leaves the database alone, and a certificate is in
    the result iff it is stored with [retailer_id] equal to the caller's
    id (in storage order, each as often as it is stored). *)
Theorem C2_retailer_listing_exact (i : User.t) :
  User.role i = UserRole.RETAILER →
  (∀ db : Sql.DB, ∃ result,
      Sql.get_certificates i db = (Ok result, db)
      ∧ result = filter (λ c, Certificate.retailer_id c = User.id i) (Sql.certificates db)
      ∧ ∀ c, c ∈ result ↔ c ∈ Sql.certificates db ∧ Certificate.retailer_id c = User.id i)
  ∧ (∀ db : Mongo.DB, ∃ result,
      Mongo.get_certificates i db = (Ok result, db)
      ∧ result = filter (λ c, Certificate.retailer_id c = User.id i) (Mongo.certificates db)
      ∧ ∀ c, c ∈ result ↔ c ∈ Mongo.certificates db ∧ Certificate.retailer_id c = User.id i).
Proof.
  intros Hr. split; intros db; eexists; (split; [|split; [reflexivity|]]).
  - by apply sql_get_certificates_retailer.
  - intros c. rewrite list_elem_of_filter. tauto.
  - by apply mongo_get_certificates_retailer.
  - intros c. rewrite list_elem_of_filter. tauto.
Qed.

Lemma C2_witness :
  User.role Fixture.shop1 = UserRole.RETAILER
  ∧ Sql.get_certificates Fixture.shop1 Fixture.sql
    = (Ok [Fixture.cert1; Fixture.cert3], Fixture.sql)
  ∧ Mongo.get_certificates Fixture.shop1 Fixture.mongo
    = (Ok [Fixture.cert1; Fixture.cert3], Fixture.mongo).
Proof.
  assert (Hr : User.role Fixture.shop1 = UserRole.RETAILER) by reflexivity.
  destruct (C2_retailer_listing_exact Fixture.shop1 Hr) as [Hs Hm].
  split; [exact Hr|]. split.
  - destruct (Hs Fixture.sql) as (res & -> & -> & _). reflexivity.
  - destruct (Hm Fixture.mongo) as (res & -> & -> & _). reflexivity.
Defined.

(** C3. A distributor's listing is exactly the certificates whose
    [retailer_id] is in his reachable retailer set; with an empty set the
    handler still succeeds, with the empty list. *)
Theorem C3_distributor_listing_exact (d : User.t) :
  User.role d = UserRole.DISTRIBUTOR →
  (∀ db : Sql.DB, ∃ result,
      Sql.get_certificates d db = (Ok result, db)
      ∧ (∀ c, c ∈ result ↔
              c ∈ Sql.certificates db
              ∧ Certificate.retailer_id c ∈ Sql.reachable_retailers db (User.id d))
      ∧ result = filter (λ c, Certificate.retailer_id c
                               ∈ Sql.reachable_retailers db (User.id d))
                   (Sql.certificates db)
      ∧ (Sql.reachable_retailers db (User.id d) = [] → result = []))
  ∧ (∀ db : Mongo.DB, ∃ result,
      Mongo.get_certificates d db = (Ok result, db)
      ∧ (∀ c, c ∈ result ↔
              c ∈ Mongo.certificates db
              ∧ Certificate.retailer_id c ∈ Mongo.reachable_retailers db (User.id d))
      ∧ result = filter (λ c, Certificate.retailer_id c
                               ∈ Mongo.reachable_retailers db (User.id d))
                   (Mongo.certificates db)
      ∧ (Mongo.reachable_retailers db (User.id d) = [] → result = [])).
Proof.
  intros Hr. split; intros db; eexists.
  - split; [by apply sql_get_certificates_distributor|].
    split; [|split; [reflexivity|]].
    + intros c. rewrite list_elem_of_filter. tauto.
    + intros ->. apply filter_elem_of_nil. intros c _ Hc. by apply elem_of_nil in Hc.
  - split; [by apply mongo_get_certificates_distributor|].
    split; [|split; [reflexivity|]].
    + intros c. rewrite list_elem_of_filter. tauto.
    + intros ->. apply filter_elem_of_nil. intros c _ Hc. by apply elem_of_nil in Hc.
Qed.

Lemma C3_witness :
  User.role Fixture.dist = UserRole.DISTRIBUTOR
  ∧ Sql.get_certificates Fixture.dist Fixture.sql
    = (Ok [Fixture.cert1; Fixture.cert3], Fixture.sql)
  ∧ Mongo.get_certificates Fixture.dist2 Fixture.mongo = (Ok [], Fixture.mongo).
Proof.
  assert (Hr : User.role Fixture.dist = UserRole.DISTRIBUTOR) by reflexivity.
  assert (Hr2 : User.role Fixture.dist2 = UserRole.DISTRIBUTOR) by reflexivity.
  split; [exact Hr|]. split.
  - destruct (C3_distributor_listing_exact Fixture.dist Hr) as [Hs _].
    destruct (Hs Fixture.sql) as (res & -> & _ & -> & _). reflexivity.
  - destruct (C3_distributor_listing_exact Fixture.dist2 Hr2) as [_ Hm].
    destruct (Hm Fixture.mongo) as (res & -> & _ & _ & ->); reflexivity.
Defined.

(** ** Single-certificate fetch *)

Lemma forbidden_not_found_disjoint {A} (o : outcome A) :
  not_found o → ¬ forbidden o.
Proof. intros [d ->] [d' H]. discriminate. Qed.

Lemma filter_nil_not_elem_of {A} (P : A → Prop) `{∀ x, Decision (P x)} (l : list A) :
  filter P l = [] → ∀ x, x ∈ l → ¬ P x.
Proof.
  intros Hf x Hx HP.
  assert (x ∈ filter P l) as Hin by (apply list_elem_of_filter; done).
  rewrite Hf in Hin. by apply elem_of_nil in Hin.
Qed.

Lemma sql_get_certificate_unknown (certificate_id : string) (caller : User.t) (db : Sql.DB) :
  (∀ c, c ∈ Sql.certificates db → Certificate.id c ≠ certificate_id) →
  Sql.get_certificate certificate_id caller db
  = (Raise (HTTPException 404 "Certificate not found"), db).
Proof.
  intros Hno. unfold Sql.get_certificate, Sql.select_certificate. run.
  rewrite filter_elem_of_nil by done. done.
Qed.

Lemma mongo_get_certificate_unknown (certificate_id : string) (caller : User.t) (db : Mongo.DB) :
  (∀ c, c ∈ Mongo.certificates db → Certificate.id c ≠ certificate_id) →
  Mongo.get_certificate certificate_id caller db
  = (Raise (HTTPException 404 "Certificate not found"), db).
Proof.
  intros Hno. unfold Mongo.get_certificate, Mongo.find_certificate, Mongo.find_one. run.
  rewrite filter_elem_of_nil by done. done.
Qed.

Lemma sql_get_certificate_forbidden_exists (certificate_id : string) (caller : User.t)
    (db : Sql.DB) :
  forbidden (Sql.get_certificate certificate_id caller db).1 →
  ∃ c, c ∈ Sql.certificates db ∧ Certificate.id c = certificate_id.
Proof.
  intros [d Hd].
  destruct (filter (λ c, Certificate.id c = certificate_id) (Sql.certificates db))
    as [|c rest] eqn:E.
  - rewrite sql_get_certificate_unknown in Hd; [discriminate|].
    by apply (filter_nil_not_elem_of (λ c, Certificate.id c = certificate_id)).
  - exists c.
    assert (c ∈ filter (λ c, Certificate.id c = certificate_id) (Sql.certificates db))
      as Hin by (rewrite E; left).
    apply list_elem_of_filter in Hin. tauto.
Qed.

Lemma mongo_get_certificate_forbidden_exists (certificate_id : string) (caller : User.t)
    (db : Mongo.DB) :
  forbidden (Mongo.get_certificate certificate_id caller db).1 →
  ∃ c, c ∈ Mongo.certificates db ∧ Certificate.id c = certificate_id.
Proof.
  intros [d Hd].
  destruct (filter (λ c, Certificate.id c = certificate_id) (Mongo.certificates db))
    as [|c rest] eqn:E.
  - rewrite mongo_get_certificate_unknown in Hd; [discriminate|].
    by apply (filter_nil_not_elem_of (λ c, Certificate.id c = certificate_id)).
  - exists c.
    assert (c ∈ filter (λ c, Certificate.id c = certificate_id) (Mongo.certificates db))
      as Hin by (rewrite E; left).
    apply list_elem_of_filter in Hin. tauto.
Qed.

(** C8. Fetching an id that no stored certificate carries is answered
    with not-found, for every caller and whatever his role, and never with
    forbidden; a forbidden answer is only given about a certificate that
    exists. *)
Theorem C8_not_found_before_forbidden (certificate_id : string) (caller : User.t) :
  (∀ db : Sql.DB,
      ((∀ c, c ∈ Sql.certificates db → Certificate.id c ≠ certificate_id) →
       Sql.get_certificate certificate_id caller db
       = (Raise (HTTPException 404 "Certificate not found"), db)
       ∧ not_found (Sql.get_certificate certificate_id caller db).1
       ∧ ¬ forbidden (Sql.get_certificate certificate_id caller db).1)
      ∧ (forbidden (Sql.get_certificate certificate_id caller db).1 →
         ∃ c, c ∈ Sql.certificates db ∧ Certificate.id c = certificate_id))
  ∧ (∀ db : Mongo.DB,
      ((∀ c, c ∈ Mongo.certificates db → Certificate.id c ≠ certificate_id) →
       Mongo.get_certificate certificate_id caller db
       = (Raise (HTTPException 404 "Certificate not found"), db)
       ∧ not_found (Mongo.get_certificate certificate_id caller db).1
       ∧ ¬ forbidden (Mongo.get_certificate certificate_id caller db).1)
      ∧ (forbidden (Mongo.get_certificate certificate_id caller db).1 →
         ∃ c, c ∈ Mongo.certificates db ∧ Certificate.id c = certificate_id)).
Proof.
  split; intros db; split.
  - intros Hno. pose proof (sql_get_certificate_unknown _ caller _ Hno) as E.
    assert (not_found (Sql.get_certificate certificate_id caller db).1) as Hnf
      by (rewrite E; by eexists).
    auto using forbidden_not_found_disjoint.
  - apply sql_get_certificate_forbidden_exists.
  - intros Hno. pose proof (mongo_get_certificate_unknown _ caller _ Hno) as E.
    assert (not_found (Mongo.get_certificate certificate_id caller db).1) as Hnf
      by (rewrite E; by eexists).
    auto using forbidden_not_found_disjoint.
  - apply mongo_get_certificate_forbidden_exists.
Qed.

(** The permission check on a certificate that exists, on the example
    population: the other retailer and the unlinked distributor are
    refused, the owner, his distributor and the admin are served. *)
Example get_certificate_permissions :
  (Sql.get_certificate "c1" Fixture.shop2 Fixture.sql).1
  = Raise (HTTPException 403 "Access forbidden")
  ∧ (Sql.get_certificate "c1" Fixture.dist2 Fixture.sql).1
    = Raise (HTTPException 403 "Access forbidden")
  ∧ (Sql.get_certificate "c1" Fixture.shop1 Fixture.sql).1 = Ok Fixture.cert1
  ∧ (Sql.get_certificate "c1" Fixture.dist Fixture.sql).1 = Ok Fixture.cert1
  ∧ (Sql.get_certificate "c1" Fixture.admin Fixture.sql).1 = Ok Fixture.cert1
  ∧ (Mongo.get_certificate "c1" Fixture.shop2 Fixture.mongo).1
    = Raise (HTTPException 403 "Access forbidden")
  ∧ (Mongo.get_certificate "c1" Fixture.dist2 Fixture.mongo).1
    = Raise (HTTPException 403 "Access forbidden")
  ∧ (Mongo.get_certificate "c1" Fixture.dist Fixture.mongo).1 = Ok Fixture.cert1
  ∧ (Mongo.get_certificate "nope" Fixture.shop2 Fixture.mongo).1
    = Raise (HTTPException 404 "Certificate not found").
Proof. repeat split; reflexivity. Qed.

Lemma C8_witness :
  Sql.get_certificate "c9" Fixture.shop2 Fixture.sql
  = (Raise (HTTPException 404 "Certificate not found"), Fixture.sql)
  ∧ Mongo.get_certificate "c9" Fixture.dist2 Fixture.mongo
    = (Raise (HTTPException 404 "Certificate not found"), Fixture.mongo).
Proof.
  split.
  - apply (C8_not_found_before_forbidden "c9" Fixture.shop2).
    intros c Hc. simpl in Hc.
    repeat (apply elem_of_cons in Hc as [->|Hc]); try discriminate.
    by apply elem_of_nil in Hc.
  - apply (C8_not_found_before_forbidden "c9" Fixture.dist2).
    intros c Hc. simpl in Hc.
    repeat (apply elem_of_cons in Hc as [->|Hc]); try discriminate.
    by apply elem_of_nil in Hc.
Defined.

(** ** Registration *)

Section Registration.

(** A key that occurs once among the rows selects exactly one row. *)
Lemma filter_key_unique {A K} `{EqDecision K} (key : A → K) (l : list A) (k : K) :
  NoDup (key <$> l) → k ∈ key <$> l →
  ∃ x, x ∈ l ∧ key x = k ∧ filter (λ y, key y = k) l = [x].
Proof.
  induction l as [|a l IH]; simpl; intros Hnd Hin.
  - by apply elem_of_nil in Hin.
  - apply NoDup_cons in Hnd as [Hni Hnd].
    destruct (decide (key a = k)) as [Ha|Ha].
    + exists a. split; [left|]. split; [done|].
      rewrite filter_cons_True by done. f_equal.
      apply filter_elem_of_nil. intros y Hy Hk. apply Hni.
      rewrite Ha, <- Hk. by apply list_elem_of_fmap_2.
    + apply elem_of_cons in Hin as [Hin|Hin]; [congruence|].
      destruct (IH Hnd Hin) as (x & Hx & Hk & Hf).
      exists x. split; [by right|]. split; [done|].
      by rewrite filter_cons_False.
Qed.

Lemma filter_key_fresh {A K} `{EqDecision K} (key : A → K) (l : list A) (k : K) :
  k ∉ key <$> l → filter (λ y, key y = k) l = [].
Proof.
  intros Hni. apply filter_elem_of_nil. intros y Hy Hk. apply Hni.
  rewrite <- Hk. by apply list_elem_of_fmap_2.
Qed.

Lemma filter_key_present {A K} `{EqDecision K} (key : A → K) (l : list A) (k : K) :
  k ∈ key <$> l → ∃ x rest, filter (λ y, key y = k) l = x :: rest.
Proof.
  intros Hin. apply list_elem_of_fmap in Hin as (x & -> & Hx).
  assert (x ∈ filter (λ y, key y = key x) l) as Hf
    by (apply list_elem_of_filter; done).
  destruct (filter _ l) as [|y rest]; [by apply elem_of_nil in Hf|eauto].
Qed.

Variable pbkdf2_hmac_sha256 : string → string → string.
Variable sha256_hexdigest : string → string.

Variables (user_data : UserCreate.t) (current_user : option User.t).
Variables (uid : string) (now : Z) (salt : string) (rel_uid : string) (rel_now : Z).

Lemma sql_register_duplicate (db : Sql.DB) :
  NoDup (UserModel.username <$> Sql.users db) →
  UserCreate.username user_data ∈ UserModel.username <$> Sql.users db →
  Sql.register_user pbkdf2_hmac_sha256 user_data current_user
    uid now salt rel_uid rel_now db
  = (Raise (HTTPException 400 "Username already registered"), db).
Proof.
  intros Hnd Hin.
  destruct (filter_key_unique UserModel.username _ _ Hnd Hin) as (u & _ & _ & Hf).
  unfold Sql.register_user, Sql.select_user_by_username. run.
  rewrite Hf. simpl. done.
Qed.

Lemma mongo_register_duplicate (db : Mongo.DB) :
  UserCreate.username user_data
    ∈ (λ u, User.username (UserDoc.user u)) <$> Mongo.users db →
  Mongo.register_user sha256_hexdigest user_data current_user uid now rel_now db
  = (Raise (HTTPException 400 "Username already registered"), db).
Proof.
  intros Hin.
  destruct (filter_key_present (λ u, User.username (UserDoc.user u)) _ _ Hin)
    as (u & rest & Hf).
  unfold Mongo.register_user, Mongo.find_user, Mongo.find_one. run.
  rewrite Hf. simpl. done.
Qed.

Lemma sql_register_admin (db : Sql.DB) :
  UserCreate.role user_data = UserRole.ADMIN →
  ¬ succeeds (Sql.register_user pbkdf2_hmac_sha256 user_data current_user
                uid now salt rel_uid rel_now db).1
  ∧ (Sql.register_user pbkdf2_hmac_sha256 user_data current_user
       uid now salt rel_uid rel_now db).2 = db
  ∧ (UserCreate.username user_data ∉ UserModel.username <$> Sql.users db →
     Sql.register_user pbkdf2_hmac_sha256 user_data current_user
       uid now salt rel_uid rel_now db
     = (Raise (HTTPException 403 "Cannot create admin users through registration"),
        db)).
Proof.
  intros Hr.
  unfold Sql.register_user, Sql.select_user_by_username. run.
  rewrite Hr.
  destruct (filter _ (Sql.users db)) as [|u [|u' rest]] eqn:E; simpl.
  - repeat split; try done. intros [a Ha]; discriminate.
  - repeat split; try (intros [a Ha]; discriminate); try done.
    intros Hfresh. rewrite filter_key_fresh in E by done. discriminate.
  - repeat split; try (intros [a Ha]; discriminate); try done.
    intros Hfresh. rewrite filter_key_fresh in E by done. discriminate.
Qed.

Lemma mongo_register_admin (db : Mongo.DB) :
  UserCreate.role user_data = UserRole.ADMIN →
  ¬ succeeds (Mongo.register_user sha256_hexdigest user_data current_user
                uid now rel_now db).1
  ∧ (Mongo.register_user sha256_hexdigest user_data current_user
       uid now rel_now db).2 = db
  ∧ (UserCreate.username user_data
       ∉ (λ u, User.username (UserDoc.user u)) <$> Mongo.users db →
     Mongo.register_user sha256_hexdigest user_data current_user uid now rel_now db
     = (Raise (HTTPException 403 "Cannot create admin users through registration"),
        db)).
Proof.
  intros Hr.
  unfold Mongo.register_user, Mongo.find_user, Mongo.find_one. run.
  rewrite Hr.
  destruct (filter _ (Mongo.users db)) as [|u rest] eqn:E; simpl.
  - repeat split; try done. intros [a Ha]; discriminate.
  - repeat split; try (intros [a Ha]; discriminate); try done.
    intros Hfresh.
    rewrite (filter_key_fresh (λ u, User.username (UserDoc.user u))) in E by done.
    discriminate.
Qed.

End Registration.

Section UnrecognisedRole.

Variable pbkdf2_hmac_sha256 : string → string → string.
Variable sha256_hexdigest : string → string.
Variables (user_data : UserCreate.t) (caller : User.t).
Variables (uid : string) (now : Z) (salt : string) (rel_uid : string) (rel_now : Z).

Hypothesis unrecognised :
  UserCreate.role user_data ∉ [UserRole.ADMIN; UserRole.DISTRIBUTOR; UserRole.RETAILER].

Lemma unrecognised_neq :
  UserCreate.role user_data ≠ UserRole.ADMIN
  ∧ UserCreate.role user_data ≠ UserRole.DISTRIBUTOR
  ∧ UserCreate.role user_data ≠ UserRole.RETAILER.
Proof.
  repeat split; intros E; apply unrecognised; rewrite E;
    repeat first [by left | right].
Qed.

Lemma sql_register_unrecognised (db : Sql.DB) :
  UserCreate.username user_data ∉ UserModel.username <$> Sql.users db →
  uid ∉ UserModel.id <$> Sql.users db →
  Sql.register_user pbkdf2_hmac_sha256 user_data (Some caller)
    uid now salt rel_uid rel_now db
  = (Ok (User.mk uid (UserCreate.username user_data) (UserCreate.role user_data)
           (UserCreate.company_name user_data) (UserCreate.contact_number user_data)
           (Some (User.id caller)) now),
     Sql.mkDB
       (Sql.users db ++
          [UserModel.mk uid (UserCreate.username user_data)
             (pbkdf2_hmac_sha256 (UserCreate.password user_data) salt) salt
             (UserCreate.role user_data)
             (UserCreate.company_name user_data) (UserCreate.contact_number user_data)
             (Some (User.id caller)) now])
       (Sql.relationships db) (Sql.certificates db)).
Proof.
  intros Hname Hid. destruct unrecognised_neq as (Ha & Hd & Hr).
  unfold Sql.register_user, Sql.select_user_by_username, Sql.insert_user. run.
  rewrite filter_key_fresh by done. simpl.
  rewrite !decide_False by tauto. done.
Qed.

Lemma mongo_register_unrecognised (db : Mongo.DB) :
  UserCreate.username user_data
    ∉ (λ u, User.username (UserDoc.user u)) <$> Mongo.users db →
  Mongo.register_user sha256_hexdigest user_data (Some caller) uid now rel_now db
  = (Ok (User.mk uid (UserCreate.username user_data) (UserCreate.role user_data)
           (UserCreate.company_name user_data) (UserCreate.contact_number user_data)
           (Some (User.id caller)) now),
     Mongo.mkDB
       (Mongo.users db ++
          [UserDoc.mk
             (User.mk uid (UserCreate.username user_data) (UserCreate.role user_data)
                (UserCreate.company_name user_data)
                (UserCreate.contact_number user_data)
                (Some (User.id caller)) now)
             (sha256_hexdigest (UserCreate.password user_data))])
       (Mongo.relationships db) (Mongo.certificates db)).
Proof.
  intros Hname. destruct unrecognised_neq as (Ha & Hd & Hr).
  unfold Mongo.register_user, Mongo.find_user, Mongo.find_one. run.
  rewrite (filter_key_fresh (λ u, User.username (UserDoc.user u))) by done. simpl.
  rewrite !decide_False by tauto. done.
Qed.

End UnrecognisedRole.

Section Caller.

Variable jwt_decode_sub : string → option (option string).
Variable pbkdf2_hmac_sha256 : string → string → string.
Variable sha256_hexdigest : string → string.
Variables (user_data : UserCreate.t).
Variables (uid : string) (now : Z) (salt : string) (rel_uid : string) (rel_now : Z).

(** The handler, given no caller, lets its role rules decide. *)
Lemma sql_register_no_caller (db : Sql.DB) :
  UserCreate.username user_data ∉ UserModel.username <$> Sql.users db →
  UserCreate.role user_data ∈ [UserRole.DISTRIBUTOR; UserRole.RETAILER] →
  forbidden (Sql.register_user pbkdf2_hmac_sha256 user_data None
               uid now salt rel_uid rel_now db).1
  ∧ (Sql.register_user pbkdf2_hmac_sha256 user_data None
       uid now salt rel_uid rel_now db).2 = db.
Proof.
  intros Hname Hrole.
  unfold Sql.register_user, Sql.select_user_by_username. run.
  rewrite filter_key_fresh by done. simpl.
  apply elem_of_cons in Hrole as [->|Hrole];
    [|apply elem_of_cons in Hrole as [->|Hrole]; [|by apply elem_of_nil in Hrole]];
    simpl; (split; [by eexists|done]).
Qed.

Lemma mongo_register_no_caller (db : Mongo.DB) :
  UserCreate.username user_data
    ∉ (λ u, User.username (UserDoc.user u)) <$> Mongo.users db →
  UserCreate.role user_data ∈ [UserRole.DISTRIBUTOR; UserRole.RETAILER] →
  forbidden (Mongo.register_user sha256_hexdigest user_data None uid now rel_now db).1
  ∧ (Mongo.register_user sha256_hexdigest user_data None uid now rel_now db).2 = db.
Proof.
  intros Hname Hrole.
  unfold Mongo.register_user, Mongo.find_user, Mongo.find_one. run.
  rewrite (filter_key_fresh (λ u, User.username (UserDoc.user u))) by done. simpl.
  apply elem_of_cons in Hrole as [->|Hrole];
    [|apply elem_of_cons in Hrole as [->|Hrole]; [|by apply elem_of_nil in Hrole]];
    simpl; (split; [by eexists|done]).
Qed.

Lemma sql_get_current_user_no_identity (credentials : string) (db : Sql.DB) :
  Sql.no_identity jwt_decode_sub credentials db →
  Sql.get_current_user jwt_decode_sub credentials db
  = (Raise (HTTPException 401 "Could not validate credentials"), db).
Proof.
  unfold Sql.get_current_user, Sql.select_user_by_username.
  intros [->|[->|(n & -> & Hn)]]; [done..|]. run.
  by rewrite filter_key_fresh.
Qed.

Lemma mongo_get_current_user_no_identity (credentials : string) (db : Mongo.DB) :
  Mongo.no_identity jwt_decode_sub credentials db →
  Mongo.get_current_user jwt_decode_sub credentials db
  = (Raise (HTTPException 401 "Could not validate credentials"), db).
Proof.
  unfold Mongo.get_current_user, Mongo.find_user, Mongo.find_one.
  intros [->|[->|(n & -> & Hn)]]; [done..|]. run.
  by rewrite (filter_key_fresh (λ u, User.username (UserDoc.user u))).
Qed.

(** [get_current_user] only reads. *)
Lemma sql_get_current_user_reads (credentials : string) (db : Sql.DB) :
  (Sql.get_current_user jwt_decode_sub credentials db).2 = db.
Proof.
  unfold Sql.get_current_user, Sql.select_user_by_username.
  destruct (jwt_decode_sub credentials) as [[n|]|]; [|done..]. run.
  destruct (filter _ _) as [|u [|u' rest]]; done.
Qed.

Lemma mongo_get_current_user_reads (credentials : string) (db : Mongo.DB) :
  (Mongo.get_current_user jwt_decode_sub credentials db).2 = db.
Proof.
  unfold Mongo.get_current_user, Mongo.find_user, Mongo.find_one.
  destruct (jwt_decode_sub credentials) as [[n|]|]; [|done..]. run.
  destruct (filter _ _) as [|u rest]; done.
Qed.

(** The route runs the handler only on the identity that
    [get_current_user] returned, and otherwise raises what it raised. *)
Lemma sql_register_route_cases (credentials : string) (db : Sql.DB) :
  (∃ e, Sql.get_current_user jwt_decode_sub credentials db = (Raise e, db)
        ∧ Sql.register_route jwt_decode_sub pbkdf2_hmac_sha256 credentials user_data
            uid now salt rel_uid rel_now db = (Raise e, db))
  ∨ (∃ u, Sql.get_current_user jwt_decode_sub credentials db = (Ok u, db)
          ∧ Sql.register_route jwt_decode_sub pbkdf2_hmac_sha256 credentials user_data
              uid now salt rel_uid rel_now db
            = Sql.register_user pbkdf2_hmac_sha256 user_data (Some u)
                uid now salt rel_uid rel_now db).
Proof.
  pose proof (sql_get_current_user_reads credentials db) as Hrd.
  unfold Sql.register_route, mbind, handler_bind.
  destruct (Sql.get_current_user jwt_decode_sub credentials db) as [[u|e] db'];
    simpl in Hrd; subst db'.
  - right. exists u. split; reflexivity.
  - left. exists e. split; reflexivity.
Qed.

Lemma mongo_register_route_cases (credentials : string) (db : Mongo.DB) :
  (∃ e, Mongo.get_current_user jwt_decode_sub credentials db = (Raise e, db)
        ∧ Mongo.register_route jwt_decode_sub sha256_hexdigest credentials user_data
            uid now rel_now db = (Raise e, db))
  ∨ (∃ u, Mongo.get_current_user jwt_decode_sub credentials db = (Ok u, db)
          ∧ Mongo.register_route jwt_decode_sub sha256_hexdigest credentials user_data
              uid now rel_now db
            = Mongo.register_user sha256_hexdigest user_data (Some u)
                uid now rel_now db).
Proof.
  pose proof (mongo_get_current_user_reads credentials db) as Hrd.
  unfold Mongo.register_route, mbind, handler_bind.
  destruct (Mongo.get_current_user jwt_decode_sub credentials db) as [[u|e] db'];
    simpl in Hrd; subst db'.
  - right. exists u. split; reflexivity.
  - left. exists e. split; reflexivity.
Qed.

End Caller.

(** The registration rules on the example population, as the
    repository's [backend_test.py] exercises them: an admin creates a
    distributor, a distributor creates a retailer and is linked to it, a
    retailer may create nobody. *)
Example register_rules :
  (∃ u db', Sql.register_user Fixture.pbkdf2 (Fixture.new_user "dist9" "distributor")
              (Some Fixture.admin) "u9" 900 "salt9" "e9" 901 Fixture.sql = (Ok u, db')
            ∧ User.created_by u = Some "a1"
            ∧ Sql.relationships db' = Sql.relationships Fixture.sql)
  ∧ (∃ u db', Sql.register_user Fixture.pbkdf2 (Fixture.new_user "shop9" "retailer")
                (Some Fixture.dist) "u9" 900 "salt9" "e9" 901 Fixture.sql = (Ok u, db')
              ∧ Sql.relationships db'
                = (Sql.relationships Fixture.sql
                     ++ [RelationshipModel.mk "e9" "d1" "u9" 901])%list)
  ∧ (∃ u db', Mongo.register_user Fixture.sha256 (Fixture.new_user "shop9" "retailer")
                (Some Fixture.dist) "u9" 900 901 Fixture.mongo = (Ok u, db')
              ∧ Mongo.relationships db'
                = (Mongo.relationships Fixture.mongo
                     ++ [RelationshipDoc.mk "d1" "u9" 901])%list)
  ∧ Sql.register_user Fixture.pbkdf2 (Fixture.new_user "unauthorized_user" "retailer")
      (Some Fixture.shop1) "u9" 900 "salt9" "e9" 901 Fixture.sql
    = (Raise (HTTPException 403 "Only admins or distributors can create retailers"),
       Fixture.sql)
  ∧ Mongo.register_user Fixture.sha256 (Fixture.new_user "dist9" "distributor")
      (Some Fixture.dist) "u9" 900 901 Fixture.mongo
    = (Raise (HTTPException 403 "Only admins can create distributors"), Fixture.mongo).
Proof.
  split; [do 2 eexists; split; [vm_compute; reflexivity|split; reflexivity]|].
  split; [do 2 eexists; split; [vm_compute; reflexivity|reflexivity]|].
  split; [do 2 eexists; split; [vm_compute; reflexivity|reflexivity]|].
  split; reflexivity.
Qed.






(** C6. The username-uniqueness check comes before every role rule:
    registering a username that is already stored fails with the conflict
    answer, for every caller (present or absent) and every requested
    role, and nothing is written.  (The SQL store keeps usernames unique,
    which is what lets its lookup return the one existing row.) *)
Theorem C6_duplicate_username_conflict
    (pbkdf2_hmac_sha256 : string → string → string)
    (sha256_hexdigest : string → string)
    (user_data : UserCreate.t) (current_user : option User.t)
    (uid : string) (now : Z) (salt : string) (rel_uid : string) (rel_now : Z) :
  (∀ db : Sql.DB,
      NoDup (UserModel.username <$> Sql.users db) →
      UserCreate.username user_data ∈ UserModel.username <$> Sql.users db →
      let r := Sql.register_user pbkdf2_hmac_sha256 user_data current_user
                 uid now salt rel_uid rel_now db in
      r = (Raise (HTTPException 400 "Username already registered"), db)
      ∧ conflict r.1)
  ∧ (∀ db : Mongo.DB,
      UserCreate.username user_data
        ∈ (λ u, User.username (UserDoc.user u)) <$> Mongo.users db →
      let r := Mongo.register_user sha256_hexdigest user_data current_user
                 uid now rel_now db in
      r = (Raise (HTTPException 400 "Username already registered"), db)
      ∧ conflict r.1).
Proof.
  split; intros db.
  - intros Hnd Hin r. subst r.
    rewrite (sql_register_duplicate pbkdf2_hmac_sha256 user_data current_user
               uid now salt rel_uid rel_now db Hnd Hin).
    split; [done|by left].
  - intros Hin r. subst r.
    rewrite (mongo_register_duplicate sha256_hexdigest user_data current_user
               uid now rel_now db Hin).
    split; [done|by left].
Qed.

Lemma C6_witness :
  conflict (Sql.register_user Fixture.pbkdf2 (Fixture.new_user "dist" "distributor")
              (Some Fixture.shop1) "u9" 900 "salt9" "e9" 901 Fixture.sql).1
  ∧ conflict (Mongo.register_user Fixture.sha256 (Fixture.new_user "dist" "admin")
                None "u9" 900 901 Fixture.mongo).1.
Proof.
  split.
  - apply (C6_duplicate_username_conflict Fixture.pbkdf2 Fixture.sha256
             (Fixture.new_user "dist" "distributor") (Some Fixture.shop1)
             "u9" 900 "salt9" "e9" 901); decide_by_compute.
  - apply (C6_duplicate_username_conflict Fixture.pbkdf2 Fixture.sha256
             (Fixture.new_user "dist" "admin") None
             "u9" 900 "salt9" "e9" 901); decide_by_compute.
Defined.

(** C7, as the code has it.  The handler takes an optional caller and,
    given none, lets the role rules answer: a distributor or retailer
    registration under a fresh username is forbidden.  The route however
    obtains the caller from [get_current_user]: a credential that does not
    decode, has no subject or names no stored user is answered with
    unauthenticated before the handler runs, and the handler only ever
    runs on the identity so obtained. *)
Theorem C7_caller_resolved_before_rules
    (jwt_decode_sub : string → option (option string))
    (pbkdf2_hmac_sha256 : string → string → string)
    (sha256_hexdigest : string → string)
    (user_data : UserCreate.t)
    (uid : string) (now : Z) (salt : string) (rel_uid : string) (rel_now : Z) :
  (∀ db : Sql.DB,
      (UserCreate.username user_data ∉ UserModel.username <$> Sql.users db →
       UserCreate.role user_data ∈ [UserRole.DISTRIBUTOR; UserRole.RETAILER] →
       forbidden (Sql.register_user pbkdf2_hmac_sha256 user_data None
                    uid now salt rel_uid rel_now db).1)
      ∧ ∀ credentials,
          (Sql.no_identity jwt_decode_sub credentials db →
           Sql.register_route jwt_decode_sub pbkdf2_hmac_sha256 credentials user_data
             uid now salt rel_uid rel_now db
           = (Raise (HTTPException 401 "Could not validate credentials"), db))
          ∧ ((∃ e, Sql.get_current_user jwt_decode_sub credentials db = (Raise e, db)
                   ∧ Sql.register_route jwt_decode_sub pbkdf2_hmac_sha256 credentials
                       user_data uid now salt rel_uid rel_now db = (Raise e, db))
             ∨ (∃ u, Sql.get_current_user jwt_decode_sub credentials db = (Ok u, db)
                     ∧ Sql.register_route jwt_decode_sub pbkdf2_hmac_sha256 credentials
                         user_data uid now salt rel_uid rel_now db
                       = Sql.register_user pbkdf2_hmac_sha256 user_data (Some u)
                           uid now salt rel_uid rel_now db)))
  ∧ (∀ db : Mongo.DB,
      (UserCreate.username user_data
         ∉ (λ u, User.username (UserDoc.user u)) <$> Mongo.users db →
       UserCreate.role user_data ∈ [UserRole.DISTRIBUTOR; UserRole.RETAILER] →
       forbidden (Mongo.register_user sha256_hexdigest user_data None
                    uid now rel_now db).1)
      ∧ ∀ credentials,
          (Mongo.no_identity jwt_decode_sub credentials db →
           Mongo.register_route jwt_decode_sub sha256_hexdigest credentials user_data
             uid now rel_now db
           = (Raise (HTTPException 401 "Could not validate credentials"), db))
          ∧ ((∃ e, Mongo.get_current_user jwt_decode_sub credentials db = (Raise e, db)
                   ∧ Mongo.register_route jwt_decode_sub sha256_hexdigest credentials
                       user_data uid now rel_now db = (Raise e, db))
             ∨ (∃ u, Mongo.get_current_user jwt_decode_sub credentials db = (Ok u, db)
                     ∧ Mongo.register_route jwt_decode_sub sha256_hexdigest credentials
                         user_data uid now rel_now db
                       = Mongo.register_user sha256_hexdigest user_data (Some u)
                           uid now rel_now db))).
Proof.
  split; intros db; split.
  - intros Hname Hrole.
    by apply (sql_register_no_caller pbkdf2_hmac_sha256 user_data
                uid now salt rel_uid rel_now db Hname Hrole).
  - intros credentials. split; [|apply sql_register_route_cases].
    intros Hno.
    destruct (sql_register_route_cases jwt_decode_sub pbkdf2_hmac_sha256 user_data
                uid now salt rel_uid rel_now credentials db)
      as [(e & Hg & ->)|(u & Hg & _)];
      rewrite sql_get_current_user_no_identity in Hg by done; congruence.
  - intros Hname Hrole.
    by apply (mongo_register_no_caller sha256_hexdigest user_data
                uid now rel_now db Hname Hrole).
  - intros credentials. split; [|apply mongo_register_route_cases].
    intros Hno.
    destruct (mongo_register_route_cases jwt_decode_sub sha256_hexdigest user_data
                uid now rel_now credentials db)
      as [(e & Hg & ->)|(u & Hg & _)];
      rewrite mongo_get_current_user_no_identity in Hg by done; congruence.
Qed.

Lemma C7_witness :
  forbidden (Sql.register_user Fixture.pbkdf2 (Fixture.new_user "shop9" "retailer") None
               "u9" 900 "salt9" "e9" 901 Fixture.sql).1
  ∧ Mongo.register_route Fixture.jwt Fixture.sha256 "nobody"
      (Fixture.new_user "shop9" "retailer") "u9" 900 901 Fixture.mongo
    = (Raise (HTTPException 401 "Could not validate credentials"), Fixture.mongo).
Proof.
  destruct (C7_caller_resolved_before_rules Fixture.jwt Fixture.pbkdf2 Fixture.sha256
              (Fixture.new_user "shop9" "retailer") "u9" 900 "salt9" "e9" 901)
    as [Hs Hm].
  split.
  - apply (Hs Fixture.sql); decide_by_compute.
  - apply (Hm Fixture.mongo). right; right. exists "nobody".
    split; [reflexivity|decide_by_compute].
Defined.

(** C7 as stated fails: a registration request whose credential resolves
    to no identity is answered with unauthenticated by the dependency; the
    role rules, which would have answered forbidden, are not reached. *)
Lemma C7_counterexample :
  UserCreate.role (Fixture.new_user "shop9" "retailer") = UserRole.RETAILER
  ∧ Sql.get_current_user Fixture.jwt "garbage" Fixture.sql
    = (Raise (HTTPException 401 "Could not validate credentials"), Fixture.sql)
  ∧ unauthenticated
      (Sql.register_route Fixture.jwt Fixture.pbkdf2 "garbage"
         (Fixture.new_user "shop9" "retailer") "u9" 900 "salt9" "e9" 901 Fixture.sql).1
  ∧ ¬ forbidden
      (Sql.register_route Fixture.jwt Fixture.pbkdf2 "garbage"
         (Fixture.new_user "shop9" "retailer") "u9" 900 "salt9" "e9" 901 Fixture.sql).1
  ∧ unauthenticated
      (Mongo.register_route Fixture.jwt Fixture.sha256 "nobody"
         (Fixture.new_user "shop9" "retailer") "u9" 900 901 Fixture.mongo).1
  ∧ ¬ forbidden
      (Mongo.register_route Fixture.jwt Fixture.sha256 "nobody"
         (Fixture.new_user "shop9" "retailer") "u9" 900 901 Fixture.mongo).1.
Proof.
  repeat split; try reflexivity;
    try (eexists; reflexivity);
    intros [d Hd]; vm_compute in Hd; discriminate.
Qed.

(** ** Certificate mutation *)

Section Mutation.

Lemma lookup_unique (l : list Certificate.t) (c : Certificate.t) (cid : string) :
  NoDup (Certificate.id <$> l) → c ∈ l → Certificate.id c = cid →
  filter (λ x, Certificate.id x = cid) l = [c].
Proof.
  intros Hnd Hin Hid.
  destruct (filter_key_unique Certificate.id l cid Hnd) as (x & _ & _ & Hf).
  { rewrite <- Hid. by apply list_elem_of_fmap_2. }
  assert (c ∈ filter (λ x, Certificate.id x = cid) l) as Hc
    by (apply list_elem_of_filter; done).
  rewrite Hf in Hc. apply list_elem_of_singleton in Hc. by subst.
Qed.

Lemma filter_head_elem_of {A} (P : A → Prop) `{∀ x, Decision (P x)}
    (l : list A) (x : A) (rest : list A) :
  filter P l = x :: rest → x ∈ l ∧ P x.
Proof.
  intros E. assert (x ∈ filter P l) as Hx by (rewrite E; left).
  apply list_elem_of_filter in Hx. tauto.
Qed.

(** [update ... where id == cid] against a later [select ... where id == cid],
    for new values that keep the id. *)
Lemma select_after_update (cid : string) (values : Certificate.t → Certificate.t)
    (l : list Certificate.t) :
  (∀ c, Certificate.id (values c) = Certificate.id c) →
  filter (λ c, Certificate.id c = cid)
    ((λ c, if decide (Certificate.id c = cid) then values c else c) <$> l)
  = values <$> filter (λ c, Certificate.id c = cid) l.
Proof.
  intros Hid. induction l as [|x l IH]; [done|].
  rewrite fmap_cons. destruct (decide (Certificate.id x = cid)) as [Hx|Hx].
  - rewrite !filter_cons_True by (rewrite ?Hid; done).
    rewrite fmap_cons. by f_equal.
  - by rewrite !filter_cons_False by done.
Qed.

(** Rows of other owners are not touched by [update ... where], when
    every selected row belongs to [owner]. *)
Lemma others_after_update (cid owner : string) (values : Certificate.t → Certificate.t)
    (l : list Certificate.t) :
  (∀ c, Certificate.retailer_id (values c) = Certificate.retailer_id c) →
  (∀ c, c ∈ l → Certificate.id c = cid → Certificate.retailer_id c = owner) →
  filter (λ c, Certificate.retailer_id c ≠ owner)
    ((λ c, if decide (Certificate.id c = cid) then values c else c) <$> l)
  = filter (λ c, Certificate.retailer_id c ≠ owner) l.
Proof.
  intros Hkeep. induction l as [|x l IH]; intros Hown; [done|].
  rewrite fmap_cons.
  assert (∀ c, c ∈ l → Certificate.id c = cid → Certificate.retailer_id c = owner)
    as Hown' by (intros c Hc; apply Hown; by right).
  destruct (decide (Certificate.id x = cid)) as [Hx|Hx].
  - assert (Certificate.retailer_id x = owner) as Hox by (apply Hown; [left|done]).
    rewrite !filter_cons_False by (rewrite ?Hkeep; tauto). auto.
  - destruct (decide (Certificate.retailer_id x ≠ owner)).
    + rewrite !filter_cons_True by done. f_equal; auto.
    + rewrite !filter_cons_False by done. auto.
Qed.

(** [update_one] against a later [find_one] on the same query. *)
Lemma find_after_update_one (cid : string) (set : Certificate.t → Certificate.t)
    (l : list Certificate.t) (c : Certificate.t) :
  (∀ c, Certificate.id (set c) = Certificate.id c) →
  Mongo.find_one (λ c, Certificate.id c = cid) l = Some c →
  Mongo.find_one (λ c, Certificate.id c = cid)
    (Mongo.update_one (λ c, Certificate.id c = cid) set l)
  = Some (set c).
Proof.
  intros Hid. unfold Mongo.find_one.
  induction l as [|x l IH]; simpl; [done|].
  destruct (decide (Certificate.id x = cid)) as [Hx|Hx].
  - rewrite !filter_cons_True by (rewrite ?Hid; done). simpl. congruence.
  - rewrite !filter_cons_False by done. auto.
Qed.

Lemma others_after_update_one (cid owner : string) (set : Certificate.t → Certificate.t)
    (l : list Certificate.t) (c : Certificate.t) :
  (∀ c, Certificate.retailer_id (set c) = Certificate.retailer_id c) →
  Mongo.find_one (λ c, Certificate.id c = cid) l = Some c →
  Certificate.retailer_id c = owner →
  filter (λ c, Certificate.retailer_id c ≠ owner)
    (Mongo.update_one (λ c, Certificate.id c = cid) set l)
  = filter (λ c, Certificate.retailer_id c ≠ owner) l.
Proof.
  intros Hkeep. unfold Mongo.find_one.
  induction l as [|x l IH]; simpl; [done|].
  destruct (decide (Certificate.id x = cid)) as [Hx|Hx].
  - rewrite filter_cons_True by done. simpl. intros [= ->] Hown.
    rewrite !filter_cons_False by (rewrite ?Hkeep; tauto). done.
  - rewrite filter_cons_False by done. intros Hf Hown.
    destruct (decide (Certificate.retailer_id x ≠ owner)).
    + rewrite !filter_cons_True by done. f_equal; auto.
    + rewrite !filter_cons_False by done. auto.
Qed.

Lemma find_one_Some_elem_of (cid : string) (l : list Certificate.t) (c : Certificate.t) :
  Mongo.find_one (λ c, Certificate.id c = cid) l = Some c →
  c ∈ l ∧ Certificate.id c = cid.
Proof.
  unfold Mongo.find_one. destruct (filter _ l) as [|x rest] eqn:E; [done|].
  intros [= ->]. by apply (filter_head_elem_of (λ c, Certificate.id c = cid)) in E.
Qed.

Lemma find_one_unique (cid : string) (l : list Certificate.t) (c : Certificate.t) :
  NoDup (Certificate.id <$> l) → c ∈ l → Certificate.id c = cid →
  Mongo.find_one (λ c, Certificate.id c = cid) l = Some c.
Proof.
  intros Hnd Hin Hid. unfold Mongo.find_one. by rewrite (lookup_unique l c cid).
Qed.

Lemma set_fields_keeps a b c d e f now (x : Certificate.t) :
  Certificate.id (set_fields a b c d e f now x) = Certificate.id x
  ∧ Certificate.certificate_no (set_fields a b c d e f now x)
    = Certificate.certificate_no x
  ∧ Certificate.retailer_id (set_fields a b c d e f now x) = Certificate.retailer_id x
  ∧ Certificate.updated_at (set_fields a b c d e f now x) = now.
Proof. done. Qed.

End Mutation.

Section SqlMutation.

Variables (certificate_id : string) (caller : User.t) (now : Z).

Lemma sql_update_certificate_owner (cert_data : CertificateUpdate.t)
    (db : Sql.DB) (c : Certificate.t) :
  User.role caller = UserRole.RETAILER →
  filter (λ x, Certificate.id x = certificate_id) (Sql.certificates db) = [c] →
  Certificate.retailer_id c = User.id caller →
  CertificateUpdate.vehicle_details cert_data = None →
  CertificateUpdate.owner_details cert_data = None →
  CertificateUpdate.fitment_details cert_data = None →
  let values := set_fields (CertificateUpdate.dealer_name cert_data)
                  (CertificateUpdate.dealer_license cert_data) None None None
                  (CertificateUpdate.status cert_data) now in
  Sql.update_certificate certificate_id cert_data caller now db
  = (Ok (values c), Sql.updated certificate_id values db).
Proof.
  intros Hrole Hsel Hown Hv Ho Hf values.
  unfold Sql.update_certificate, Sql.select_certificate, Sql.update_certificates. run_all.
  rewrite Hrole, decide_True by (apply list_elem_of_singleton; done). simpl.
  rewrite Hsel. simpl. rewrite decide_True by done. simpl.
  rewrite Hv, Ho, Hf. simpl.
  rewrite select_after_update by done. rewrite Hsel. done.
Qed.

Lemma sql_update_certificate_cases (cert_data : CertificateUpdate.t) (db : Sql.DB) :
  let r := Sql.update_certificate certificate_id cert_data caller now db in
  let values := set_fields (CertificateUpdate.dealer_name cert_data)
                  (CertificateUpdate.dealer_license cert_data) None None None
                  (CertificateUpdate.status cert_data) now in
  (User.role caller ≠ UserRole.RETAILER
   ∧ r = (Raise (HTTPException 403 "Insufficient permissions"), db))
  ∨ (User.role caller = UserRole.RETAILER
     ∧ ((filter (λ x, Certificate.id x = certificate_id) (Sql.certificates db) = []
         ∧ r = (Raise (HTTPException 404 "Certificate not found"), db))
        ∨ (∃ c c' rest,
             filter (λ x, Certificate.id x = certificate_id) (Sql.certificates db)
             = c :: c' :: rest
             ∧ r = (Raise MultipleResultsFound, db))
        ∨ (∃ c,
             filter (λ x, Certificate.id x = certificate_id) (Sql.certificates db) = [c]
             ∧ ((Certificate.retailer_id c ≠ User.id caller
                 ∧ r = (Raise (HTTPException 403 "Access forbidden"), db))
                ∨ (Certificate.retailer_id c = User.id caller
                   ∧ ((r = (Raise AttributeError, db))
                      ∨ r = (Ok (values c), Sql.updated certificate_id values db))))))).
Proof.
  intros r values.
  destruct (decide (User.role caller = UserRole.RETAILER)) as [Hrole|Hrole]; [right|left].
  - split; [done|].
    destruct (filter (λ x, Certificate.id x = certificate_id) (Sql.certificates db))
      as [|c [|c' rest]] eqn:Hsel.
    + left. split; [done|]. subst r.
      unfold Sql.update_certificate, Sql.select_certificate. run_all.
      rewrite Hrole, decide_True by (apply list_elem_of_singleton; done). simpl.
      by rewrite Hsel.
    + right; right. exists c. split; [done|].
      destruct (decide (Certificate.retailer_id c = User.id caller)) as [Hown|Hown];
        [right|left]; (split; [done|]).
      * destruct (CertificateUpdate.vehicle_details cert_data) eqn:Hv;
          [|destruct (CertificateUpdate.owner_details cert_data) eqn:Ho;
            [|destruct (CertificateUpdate.fitment_details cert_data) eqn:Hf]];
          [left; subst r..|right; by apply sql_update_certificate_owner];
          unfold Sql.update_certificate, Sql.select_certificate; run_all;
          rewrite Hrole, decide_True by (apply list_elem_of_singleton; done); simpl;
          rewrite Hsel; simpl; rewrite decide_True by done; simpl;
          rewrite ?Hv, ?Ho, ?Hf; done.
      * subst r. unfold Sql.update_certificate, Sql.select_certificate. run_all.
        rewrite Hrole, decide_True by (apply list_elem_of_singleton; done). simpl.
        rewrite Hsel. simpl. by rewrite decide_False by done.
    + right; left. exists c, c', rest. split; [done|]. subst r.
      unfold Sql.update_certificate, Sql.select_certificate. run_all.
      rewrite Hrole, decide_True by (apply list_elem_of_singleton; done). simpl.
      by rewrite Hsel.
  - split; [done|]. subst r. unfold Sql.update_certificate. run_all.
    rewrite decide_False; [done|].
    intros Hin. by apply list_elem_of_singleton in Hin.
Qed.

End SqlMutation.

Section Guarded.

Context {DB A : Type} (certificates : DB → list Certificate.t).
Variables (certificate_id : string) (caller : User.t).

Lemma same_id_same_row (l : list Certificate.t) (c c' : Certificate.t) :
  NoDup (Certificate.id <$> l) → c ∈ l → c' ∈ l →
  Certificate.id c = Certificate.id c' → c = c'.
Proof.
  intros Hnd Hc Hc' Hid.
  pose proof (lookup_unique l c (Certificate.id c) Hnd Hc eq_refl) as E.
  pose proof (lookup_unique l c' (Certificate.id c) Hnd Hc' (eq_sym Hid)) as E'.
  congruence.
Qed.

Lemma guarded_owner_only (handler : M DB A) :
  (∀ db, guarded certificates certificate_id caller db (handler db)) →
  owner_only certificates certificate_id caller handler.
Proof.
  intros Hg db. specialize (Hg db).
  inversion Hg as [d Hrole E|e Hrole Hmiss E|e Hrole Hdup E|c d Hrole Hc Hid Hown E
                   |c e Hrole Hc Hid Hown E|c a db' Hrole Hc Hid Hown Hothers E];
    simpl; (split; [|split; [|split; [|split]]]); try done.
  all: try (intros [a' Ha']; discriminate).
  all: try (intros _; by eexists).
  all: try (intros _; by eauto).
  - intros c _ _ _ _. by eexists.
  - intros c _ Hc Hid _. by destruct (Hmiss c Hc).
  - intros c' _ _ _ _. by eexists.
  - intros c' Hnd Hc' Hid' Hstr. destruct Hstr.
    rewrite (same_id_same_row _ c' c Hnd Hc' Hc) by congruence. done.
  - intros c' Hnd Hc' Hid' Hstr. destruct Hstr.
    rewrite (same_id_same_row _ c' c Hnd Hc' Hc) by congruence. done.
  - intros Hns. destruct Hns. by eexists.
Qed.

End Guarded.

Section SqlUpload.

Variables (certificate_id image_type : string) (contents : list N).
Variables (caller : User.t) (now : Z).

Lemma sql_upload_certificate_image_cases (db : Sql.DB) :
  let r := Sql.upload_certificate_image certificate_id image_type contents caller now db in
  (User.role caller ≠ UserRole.RETAILER
   ∧ r = (Raise (HTTPException 403 "Insufficient permissions"), db))
  ∨ (User.role caller = UserRole.RETAILER
     ∧ ((filter (λ x, Certificate.id x = certificate_id) (Sql.certificates db) = []
         ∧ r = (Raise (HTTPException 404 "Certificate not found"), db))
        ∨ (∃ c c' rest,
             filter (λ x, Certificate.id x = certificate_id) (Sql.certificates db)
             = c :: c' :: rest
             ∧ r = (Raise MultipleResultsFound, db))
        ∨ (∃ c,
             filter (λ x, Certificate.id x = certificate_id) (Sql.certificates db) = [c]
             ∧ ((Certificate.retailer_id c ≠ User.id caller
                 ∧ r = (Raise (HTTPException 403 "Access forbidden"), db))
                ∨ (Certificate.retailer_id c = User.id caller
                   ∧ (((image_type ∉ image_types)
                       ∧ r = (Raise (HTTPException 400 "Invalid image type"), db))
                      ∨ (image_type ∈ image_types
                         ∧ r = (Ok image_type,
                                Sql.updated certificate_id
                                  (set_images
                                     (<[image_type := b64encode contents]>
                                        (Certificate.images c)) now) db)))))))).
Proof.
  intros r. subst r.
  unfold Sql.upload_certificate_image, Sql.select_certificate, Sql.update_certificates.
  run_all.
  destruct (decide (User.role caller = UserRole.RETAILER)) as [Hrole|Hrole]; [right|left].
  - split; [done|].
    rewrite decide_True by (apply list_elem_of_singleton; done). simpl.
    destruct (filter (λ x, Certificate.id x = certificate_id) (Sql.certificates db))
      as [|c [|c' rest]] eqn:Hsel; simpl.
    + by left.
    + right; right. exists c. split; [done|].
      destruct (decide (Certificate.retailer_id c = User.id caller)) as [Hown|Hown];
        [right|left]; (split; [done|]); [|done].
      destruct (decide (image_type ∈ image_types)); [right|left]; done.
    + right; left. by exists c, c', rest.
  - split; [done|]. rewrite decide_False; [done|].
    intros Hin. by apply list_elem_of_singleton in Hin.
Qed.

End SqlUpload.

Section MongoMutation.

Variables (certificate_id : string) (caller : User.t) (now : Z).

Lemma mongo_update_certificate_cases (cert_data : CertificateUpdate.t) (db : Mongo.DB) :
  let r := Mongo.update_certificate certificate_id cert_data caller now db in
  let set := set_fields (CertificateUpdate.dealer_name cert_data)
               (CertificateUpdate.dealer_license cert_data)
               (CertificateUpdate.vehicle_details cert_data)
               (CertificateUpdate.owner_details cert_data)
               (CertificateUpdate.fitment_details cert_data)
               (CertificateUpdate.status cert_data) now in
  (User.role caller ≠ UserRole.RETAILER
   ∧ r = (Raise (HTTPException 403 "Insufficient permissions"), db))
  ∨ (User.role caller = UserRole.RETAILER
     ∧ ((Mongo.find_one (λ x, Certificate.id x = certificate_id) (Mongo.certificates db)
         = None
         ∧ r = (Raise (HTTPException 404 "Certificate not found"), db))
        ∨ (∃ c,
             Mongo.find_one (λ x, Certificate.id x = certificate_id)
               (Mongo.certificates db) = Some c
             ∧ ((Certificate.retailer_id c ≠ User.id caller
                 ∧ r = (Raise (HTTPException 403 "Access forbidden"), db))
                ∨ (Certificate.retailer_id c = User.id caller
                   ∧ r = (Ok (set c), Mongo.updated certificate_id set db)))))).
Proof.
  intros r set. subst r.
  unfold Mongo.update_certificate, Mongo.find_certificate, Mongo.update_certificate_doc.
  run_all.
  destruct (decide (User.role caller = UserRole.RETAILER)) as [Hrole|Hrole]; [right|left].
  - split; [done|].
    rewrite decide_True by (apply list_elem_of_singleton; done). simpl.
    destruct (Mongo.find_one (λ x, Certificate.id x = certificate_id)
                (Mongo.certificates db)) as [c|] eqn:Hsel; simpl; [right|by left].
    exists c. split; [done|].
    destruct (decide (Certificate.retailer_id c = User.id caller)) as [Hown|Hown];
      [right|left]; (split; [done|]); [|done].
    unfold Mongo.updated at 1. simpl.
    by rewrite (find_after_update_one _ _ _ c).
  - split; [done|]. rewrite decide_False; [done|].
    intros Hin. by apply list_elem_of_singleton in Hin.
Qed.

Lemma mongo_upload_certificate_image_cases (image_type : string) (contents : list N)
    (db : Mongo.DB) :
  let r := Mongo.upload_certificate_image certificate_id image_type contents caller now db in
  (User.role caller ≠ UserRole.RETAILER
   ∧ r = (Raise (HTTPException 403 "Insufficient permissions"), db))
  ∨ (User.role caller = UserRole.RETAILER
     ∧ ((Mongo.find_one (λ x, Certificate.id x = certificate_id) (Mongo.certificates db)
         = None
         ∧ r = (Raise (HTTPException 404 "Certificate not found"), db))
        ∨ (∃ c,
             Mongo.find_one (λ x, Certificate.id x = certificate_id)
               (Mongo.certificates db) = Some c
             ∧ ((Certificate.retailer_id c ≠ User.id caller
                 ∧ r = (Raise (HTTPException 403 "Access forbidden"), db))
                ∨ (Certificate.retailer_id c = User.id caller
                   ∧ (((image_type ∉ image_types)
                       ∧ r = (Raise (HTTPException 400 "Invalid image type"), db))
                      ∨ (image_type ∈ image_types
                         ∧ r = (Ok image_type,
                                Mongo.updated certificate_id
                                  (λ doc, set_images
                                            (<[image_type := b64encode contents]>
                                               (Certificate.images doc)) now doc)
                                  db)))))))).
Proof.
  intros r. subst r.
  unfold Mongo.upload_certificate_image, Mongo.find_certificate,
    Mongo.update_certificate_doc.
  run_all.
  destruct (decide (User.role caller = UserRole.RETAILER)) as [Hrole|Hrole]; [right|left].
  - split; [done|].
    rewrite decide_True by (apply list_elem_of_singleton; done). simpl.
    destruct (Mongo.find_one (λ x, Certificate.id x = certificate_id)
                (Mongo.certificates db)) as [c|] eqn:Hsel; simpl; [right|by left].
    exists c. split; [done|].
    destruct (decide (Certificate.retailer_id c = User.id caller)) as [Hown|Hown];
      [right|left]; (split; [done|]); [|done].
    destruct (decide (image_type ∈ image_types)); [right|left]; done.
  - split; [done|]. rewrite decide_False; [done|].
    intros Hin. by apply list_elem_of_singleton in Hin.
Qed.

End MongoMutation.

Section GuardedHandlers.

Variables (certificate_id : string) (caller : User.t) (now : Z).

Lemma sql_ambiguous (db : Sql.DB) (c c' : Certificate.t) (rest : list Certificate.t) :
  filter (λ x, Certificate.id x = certificate_id) (Sql.certificates db) = c :: c' :: rest →
  ¬ NoDup (Certificate.id <$> Sql.certificates db).
Proof.
  intros Hsel Hnd.
  destruct (filter_head_elem_of (λ x, Certificate.id x = certificate_id) _ _ _ Hsel)
    as [Hc Hid].
  rewrite (lookup_unique _ c certificate_id Hnd Hc Hid) in Hsel. discriminate.
Qed.

Lemma sql_selected (db : Sql.DB) (c : Certificate.t) :
  filter (λ x, Certificate.id x = certificate_id) (Sql.certificates db) = [c] →
  c ∈ Sql.certificates db ∧ Certificate.id c = certificate_id
  ∧ ∀ x, x ∈ Sql.certificates db → Certificate.id x = certificate_id → x = c.
Proof.
  intros Hsel.
  destruct (filter_head_elem_of (λ x, Certificate.id x = certificate_id) _ _ _ Hsel)
    as [Hc Hid].
  repeat split; [done..|]. intros x Hx Hxid.
  assert (x ∈ filter (λ x, Certificate.id x = certificate_id) (Sql.certificates db))
    as Hin by (apply list_elem_of_filter; done).
  rewrite Hsel in Hin. by apply list_elem_of_singleton in Hin.
Qed.

Lemma sql_updated_others (db : Sql.DB) (c : Certificate.t)
    (values : Certificate.t → Certificate.t) :
  (∀ x, Certificate.retailer_id (values x) = Certificate.retailer_id x) →
  filter (λ x, Certificate.id x = certificate_id) (Sql.certificates db) = [c] →
  Certificate.retailer_id c = User.id caller →
  filter (λ x, Certificate.retailer_id x ≠ User.id caller)
    (Sql.certificates (Sql.updated certificate_id values db))
  = filter (λ x, Certificate.retailer_id x ≠ User.id caller) (Sql.certificates db).
Proof.
  intros Hkeep Hsel Hown. unfold Sql.updated. simpl.
  apply others_after_update; [done|].
  intros x Hx Hid. destruct (sql_selected db c Hsel) as (_ & _ & Huniq).
  by rewrite (Huniq x Hx Hid).
Qed.

Lemma mongo_updated_others (db : Mongo.DB) (c : Certificate.t)
    (set : Certificate.t → Certificate.t) :
  (∀ x, Certificate.retailer_id (set x) = Certificate.retailer_id x) →
  Mongo.find_one (λ x, Certificate.id x = certificate_id) (Mongo.certificates db) = Some c →
  Certificate.retailer_id c = User.id caller →
  filter (λ x, Certificate.retailer_id x ≠ User.id caller)
    (Mongo.certificates (Mongo.updated certificate_id set db))
  = filter (λ x, Certificate.retailer_id x ≠ User.id caller) (Mongo.certificates db).
Proof.
  intros Hkeep Hsel Hown. unfold Mongo.updated. simpl.
  by apply (others_after_update_one _ _ _ _ c).
Qed.

Lemma sql_update_certificate_guarded (cert_data : CertificateUpdate.t) (db : Sql.DB) :
  guarded Sql.certificates certificate_id caller db
    (Sql.update_certificate certificate_id cert_data caller now db).
Proof.
  destruct (sql_update_certificate_cases certificate_id caller now cert_data db)
    as [[Hrole ->]|[Hrole [[Hsel ->]|[(c & c' & rest & Hsel & ->)|(c & Hsel & Hc)]]]].
  - by apply guarded_role.
  - apply guarded_missing; [done|].
    by apply (filter_nil_not_elem_of (λ x, Certificate.id x = certificate_id)).
  - apply guarded_ambiguous; [done|]. by eapply sql_ambiguous.
  - destruct (sql_selected db c Hsel) as (Hin & Hid & _).
    destruct Hc as [[Hown ->]|[Hown [->| ->]]].
    + by eapply guarded_stranger.
    + by eapply guarded_failed.
    + eapply guarded_done; [done..|]. by apply (sql_updated_others db c).
Qed.

Lemma sql_upload_certificate_image_guarded (image_type : string) (contents : list N)
    (db : Sql.DB) :
  guarded Sql.certificates certificate_id caller db
    (Sql.upload_certificate_image certificate_id image_type contents caller now db).
Proof.
  destruct (sql_upload_certificate_image_cases certificate_id image_type contents
              caller now db)
    as [[Hrole ->]|[Hrole [[Hsel ->]|[(c & c' & rest & Hsel & ->)|(c & Hsel & Hc)]]]].
  - by apply guarded_role.
  - apply guarded_missing; [done|].
    by apply (filter_nil_not_elem_of (λ x, Certificate.id x = certificate_id)).
  - apply guarded_ambiguous; [done|]. by eapply sql_ambiguous.
  - destruct (sql_selected db c Hsel) as (Hin & Hid & _).
    destruct Hc as [[Hown ->]|[Hown [[_ ->]|[_ ->]]]].
    + by eapply guarded_stranger.
    + by eapply guarded_failed.
    + eapply guarded_done; [done..|]. by apply (sql_updated_others db c).
Qed.

Lemma mongo_update_certificate_guarded (cert_data : CertificateUpdate.t) (db : Mongo.DB) :
  guarded Mongo.certificates certificate_id caller db
    (Mongo.update_certificate certificate_id cert_data caller now db).
Proof.
  destruct (mongo_update_certificate_cases certificate_id caller now cert_data db)
    as [[Hrole ->]|[Hrole [[Hsel ->]|(c & Hsel & Hc)]]].
  - by apply guarded_role.
  - apply guarded_missing; [done|].
    apply (filter_nil_not_elem_of (λ x, Certificate.id x = certificate_id)).
    unfold Mongo.find_one in Hsel. by destruct (filter _ _).
  - destruct (find_one_Some_elem_of _ _ _ Hsel) as [Hin Hid].
    destruct Hc as [[Hown ->]|[Hown ->]].
    + by eapply guarded_stranger.
    + eapply guarded_done; [done..|]. by apply (mongo_updated_others db c).
Qed.

Lemma mongo_upload_certificate_image_guarded (image_type : string) (contents : list N)
    (db : Mongo.DB) :
  guarded Mongo.certificates certificate_id caller db
    (Mongo.upload_certificate_image certificate_id image_type contents caller now db).
Proof.
  destruct (mongo_upload_certificate_image_cases certificate_id caller now
              image_type contents db)
    as [[Hrole ->]|[Hrole [[Hsel ->]|(c & Hsel & Hc)]]].
  - by apply guarded_role.
  - apply guarded_missing; [done|].
    apply (filter_nil_not_elem_of (λ x, Certificate.id x = certificate_id)).
    unfold Mongo.find_one in Hsel. by destruct (filter _ _).
  - destruct (find_one_Some_elem_of _ _ _ Hsel) as [Hin Hid].
    destruct Hc as [[Hown ->]|[Hown [[_ ->]|[_ ->]]]].
    + by eapply guarded_stranger.
    + by eapply guarded_failed.
    + eapply guarded_done; [done..|]. by apply (mongo_updated_others db c).
Qed.

End GuardedHandlers.

(** C1. Updating a certificate and attaching an image are reserved to
    the retailer who owns the target: a call succeeds only for a caller of
    role retailer whose id is the [retailer_id] of a stored certificate
    with the given id; every caller of another role (admin and
    distributor among them) is refused with forbidden, and so is a
    retailer who targets a certificate of somebody else; a call that does
    not succeed leaves the database as it was, and in every case the
    certificates that the caller does not own are what they were. *)
Theorem C1_mutation_owner_only
    (certificate_id : string) (cert_data : CertificateUpdate.t)
    (image_type : string) (contents : list N) (caller : User.t) (now : Z) :
  owner_only Sql.certificates certificate_id caller
    (Sql.update_certificate certificate_id cert_data caller now)
  ∧ owner_only Sql.certificates certificate_id caller
      (Sql.upload_certificate_image certificate_id image_type contents caller now)
  ∧ owner_only Mongo.certificates certificate_id caller
      (Mongo.update_certificate certificate_id cert_data caller now)
  ∧ owner_only Mongo.certificates certificate_id caller
      (Mongo.upload_certificate_image certificate_id image_type contents caller now).
Proof.
  split; [|split; [|split]]; apply guarded_owner_only; intros db.
  - apply sql_update_certificate_guarded.
  - apply sql_upload_certificate_image_guarded.
  - apply mongo_update_certificate_guarded.
  - apply mongo_upload_certificate_image_guarded.
Qed.

(** ** Image attachment *)

Section Upload.

Variables (certificate_id : string) (caller : User.t).
Hypothesis retailer : User.role caller = UserRole.RETAILER.

Lemma sql_ids_after_update (values : Certificate.t → Certificate.t) (db : Sql.DB) :
  (∀ x, Certificate.id (values x) = Certificate.id x) →
  Certificate.id <$> Sql.certificates (Sql.updated certificate_id values db)
  = Certificate.id <$> Sql.certificates db.
Proof.
  intros Hid. unfold Sql.updated. simpl. rewrite <- list_fmap_compose.
  apply list_fmap_ext. intros i x _. simpl. by case_decide.
Qed.

Lemma mongo_ids_after_update (set : Certificate.t → Certificate.t) (db : Mongo.DB) :
  (∀ x, Certificate.id (set x) = Certificate.id x) →
  Certificate.id <$> Mongo.certificates (Mongo.updated certificate_id set db)
  = Certificate.id <$> Mongo.certificates db.
Proof.
  intros Hid. unfold Mongo.updated. simpl.
  induction (Mongo.certificates db) as [|x l IH]; [done|].
  simpl. case_decide; rewrite !fmap_cons; f_equal; auto.
Qed.

(** One attachment by the owner: it succeeds, the stored certificate has
    the new entry in its map and the new [updated_at]. *)
Lemma sql_upload_owner (db : Sql.DB) (c : Certificate.t)
    (image_type : string) (contents : list N) (now : Z) :
  NoDup (Certificate.id <$> Sql.certificates db) →
  c ∈ Sql.certificates db → Certificate.id c = certificate_id →
  Certificate.retailer_id c = User.id caller →
  image_type ∈ image_types →
  let c' := set_images (<[image_type := b64encode contents]> (Certificate.images c)) now c in
  ∃ db',
    Sql.upload_certificate_image certificate_id image_type contents caller now db
    = (Ok image_type, db')
    ∧ NoDup (Certificate.id <$> Sql.certificates db')
    ∧ c' ∈ Sql.certificates db'.
Proof.
  intros Hnd Hc Hid Hown Htag c'.
  pose proof (lookup_unique _ c certificate_id Hnd Hc Hid) as Hsel.
  exists (Sql.updated certificate_id
            (set_images (<[image_type := b64encode contents]> (Certificate.images c)) now)
            db).
  split; [|split].
  - destruct (sql_upload_certificate_image_cases certificate_id image_type contents
                caller now db)
      as [[Hrole _]|[_ [[Hsel' _]|[(x & x' & rest & Hsel' & _)|(x & Hsel' & Hx)]]]];
      try congruence.
    assert (x = c) as -> by congruence.
    destruct Hx as [[Hno _]|[_ [[Hno _]|[_ ->]]]]; done.
  - by rewrite sql_ids_after_update.
  - unfold Sql.updated. simpl.
    apply list_elem_of_fmap. exists c. split; [|done]. by rewrite decide_True.
Qed.

Lemma mongo_upload_owner (db : Mongo.DB) (c : Certificate.t)
    (image_type : string) (contents : list N) (now : Z) :
  NoDup (Certificate.id <$> Mongo.certificates db) →
  c ∈ Mongo.certificates db → Certificate.id c = certificate_id →
  Certificate.retailer_id c = User.id caller →
  image_type ∈ image_types →
  let c' := set_images (<[image_type := b64encode contents]> (Certificate.images c)) now c in
  ∃ db',
    Mongo.upload_certificate_image certificate_id image_type contents caller now db
    = (Ok image_type, db')
    ∧ NoDup (Certificate.id <$> Mongo.certificates db')
    ∧ c' ∈ Mongo.certificates db'.
Proof.
  intros Hnd Hc Hid Hown Htag c'.
  pose proof (find_one_unique _ _ c Hnd Hc Hid) as Hsel.
  set (set := λ doc, set_images (<[image_type := b64encode contents]>
                                   (Certificate.images doc)) now doc).
  exists (Mongo.updated certificate_id set db).
  split; [|split].
  - destruct (mongo_upload_certificate_image_cases certificate_id caller now
                image_type contents db)
      as [[Hrole _]|[_ [[Hsel' _]|(x & Hsel' & Hx)]]]; try congruence.
    assert (x = c) as -> by congruence.
    destruct Hx as [[Hno _]|[_ [[Hno _]|[_ ->]]]]; done.
  - by rewrite mongo_ids_after_update.
  - apply (find_one_Some_elem_of certificate_id).
    unfold Mongo.updated. simpl.
    by rewrite (find_after_update_one _ set _ c).
Qed.

End Upload.

Section ImageMap.

Context {DB : Type} (certificates : DB → list Certificate.t).
Variables (upload : string → list N → Z → M DB string).
Variables (certificate_id : string) (caller : User.t).

(** What one attachment by the owner does. *)
Hypothesis upload_owner :
  ∀ (db : DB) (c : Certificate.t) (image_type : string) (contents : list N) (now : Z),
    NoDup (Certificate.id <$> certificates db) →
    c ∈ certificates db → Certificate.id c = certificate_id →
    User.role caller = UserRole.RETAILER →
    Certificate.retailer_id c = User.id caller →
    image_type ∈ image_types →
    ∃ db',
      upload image_type contents now db = (Ok image_type, db')
      ∧ NoDup (Certificate.id <$> certificates db')
      ∧ set_images (<[image_type := b64encode contents]> (Certificate.images c)) now c
        ∈ certificates db'.

Lemma size_insert_again (m : gmap string string) (k v v' : string) :
  size (<[k := v']> (<[k := v]> m)) = size (<[k := v]> m).
Proof.
  rewrite (map_size_insert_Some k v' (<[k := v]> m)); [done|].
  rewrite lookup_insert_eq. by eexists.
Qed.

Lemma image_map_update_intro :
  image_map_update certificates upload certificate_id caller.
Proof.
  intros db c p1 p2 t1 t2 Hnd Hc Hid Hrole Hown.
  assert ("front" ∈ image_types) as Hfront by (unfold image_types; left).
  assert ("back" ∈ image_types) as Hback by (unfold image_types; right; left).
  destruct (upload_owner db c "front" p1 t1 Hnd Hc Hid Hrole Hown Hfront)
    as (db1 & E1 & Hnd1 & Hc1).
  set (c1 := set_images (<["front" := b64encode p1]> (Certificate.images c)) t1 c) in *.
  split.
  - destruct (upload_owner db1 c1 "back" p2 t2 Hnd1 Hc1 Hid Hrole Hown Hback)
      as (db2 & E2 & Hnd2 & Hc2).
    eexists db1, db2, _. split; [exact E1|]. split; [exact E2|].
    split; [exact Hc2|]. split; [exact Hid|]. simpl.
    split; [|split].
    + rewrite lookup_insert_ne by done. apply lookup_insert_eq.
    + apply lookup_insert_eq.
    + intros tag Hf Hb. by rewrite !lookup_insert_ne.
  - destruct (upload_owner db1 c1 "front" p2 t2 Hnd1 Hc1 Hid Hrole Hown Hfront)
      as (db2 & E2 & Hnd2 & Hc2).
    eexists db1, db2, c1, _. split; [exact E1|]. split; [exact Hc1|].
    split; [exact Hid|]. split; [exact E2|].
    split; [exact Hc2|]. split; [exact Hid|]. simpl.
    split; [|split; [|split]].
    + apply insert_insert_eq.
    + apply lookup_insert_eq.
    + apply size_insert_again.
    + intros tag Hf. by rewrite !lookup_insert_ne.
Qed.

End ImageMap.

(** C10. Attaching images updates the [images] map of the owner's
    certificate key by key: after "front" and then "back" both keys are
    present with their own payloads; after "front" twice the one "front"
    entry holds the second payload and the map has not grown; the other
    keys are as they were. *)
Theorem C10_images_map_update (certificate_id : string) (caller : User.t) :
  image_map_update Sql.certificates
    (λ image_type contents now,
       Sql.upload_certificate_image certificate_id image_type contents caller now)
    certificate_id caller
  ∧ image_map_update Mongo.certificates
      (λ image_type contents now,
         Mongo.upload_certificate_image certificate_id image_type contents caller now)
      certificate_id caller.
Proof.
  split; apply image_map_update_intro; intros db c tag p t Hnd Hc Hid Hrole Hown Htag.
  - by apply sql_upload_owner.
  - by apply mongo_upload_owner.
Qed.

(** ** Update of a certificate *)

Section UpdateFrame.

Variables (certificate_id : string) (cert_data : CertificateUpdate.t).
Variables (caller : User.t) (now : Z).

(** A successful update, read backwards: the returned certificate is the
    owner's stored one with the supplied columns and [updated_at]
    replaced, and it is what the store holds afterwards. *)
Lemma sql_update_certificate_ok (db db' : Sql.DB) (c' : Certificate.t) :
  Sql.update_certificate certificate_id cert_data caller now db = (Ok c', db') →
  ∃ c, c ∈ Sql.certificates db ∧ Certificate.id c = certificate_id
       ∧ Certificate.retailer_id c = User.id caller
       ∧ c' = set_fields (CertificateUpdate.dealer_name cert_data)
                (CertificateUpdate.dealer_license cert_data) None None None
                (CertificateUpdate.status cert_data) now c
       ∧ c' ∈ Sql.certificates db'.
Proof.
  intros E.
  destruct (sql_update_certificate_cases certificate_id caller now cert_data db)
    as [[_ E']|[_ [[_ E']|[(x & x' & rest & _ & E')|(c & Hsel & Hc)]]]];
    try congruence.
  destruct (sql_selected certificate_id db c Hsel) as (Hin & Hid & _).
  destruct Hc as [[_ E']|[Hown [E'|E']]]; try congruence.
  rewrite E in E'. injection E' as -> ->.
  exists c. repeat split; try done.
  unfold Sql.updated. simpl. apply list_elem_of_fmap. exists c.
  split; [|done]. by rewrite decide_True.
Qed.

Lemma mongo_update_certificate_ok (db db' : Mongo.DB) (c' : Certificate.t) :
  Mongo.update_certificate certificate_id cert_data caller now db = (Ok c', db') →
  ∃ c, c ∈ Mongo.certificates db ∧ Certificate.id c = certificate_id
       ∧ Certificate.retailer_id c = User.id caller
       ∧ c' = set_fields (CertificateUpdate.dealer_name cert_data)
                (CertificateUpdate.dealer_license cert_data)
                (CertificateUpdate.vehicle_details cert_data)
                (CertificateUpdate.owner_details cert_data)
                (CertificateUpdate.fitment_details cert_data)
                (CertificateUpdate.status cert_data) now c
       ∧ c' ∈ Mongo.certificates db'.
Proof.
  intros E.
  destruct (mongo_update_certificate_cases certificate_id caller now cert_data db)
    as [[_ E']|[_ [[_ E']|(c & Hsel & Hc)]]]; try congruence.
  destruct (find_one_Some_elem_of _ _ _ Hsel) as [Hin Hid].
  destruct Hc as [[_ E']|[Hown E']]; try congruence.
  rewrite E in E'. injection E' as -> ->.
  exists c. repeat split; try done.
  apply (find_one_Some_elem_of certificate_id).
  unfold Mongo.updated. simpl. by rewrite (find_after_update_one _ _ _ c).
Qed.

End UpdateFrame.




Lemma C1_witness :
  forbidden (Sql.update_certificate "c1" Fixture.patch Fixture.admin 500 Fixture.sql).1
  ∧ forbidden (Mongo.upload_certificate_image "c1" "front" [1; 2; 3]%N Fixture.dist 500
                 Fixture.mongo).1
  ∧ forbidden (Sql.upload_certificate_image "c1" "front" [1; 2; 3]%N Fixture.shop2 500
                 Fixture.sql).1
  ∧ forbidden (Mongo.update_certificate "c1" Fixture.patch Fixture.shop2 500
                 Fixture.mongo).1.
Proof.
  split; [|split; [|split]].
  - destruct (C1_mutation_owner_only "c1" Fixture.patch "front" [1; 2; 3]%N
                Fixture.admin 500) as (H & _).
    apply (H Fixture.sql). discriminate.
  - destruct (C1_mutation_owner_only "c1" Fixture.patch "front" [1; 2; 3]%N
                Fixture.dist 500) as (_ & _ & _ & H).
    apply (H Fixture.mongo). discriminate.
  - destruct (C1_mutation_owner_only "c1" Fixture.patch "front" [1; 2; 3]%N
                Fixture.shop2 500) as (_ & H & _).
    destruct (H Fixture.sql) as (_ & _ & Hc & _).
    apply (Hc Fixture.cert1); [decide_by_compute|left|reflexivity|discriminate].
  - destruct (C1_mutation_owner_only "c1" Fixture.patch "front" [1; 2; 3]%N
                Fixture.shop2 500) as (_ & _ & H & _).
    destruct (H Fixture.mongo) as (_ & _ & Hc & _).
    apply (Hc Fixture.cert1); [decide_by_compute|left|reflexivity|discriminate].
Defined.

(** The owner is served, on the example population. *)
Example owner_mutates :
  (∃ c, (Sql.update_certificate "c1" Fixture.patch Fixture.shop1 500 Fixture.sql).1 = Ok c
        ∧ Certificate.status c = "submitted"
        ∧ Certificate.dealer_name c = "Updated Dealer Name")
  ∧ (Mongo.upload_certificate_image "c1" "side2" [104; 105]%N Fixture.shop1 500
       Fixture.mongo).1 = Ok "side2"
  ∧ (Sql.upload_certificate_image "c1" "top" [104; 105]%N Fixture.shop1 500
       Fixture.sql).1 = Raise (HTTPException 400 "Invalid image type")
  ∧ (Sql.update_certificate "c1"
       (CertificateUpdate.mk None None (Some Fixture.vehicle) None None None)
       Fixture.shop1 500 Fixture.sql)
    = (Raise AttributeError, Fixture.sql).
Proof.
  split; [eexists; split; [vm_compute; reflexivity|split; reflexivity]|].
  repeat split; reflexivity.
Qed.

Lemma C10_witness :
  ∃ db1 db2 c2,
    Sql.upload_certificate_image "c1" "front" [1; 2; 3]%N Fixture.shop1 500 Fixture.sql
    = (Ok "front", db1)
    ∧ Sql.upload_certificate_image "c1" "back" [4; 5]%N Fixture.shop1 600 db1
      = (Ok "back", db2)
    ∧ c2 ∈ Sql.certificates db2
    ∧ Certificate.images c2 !! "front" = Some "AQID"
    ∧ Certificate.images c2 !! "back" = Some "BAU=".
Proof.
  destruct (C10_images_map_update "c1" Fixture.shop1) as [Hs _].
  destruct (Hs Fixture.sql Fixture.cert1 [1; 2; 3]%N [4; 5]%N 500 600)
    as [(db1 & db2 & c2 & E1 & E2 & Hc2 & _ & Hf & Hb & _) _];
    [decide_by_compute|left|reflexivity|reflexivity|reflexivity|].
  exists db1, db2, c2. by repeat split.
Defined.

(** ** The key constraints assumed above are kept by the handlers *)

Section Keys.

Variable pbkdf2_hmac_sha256 : string → string → string.

(** Registration keeps user ids and usernames unique in the SQL store. *)
Lemma sql_register_user_keeps_keys (user_data : UserCreate.t)
    (current_user : option User.t)
    (uid : string) (now : Z) (salt : string) (rel_uid : string) (rel_now : Z)
    (db : Sql.DB) :
  NoDup (UserModel.id <$> Sql.users db) →
  NoDup (UserModel.username <$> Sql.users db) →
  let db' := (Sql.register_user pbkdf2_hmac_sha256 user_data current_user
                uid now salt rel_uid rel_now db).2 in
  NoDup (UserModel.id <$> Sql.users db')
  ∧ NoDup (UserModel.username <$> Sql.users db')
  ∧ Sql.certificates db' = Sql.certificates db.
Proof.
  intros Hids Hnames db'. subst db'.
  unfold Sql.register_user, Sql.select_user_by_username, Sql.insert_user,
    Sql.insert_relationship.
  run_all.
  destruct (filter _ (Sql.users db)) as [|u [|u' rest]]; simpl; [|done..].
  repeat (case_decide; simpl; try done);
    destruct current_user as [cu|]; simpl; try done;
    repeat (case_decide; simpl; try done);
    rewrite !fmap_app, !NoDup_app; simpl;
    (split; [|split; [|done]]);
    (split; [done|]); (split; [|apply NoDup_singleton]);
    intros x Hx Hx'; apply list_elem_of_singleton in Hx'; subst x; tauto.
Qed.

(** Updates and attachments keep the list of certificate ids. *)
Lemma sql_mutations_keep_ids (certificate_id : string) (cert_data : CertificateUpdate.t)
    (image_type : string) (contents : list N) (caller : User.t) (now : Z) (db : Sql.DB) :
  Certificate.id <$> Sql.certificates
                       (Sql.update_certificate certificate_id cert_data caller now db).2
  = Certificate.id <$> Sql.certificates db
  ∧ Certificate.id <$> Sql.certificates
                         (Sql.upload_certificate_image certificate_id image_type
                            contents caller now db).2
    = Certificate.id <$> Sql.certificates db.
Proof.
  split.
  - destruct (sql_update_certificate_cases certificate_id caller now cert_data db)
      as [[_ ->]|[_ [[_ ->]|[(x & x' & rest & _ & ->)|(c & _ & [[_ ->]|[_ [->| ->]]])]]]];
      try done.
    by apply sql_ids_after_update.
  - destruct (sql_upload_certificate_image_cases certificate_id image_type contents
                caller now db)
      as [[_ ->]|[_ [[_ ->]|[(x & x' & rest & _ & ->)
                            |(c & _ & [[_ ->]|[_ [[_ ->]|[_ ->]]]])]]]];
      try done.
    by apply sql_ids_after_update.
Qed.

Lemma mongo_mutations_keep_ids (certificate_id : string) (cert_data : CertificateUpdate.t)
    (image_type : string) (contents : list N) (caller : User.t) (now : Z) (db : Mongo.DB) :
  Certificate.id <$> Mongo.certificates
                       (Mongo.update_certificate certificate_id cert_data caller now db).2
  = Certificate.id <$> Mongo.certificates db
  ∧ Certificate.id <$> Mongo.certificates
                         (Mongo.upload_certificate_image certificate_id image_type
                            contents caller now db).2
    = Certificate.id <$> Mongo.certificates db.
Proof.
  split.
  - destruct (mongo_update_certificate_cases certificate_id caller now cert_data db)
      as [[_ ->]|[_ [[_ ->]|(c & _ & [[_ ->]|[_ ->]])]]]; try done.
    by apply mongo_ids_after_update.
  - destruct (mongo_upload_certificate_image_cases certificate_id caller now
                image_type contents db)
      as [[_ ->]|[_ [[_ ->]|(c & _ & [[_ ->]|[_ [[_ ->]|[_ ->]]]])]]]; try done.
    by apply mongo_ids_after_update.
Qed.

End Keys.

(** * Further properties of the handlers *)

Local Open Scope list_scope.

(** ** Listings *)

(** The certificate listing of an admin is the whole table, and a caller
    whose role is neither admin nor distributor (a retailer, or any other
    string) gets the certificates filed under his own id. *)
Theorem get_certificates_by_role (caller : User.t) :
  (∀ db : Sql.DB,
      (User.role caller = UserRole.ADMIN →
       Sql.get_certificates caller db = (Ok (Sql.certificates db), db))
      ∧ (User.role caller ∉ [UserRole.ADMIN; UserRole.DISTRIBUTOR] →
         Sql.get_certificates caller db
         = (Ok (filter (λ c, Certificate.retailer_id c = User.id caller)
                  (Sql.certificates db)), db)))
  ∧ (∀ db : Mongo.DB,
      (User.role caller = UserRole.ADMIN →
       Mongo.get_certificates caller db = (Ok (Mongo.certificates db), db))
      ∧ (User.role caller ∉ [UserRole.ADMIN; UserRole.DISTRIBUTOR] →
         Mongo.get_certificates caller db
         = (Ok (filter (λ c, Certificate.retailer_id c = User.id caller)
                  (Mongo.certificates db)), db))).
Proof.
  split; intros db; split; intros Hr.
  - unfold Sql.get_certificates. by rewrite decide_True.
  - unfold Sql.get_certificates.
    rewrite !decide_False; [done|..]; intros E; apply Hr; rewrite E;
      repeat first [by left | right].
  - unfold Mongo.get_certificates. by rewrite decide_True.
  - unfold Mongo.get_certificates.
    rewrite !decide_False; [done|..]; intros E; apply Hr; rewrite E;
      repeat first [by left | right].
Qed.

Lemma get_certificates_by_role_witness :
  Sql.get_certificates Fixture.admin Fixture.sql
  = (Ok [Fixture.cert1; Fixture.cert2; Fixture.cert3], Fixture.sql)
  ∧ Mongo.get_certificates
      (User.mk "r2" "shop2" "Retailer" None None None 5) Fixture.mongo
    = (Ok [Fixture.cert2], Fixture.mongo).
Proof.
  split.
  - by apply (get_certificates_by_role Fixture.admin).
  - destruct (get_certificates_by_role (User.mk "r2" "shop2" "Retailer" None None None 5))
      as [_ Hm].
    destruct (Hm Fixture.mongo) as [_ Hown]. rewrite Hown; [reflexivity|].
    decide_by_compute.
Defined.

(** The user listing: everybody for an admin, exactly the users whose
    id is in his reachable retailer set for a distributor, and a refusal
    for every other role. *)
Theorem get_users_scope (caller : User.t) :
  (∀ db : Sql.DB,
      (User.role caller = UserRole.ADMIN →
       Sql.get_users caller db = (Ok (Sql.to_user <$> Sql.users db), db))
      ∧ (User.role caller = UserRole.DISTRIBUTOR →
         Sql.get_users caller db
         = (Ok (Sql.to_user <$>
                  filter (λ u, UserModel.id u
                               ∈ Sql.reachable_retailers db (User.id caller))
                    (Sql.users db)), db))
      ∧ (User.role caller ∉ [UserRole.ADMIN; UserRole.DISTRIBUTOR] →
         Sql.get_users caller db
         = (Raise (HTTPException 403 "Insufficient permissions"), db)))
  ∧ (∀ db : Mongo.DB,
      (User.role caller = UserRole.ADMIN →
       Mongo.get_users caller db = (Ok (UserDoc.user <$> Mongo.users db), db))
      ∧ (User.role caller = UserRole.DISTRIBUTOR →
         Mongo.get_users caller db
         = (Ok (UserDoc.user <$>
                  filter (λ u, User.id (UserDoc.user u)
                               ∈ Mongo.reachable_retailers db (User.id caller))
                    (Mongo.users db)), db))
      ∧ (User.role caller ∉ [UserRole.ADMIN; UserRole.DISTRIBUTOR] →
         Mongo.get_users caller db
         = (Raise (HTTPException 403 "Insufficient permissions"), db))).
Proof.
  split; intros db; (split; [|split]); intros Hr.
  - unfold Sql.get_users. run_all. rewrite Hr.
    rewrite decide_True by left. simpl. by rewrite decide_True.
  - unfold Sql.get_users, Sql.select_relationships_of, Sql.reachable_retailers.
    run_all. rewrite Hr.
    rewrite decide_True by (right; left). simpl.
    rewrite Hr, decide_False by discriminate. simpl.
    destruct (RelationshipModel.retailer_id <$> _) as [|x ids]; simpl; [|done].
    rewrite filter_elem_of_nil; [done|].
    intros u _ Hu. by apply elem_of_nil in Hu.
  - unfold Sql.get_users. run_all. by rewrite decide_False.
  - unfold Mongo.get_users. run_all. rewrite Hr.
    rewrite decide_True by left. simpl. by rewrite decide_True.
  - unfold Mongo.get_users, Mongo.retailer_ids_of, Mongo.reachable_retailers.
    run_all. rewrite Hr.
    rewrite decide_True by (right; left). simpl.
    by rewrite Hr, decide_False by discriminate.
  - unfold Mongo.get_users. run_all. by rewrite decide_False.
Qed.

Lemma get_users_scope_witness :
  Sql.get_users Fixture.dist Fixture.sql = (Ok [Fixture.shop1], Fixture.sql)
  ∧ Mongo.get_users Fixture.dist2 Fixture.mongo = (Ok [], Fixture.mongo)
  ∧ Mongo.get_users Fixture.shop1 Fixture.mongo
    = (Raise (HTTPException 403 "Insufficient permissions"), Fixture.mongo).
Proof.
  split; [|split].
  - destruct (get_users_scope Fixture.dist) as [Hs _].
    destruct (Hs Fixture.sql) as (_ & -> & _); reflexivity.
  - destruct (get_users_scope Fixture.dist2) as [_ Hm].
    destruct (Hm Fixture.mongo) as (_ & -> & _); reflexivity.
  - destruct (get_users_scope Fixture.shop1) as [_ Hm].
    destruct (Hm Fixture.mongo) as (_ & _ & Hno). rewrite Hno; [reflexivity|].
    decide_by_compute.
Defined.

(** ** Reading one certificate *)

Section Fetch.

Lemma sql_edge_lookup (db : Sql.DB) (d rid : string) :
  sql_unique_edges db →
  (rid ∈ Sql.reachable_retailers db d →
   ∃ e, filter (λ r, RelationshipModel.distributor_id r = d
                     ∧ RelationshipModel.retailer_id r = rid) (Sql.relationships db)
        = [e])
  ∧ (rid ∉ Sql.reachable_retailers db d →
     filter (λ r, RelationshipModel.distributor_id r = d
                  ∧ RelationshipModel.retailer_id r = rid) (Sql.relationships db)
     = []).
Proof.
  intros Huniq. unfold Sql.reachable_retailers. split.
  - intros Hin. apply list_elem_of_fmap in Hin as (r & -> & Hr).
    apply list_elem_of_filter in Hr as [Hd Hr].
    destruct (filter_key_unique
                (λ r, (RelationshipModel.distributor_id r, RelationshipModel.retailer_id r))
                (Sql.relationships db) (d, RelationshipModel.retailer_id r) Huniq)
      as (e & _ & _ & Hf).
    { apply list_elem_of_fmap. exists r. by rewrite Hd. }
    exists e. rewrite <- Hf. apply list_filter_iff. intros x. split.
    + by intros [-> ->].
    + by intros [= -> ->].
  - intros Hni. apply filter_elem_of_nil. intros r Hr [Hd Hrid]. apply Hni.
    apply list_elem_of_fmap. exists r. split; [done|].
    by apply list_elem_of_filter.
Qed.

Lemma mongo_edge_lookup (db : Mongo.DB) (d rid : string) :
  is_Some (Mongo.find_one (λ r, RelationshipDoc.distributor_id r = d
                                ∧ RelationshipDoc.retailer_id r = rid)
             (Mongo.relationships db))
  ↔ rid ∈ Mongo.reachable_retailers db d.
Proof.
  unfold Mongo.find_one, Mongo.reachable_retailers. split.
  - intros [e He].
    destruct (filter _ (Mongo.relationships db)) as [|x rest] eqn:E; [done|].
    simpl in He. injection He as ->.
    apply (filter_head_elem_of (λ r, RelationshipDoc.distributor_id r = d
                                     ∧ RelationshipDoc.retailer_id r = rid)) in E
      as [Hin [Hd Hr]].
    apply list_elem_of_fmap. exists e. split; [done|]. by apply list_elem_of_filter.
  - intros Hin. apply list_elem_of_fmap in Hin as (r & -> & Hr).
    apply list_elem_of_filter in Hr as [Hd Hr].
    assert (r ∈ filter (λ x, RelationshipDoc.distributor_id x = d
                             ∧ RelationshipDoc.retailer_id x
                               = RelationshipDoc.retailer_id r)
                  (Mongo.relationships db)) as Hf
      by (apply list_elem_of_filter; done).
    destruct (filter _ (Mongo.relationships db)); [by apply elem_of_nil in Hf|].
    by eexists.
Qed.

End Fetch.

Section FetchDecision.

Variables (caller : User.t) (c : Certificate.t).

Lemma sql_get_certificate_visible (db : Sql.DB) :
  NoDup (Certificate.id <$> Sql.certificates db) → sql_unique_edges db →
  c ∈ Sql.certificates db →
  Sql.get_certificate (Certificate.id c) caller db
  = if decide (sql_visible db caller c) then (Ok c, db)
    else (Raise (HTTPException 403 "Access forbidden"), db).
Proof.
  intros Hnd Hedges Hc.
  pose proof (lookup_unique _ c _ Hnd Hc eq_refl) as Hsel.
  unfold Sql.get_certificate, Sql.select_certificate, Sql.select_relationship.
  run_all. rewrite Hsel. simpl.
  destruct (decide (User.role caller = UserRole.RETAILER
                    ∧ Certificate.retailer_id c ≠ User.id caller)) as [[Hr Hno]|Hno].
  - simpl. rewrite decide_False; [done|]. intros [Hv _]. by apply Hno, Hv.
  - destruct (decide (User.role caller = UserRole.DISTRIBUTOR)) as [Hd|Hd]; simpl.
    + destruct (decide (Certificate.retailer_id c
                        ∈ Sql.reachable_retailers db (User.id caller))) as [Hin|Hin].
      * destruct (sql_edge_lookup db (User.id caller) (Certificate.retailer_id c)
                    Hedges) as [Hyes _].
        destruct (Hyes Hin) as [e ->]. simpl.
        rewrite decide_True; [done|]. split; [|done].
        intros Hr. rewrite Hd in Hr. discriminate.
      * destruct (sql_edge_lookup db (User.id caller) (Certificate.retailer_id c)
                    Hedges) as [_ Hnone].
        rewrite (Hnone Hin). simpl.
        rewrite decide_False; [done|]. intros [_ Hv]. by apply Hin, Hv.
    + rewrite decide_True; [done|]. split; [|done].
      intros Hr. destruct (decide (Certificate.retailer_id c = User.id caller));
        [done|]. destruct Hno. done.
Qed.

Lemma mongo_get_certificate_visible (db : Mongo.DB) :
  NoDup (Certificate.id <$> Mongo.certificates db) →
  c ∈ Mongo.certificates db →
  Mongo.get_certificate (Certificate.id c) caller db
  = if decide (mongo_visible db caller c) then (Ok c, db)
    else (Raise (HTTPException 403 "Access forbidden"), db).
Proof.
  intros Hnd Hc.
  pose proof (find_one_unique _ _ c Hnd Hc eq_refl) as Hsel.
  unfold Mongo.get_certificate, Mongo.find_certificate.
  run_all. rewrite Hsel. simpl.
  destruct (decide (User.role caller = UserRole.RETAILER
                    ∧ Certificate.retailer_id c ≠ User.id caller)) as [[Hr Hno]|Hno].
  - simpl. rewrite decide_False; [done|]. intros [Hv _]. by apply Hno, Hv.
  - destruct (decide (User.role caller = UserRole.DISTRIBUTOR)) as [Hd|Hd]; simpl.
    + pose proof (mongo_edge_lookup db (User.id caller) (Certificate.retailer_id c))
        as Hedge.
      destruct (decide (is_Some (Mongo.find_one _ (Mongo.relationships db))))
        as [Hs|Hs]; simpl.
      * rewrite decide_True; [done|]. split; [|by intros _; apply Hedge].
        intros Hr. rewrite Hd in Hr. discriminate.
      * rewrite decide_False; [done|]. intros [_ Hv]. by apply Hs, Hedge, Hv.
    + rewrite decide_True; [done|]. split; [|done].
      intros Hr. destruct (decide (Certificate.retailer_id c = User.id caller));
        [done|]. destruct Hno. done.
Qed.

End FetchDecision.

(** What [get_certificate] answers about a stored certificate: the
    certificate when the rules let the caller read it, forbidden
    otherwise.  Only retailers and distributors are checked, so a caller
    of any other role (admin, or an unrecognised string) reads every
    certificate. *)
Theorem get_certificate_decision (caller : User.t) (c : Certificate.t) :
  (∀ db : Sql.DB,
      NoDup (Certificate.id <$> Sql.certificates db) → sql_unique_edges db →
      c ∈ Sql.certificates db →
      (sql_visible db caller c →
       Sql.get_certificate (Certificate.id c) caller db = (Ok c, db))
      ∧ (¬ sql_visible db caller c →
         Sql.get_certificate (Certificate.id c) caller db
         = (Raise (HTTPException 403 "Access forbidden"), db))
      ∧ (User.role caller ∉ [UserRole.RETAILER; UserRole.DISTRIBUTOR] →
         Sql.get_certificate (Certificate.id c) caller db = (Ok c, db)))
  ∧ (∀ db : Mongo.DB,
      NoDup (Certificate.id <$> Mongo.certificates db) →
      c ∈ Mongo.certificates db →
      (mongo_visible db caller c →
       Mongo.get_certificate (Certificate.id c) caller db = (Ok c, db))
      ∧ (¬ mongo_visible db caller c →
         Mongo.get_certificate (Certificate.id c) caller db
         = (Raise (HTTPException 403 "Access forbidden"), db))
      ∧ (User.role caller ∉ [UserRole.RETAILER; UserRole.DISTRIBUTOR] →
         Mongo.get_certificate (Certificate.id c) caller db = (Ok c, db))).
Proof.
  split.
  - intros db Hnd Hedges Hc.
    rewrite (sql_get_certificate_visible caller c db Hnd Hedges Hc).
    split; [|split].
    + intros Hv. by rewrite decide_True.
    + intros Hv. by rewrite decide_False.
    + intros Hrole. rewrite decide_True; [done|].
      split; intros Hr; destruct Hrole; rewrite Hr; repeat first [by left|right].
  - intros db Hnd Hc.
    rewrite (mongo_get_certificate_visible caller c db Hnd Hc).
    split; [|split].
    + intros Hv. by rewrite decide_True.
    + intros Hv. by rewrite decide_False.
    + intros Hrole. rewrite decide_True; [done|].
      split; intros Hr; destruct Hrole; rewrite Hr; repeat first [by left|right].
Qed.

Lemma get_certificate_decision_witness :
  Sql.get_certificate "c2" Fixture.dist Fixture.sql
  = (Raise (HTTPException 403 "Access forbidden"), Fixture.sql)
  ∧ Mongo.get_certificate "c2" (User.mk "x1" "intruder" "Retailer" None None None 9)
      Fixture.mongo
    = (Ok Fixture.cert2, Fixture.mongo).
Proof.
  split.
  - destruct (get_certificate_decision Fixture.dist Fixture.cert2) as [Hs _].
    destruct (Hs Fixture.sql) as (_ & Hno & _);
      [decide_by_compute|unfold sql_unique_edges; decide_by_compute|right; left|].
    apply Hno. decide_by_compute.
  - destruct (get_certificate_decision
                (User.mk "x1" "intruder" "Retailer" None None None 9) Fixture.cert2)
      as [_ Hm].
    destruct (Hm Fixture.mongo) as (_ & _ & Hany);
      [decide_by_compute|right; left|].
    apply Hany. decide_by_compute.
Defined.

Section ListFetch.

Lemma sql_get_certificate_ok_stored (cid : string) (caller : User.t)
    (db db' : Sql.DB) (c : Certificate.t) :
  Sql.get_certificate cid caller db = (Ok c, db') →
  c ∈ Sql.certificates db ∧ Certificate.id c = cid.
Proof.
  unfold Sql.get_certificate, Sql.select_certificate, Sql.select_relationship. run_all.
  destruct (filter (λ x, Certificate.id x = cid) (Sql.certificates db))
    as [|x [|x' rest]] eqn:E; simpl; [done| |done].
  apply (filter_head_elem_of (λ x, Certificate.id x = cid)) in E.
  repeat (case_decide; simpl; try done);
    try (destruct (filter _ (Sql.relationships db)) as [|e [|e' es]]; simpl; try done;
         repeat (case_decide; simpl; try done));
    by intros [= <- _].
Qed.

Lemma mongo_get_certificate_ok_stored (cid : string) (caller : User.t)
    (db db' : Mongo.DB) (c : Certificate.t) :
  Mongo.get_certificate cid caller db = (Ok c, db') →
  c ∈ Mongo.certificates db ∧ Certificate.id c = cid.
Proof.
  unfold Mongo.get_certificate, Mongo.find_certificate. run_all.
  destruct (Mongo.find_one (λ x, Certificate.id x = cid) (Mongo.certificates db))
    as [x|] eqn:E; simpl; [|done].
  apply find_one_Some_elem_of in E.
  repeat (case_decide; simpl; try done); by intros [= <- _].
Qed.

Variable caller : User.t.
Hypothesis recognised :
  User.role caller ∈ [UserRole.ADMIN; UserRole.DISTRIBUTOR; UserRole.RETAILER].

Lemma sql_listing_visible (db : Sql.DB) :
  ∃ result, Sql.get_certificates caller db = (Ok result, db)
            ∧ ∀ c, c ∈ result ↔ c ∈ Sql.certificates db ∧ sql_visible db caller c.
Proof.
  apply elem_of_cons in recognised as [Hr|Hr];
    [|apply elem_of_cons in Hr as [Hr|Hr];
      [|apply list_elem_of_singleton in Hr]].
  - eexists. split; [unfold Sql.get_certificates; by rewrite decide_True|].
    intros c. unfold sql_visible. rewrite Hr. split; [|tauto].
    intros Hc. split; [done|]. split; discriminate.
  - eexists. split; [by apply sql_get_certificates_distributor|].
    intros c. rewrite list_elem_of_filter. unfold sql_visible. rewrite Hr.
    split; [|tauto]. intros [Hin Hc]. split; [done|]. split; [discriminate|done].
  - eexists. split; [by apply sql_get_certificates_retailer|].
    intros c. rewrite list_elem_of_filter. unfold sql_visible. rewrite Hr.
    split; [|tauto]. intros [Hin Hc]. split; [done|]. split; [done|discriminate].
Qed.

Lemma mongo_listing_visible (db : Mongo.DB) :
  ∃ result, Mongo.get_certificates caller db = (Ok result, db)
            ∧ ∀ c, c ∈ result ↔ c ∈ Mongo.certificates db ∧ mongo_visible db caller c.
Proof.
  apply elem_of_cons in recognised as [Hr|Hr];
    [|apply elem_of_cons in Hr as [Hr|Hr];
      [|apply list_elem_of_singleton in Hr]].
  - eexists. split; [unfold Mongo.get_certificates; by rewrite decide_True|].
    intros c. unfold mongo_visible. rewrite Hr. split; [|tauto].
    intros Hc. split; [done|]. split; discriminate.
  - eexists. split; [by apply mongo_get_certificates_distributor|].
    intros c. rewrite list_elem_of_filter. unfold mongo_visible. rewrite Hr.
    split; [|tauto]. intros [Hin Hc]. split; [done|]. split; [discriminate|done].
  - eexists. split; [by apply mongo_get_certificates_retailer|].
    intros c. rewrite list_elem_of_filter. unfold mongo_visible. rewrite Hr.
    split; [|tauto]. intros [Hin Hc]. split; [done|]. split; [done|discriminate].
Qed.

End ListFetch.

(** For a caller of one of the three roles the listing and the single
    fetch agree: a certificate is in his listing exactly when fetching it
    by id returns it. *)
Theorem listing_matches_fetch (caller : User.t) :
  User.role caller ∈ [UserRole.ADMIN; UserRole.DISTRIBUTOR; UserRole.RETAILER] →
  (∀ db : Sql.DB,
      NoDup (Certificate.id <$> Sql.certificates db) → sql_unique_edges db →
      ∃ result,
        Sql.get_certificates caller db = (Ok result, db)
        ∧ ∀ c, c ∈ result
               ↔ Sql.get_certificate (Certificate.id c) caller db = (Ok c, db))
  ∧ (∀ db : Mongo.DB,
      NoDup (Certificate.id <$> Mongo.certificates db) →
      ∃ result,
        Mongo.get_certificates caller db = (Ok result, db)
        ∧ ∀ c, c ∈ result
               ↔ Mongo.get_certificate (Certificate.id c) caller db = (Ok c, db)).
Proof.
  intros Hrole. split.
  - intros db Hnd Hedges.
    destruct (sql_listing_visible caller Hrole db) as (result & E & Hres).
    exists result. split; [done|]. intros c. rewrite Hres. split.
    + intros [Hc Hv].
      rewrite (sql_get_certificate_visible caller c db Hnd Hedges Hc).
      by rewrite decide_True.
    + intros Hget.
      destruct (sql_get_certificate_ok_stored _ _ _ _ _ Hget) as [Hc _].
      split; [done|].
      rewrite (sql_get_certificate_visible caller c db Hnd Hedges Hc) in Hget.
      by case_decide.
  - intros db Hnd.
    destruct (mongo_listing_visible caller Hrole db) as (result & E & Hres).
    exists result. split; [done|]. intros c. rewrite Hres. split.
    + intros [Hc Hv].
      rewrite (mongo_get_certificate_visible caller c db Hnd Hc).
      by rewrite decide_True.
    + intros Hget.
      destruct (mongo_get_certificate_ok_stored _ _ _ _ _ Hget) as [Hc _].
      split; [done|].
      rewrite (mongo_get_certificate_visible caller c db Hnd Hc) in Hget.
      by case_decide.
Qed.

Lemma listing_matches_fetch_witness :
  ∃ result,
    Sql.get_certificates Fixture.dist Fixture.sql = (Ok result, Fixture.sql)
    ∧ (Fixture.cert3 ∈ result
       ↔ Sql.get_certificate "c3" Fixture.dist Fixture.sql
         = (Ok Fixture.cert3, Fixture.sql)).
Proof.
  destruct (listing_matches_fetch Fixture.dist) as [Hs _]; [decide_by_compute|].
  destruct (Hs Fixture.sql) as (result & E & Hres);
    [decide_by_compute|unfold sql_unique_edges; decide_by_compute|].
  exists result. split; [exact E|]. apply (Hres Fixture.cert3).
Defined.

(** ** Filing a certificate *)

Section Create.

Variables (cert_data : CertificateCreate.t) (caller : User.t).
Variables (uid no_uuid : string) (fitment_date created_at updated_at : Z).

Let cert_obj : Certificate.t :=
  new_certificate (User.id caller) cert_data uid no_uuid fitment_date created_at updated_at.

Lemma sql_create_certificate_refused (db : Sql.DB) :
  User.role caller ≠ UserRole.RETAILER →
  Sql.create_certificate cert_data caller uid no_uuid fitment_date created_at updated_at db
  = (Raise (HTTPException 403 "Insufficient permissions"), db).
Proof.
  intros Hr. unfold Sql.create_certificate. run_all.
  rewrite decide_False; [done|]. intros Hin. by apply list_elem_of_singleton in Hin.
Qed.

Lemma sql_create_certificate_stored (db : Sql.DB) :
  User.role caller = UserRole.RETAILER →
  uid ∉ Certificate.id <$> Sql.certificates db →
  default_certificate_no no_uuid ∉ Certificate.certificate_no <$> Sql.certificates db →
  Sql.create_certificate cert_data caller uid no_uuid fitment_date created_at updated_at db
  = (Ok cert_obj,
     Sql.mkDB (Sql.users db) (Sql.relationships db) (Sql.certificates db ++ [cert_obj])).
Proof.
  intros Hr Hid Hno. unfold Sql.create_certificate, Sql.insert_certificate. run_all.
  rewrite decide_True by (apply list_elem_of_singleton; done). simpl.
  by rewrite decide_False by tauto.
Qed.

Lemma sql_create_certificate_collision (db : Sql.DB) :
  User.role caller = UserRole.RETAILER →
  uid ∈ Certificate.id <$> Sql.certificates db
  ∨ default_certificate_no no_uuid ∈ Certificate.certificate_no <$> Sql.certificates db →
  Sql.create_certificate cert_data caller uid no_uuid fitment_date created_at updated_at db
  = (Raise IntegrityError, db).
Proof.
  intros Hr Hdup. unfold Sql.create_certificate, Sql.insert_certificate. run_all.
  rewrite decide_True by (apply list_elem_of_singleton; done). simpl.
  by rewrite decide_True.
Qed.

Lemma mongo_create_certificate_refused (db : Mongo.DB) :
  User.role caller ≠ UserRole.RETAILER →
  Mongo.create_certificate cert_data caller uid no_uuid
    fitment_date created_at updated_at db
  = (Raise (HTTPException 403 "Insufficient permissions"), db).
Proof.
  intros Hr. unfold Mongo.create_certificate. run_all.
  rewrite decide_False; [done|]. intros Hin. by apply list_elem_of_singleton in Hin.
Qed.

Lemma mongo_create_certificate_stored (db : Mongo.DB) :
  User.role caller = UserRole.RETAILER →
  Mongo.create_certificate cert_data caller uid no_uuid
    fitment_date created_at updated_at db
  = (Ok cert_obj,
     Mongo.mkDB (Mongo.users db) (Mongo.relationships db)
       (Mongo.certificates db ++ [cert_obj])).
Proof.
  intros Hr. unfold Mongo.create_certificate. run_all.
  by rewrite decide_True by (apply list_elem_of_singleton; done).
Qed.

End Create.



Section CreateThenRead.

Variables (cert_data : CertificateCreate.t) (caller : User.t).
Variables (uid no_uuid : string) (fitment_date created_at updated_at : Z).
Hypothesis retailer : User.role caller = UserRole.RETAILER.

Lemma own_after_append (certs : list Certificate.t) (c : Certificate.t) :
  Certificate.retailer_id c = User.id caller →
  filter (λ x, Certificate.retailer_id x = User.id caller) (certs ++ [c])
  = filter (λ x, Certificate.retailer_id x = User.id caller) certs ++ [c].
Proof.
  intros Hown. rewrite filter_app. f_equal.
  by rewrite filter_cons_True.
Qed.

Lemma ids_after_append (certs : list Certificate.t) (c : Certificate.t) :
  NoDup (Certificate.id <$> certs) → Certificate.id c ∉ Certificate.id <$> certs →
  NoDup (Certificate.id <$> (certs ++ [c])).
Proof.
  intros Hnd Hfresh. rewrite fmap_app. apply NoDup_app. split; [done|]. split.
  - intros x Hx Hx'. apply list_elem_of_singleton in Hx'. by subst.
  - apply NoDup_singleton.
Qed.

Lemma sql_create_then_read (db : Sql.DB) :
  NoDup (Certificate.id <$> Sql.certificates db) → sql_unique_edges db →
  uid ∉ Certificate.id <$> Sql.certificates db →
  default_certificate_no no_uuid ∉ Certificate.certificate_no <$> Sql.certificates db →
  ∃ c db',
    Sql.create_certificate cert_data caller uid no_uuid
      fitment_date created_at updated_at db = (Ok c, db')
    ∧ Sql.get_certificate uid caller db' = (Ok c, db')
    ∧ Sql.get_certificates caller db'
      = (Ok (filter (λ x, Certificate.retailer_id x = User.id caller)
               (Sql.certificates db) ++ [c]), db')
    ∧ ∀ other, User.role other = UserRole.RETAILER → User.id other ≠ User.id caller →
               Sql.get_certificate uid other db'
               = (Raise (HTTPException 403 "Access forbidden"), db').
Proof.
  intros Hnd Hedges Hid Hno.
  eexists _, _. split; [by apply sql_create_certificate_stored|].
  set (c := new_certificate _ _ _ _ _ _ _).
  set (db' := Sql.mkDB _ _ _).
  assert (NoDup (Certificate.id <$> Sql.certificates db')) as Hnd'
    by (by apply ids_after_append).
  assert (c ∈ Sql.certificates db') as Hc
    by (apply elem_of_app; right; left).
  split; [|split].
  - change uid with (Certificate.id c).
    rewrite (sql_get_certificate_visible caller c db' Hnd' Hedges Hc).
    rewrite decide_True; [done|]. split; [done|].
    intros Hd. rewrite retailer in Hd. discriminate.
  - rewrite sql_get_certificates_retailer by done. simpl.
    by rewrite own_after_append.
  - intros other Hr Hother. change uid with (Certificate.id c).
    rewrite (sql_get_certificate_visible other c db' Hnd' Hedges Hc).
    rewrite decide_False; [done|]. intros [Hown _]. apply Hother. symmetry. by apply Hown.
Qed.

Lemma mongo_create_then_read (db : Mongo.DB) :
  NoDup (Certificate.id <$> Mongo.certificates db) →
  uid ∉ Certificate.id <$> Mongo.certificates db →
  ∃ c db',
    Mongo.create_certificate cert_data caller uid no_uuid
      fitment_date created_at updated_at db = (Ok c, db')
    ∧ Mongo.get_certificate uid caller db' = (Ok c, db')
    ∧ Mongo.get_certificates caller db'
      = (Ok (filter (λ x, Certificate.retailer_id x = User.id caller)
               (Mongo.certificates db) ++ [c]), db')
    ∧ ∀ other, User.role other = UserRole.RETAILER → User.id other ≠ User.id caller →
               Mongo.get_certificate uid other db'
               = (Raise (HTTPException 403 "Access forbidden"), db').
Proof.
  intros Hnd Hid.
  eexists _, _. split; [by apply mongo_create_certificate_stored|].
  set (c := new_certificate _ _ _ _ _ _ _).
  set (db' := Mongo.mkDB _ _ _).
  assert (NoDup (Certificate.id <$> Mongo.certificates db')) as Hnd'
    by (by apply ids_after_append).
  assert (c ∈ Mongo.certificates db') as Hc
    by (apply elem_of_app; right; left).
  split; [|split].
  - change uid with (Certificate.id c).
    rewrite (mongo_get_certificate_visible caller c db' Hnd' Hc).
    rewrite decide_True; [done|]. split; [done|].
    intros Hd. rewrite retailer in Hd. discriminate.
  - rewrite mongo_get_certificates_retailer by done. simpl.
    by rewrite own_after_append.
  - intros other Hr Hother. change uid with (Certificate.id c).
    rewrite (mongo_get_certificate_visible other c db' Hnd' Hc).
    rewrite decide_False; [done|]. intros [Hown _]. apply Hother. symmetry. by apply Hown.
Qed.

End CreateThenRead.



(** ** Registration: who may register whom, and the edge it creates *)

(** Case analysis on role facts. *)
Ltac roles :=
  repeat match goal with
  | H : _ ∧ _ |- _ => destruct H
  | H : ?A → _, H' : ?A |- _ =>
      match type of A with Prop => specialize (H H') end
  | H : False |- _ => destruct H
  | H : _ ∈ _ :: _ |- _ => apply elem_of_cons in H as [H|H]
  | H : _ ∈ [] |- _ => apply elem_of_nil in H
  | H : _ ∨ _ |- _ => destruct H
  | H : Some _ = Some _ |- _ => injection H as H
  | H : Exists _ _, Hno : ∀ d, ¬ Exists _ _ |- _ => apply Hno in H
  | |- _ ∧ _ => split
  | |- ∀ _, _ => intro
  | |- _ ∈ _ :: _ => apply elem_of_cons; first [by (left; congruence) | right]
  end;
  unfold UserRole.ADMIN, UserRole.DISTRIBUTOR, UserRole.RETAILER in *;
  try congruence; try done.

Ltac role_cases current_user user_data :=
  destruct current_user as [cu|]; simpl;
    destruct (decide (UserCreate.role user_data = UserRole.ADMIN)) as [Ra|Ra];
    destruct (decide (UserCreate.role user_data = UserRole.DISTRIBUTOR)) as [Rd|Rd];
    destruct (decide (UserCreate.role user_data = UserRole.RETAILER)) as [Rr|Rr];
    try (exfalso; unfold UserRole.ADMIN, UserRole.DISTRIBUTOR, UserRole.RETAILER in *;
         congruence); simpl;
    try (destruct (decide (User.role cu = UserRole.ADMIN)) as [Ca|Ca];
         destruct (decide (User.role cu = UserRole.DISTRIBUTOR)) as [Cd|Cd];
         try (exfalso;
              unfold UserRole.ADMIN, UserRole.DISTRIBUTOR, UserRole.RETAILER in *;
              congruence); simpl);
    repeat (case_decide; simpl); rewrite ?app_nil_r; try done;
    try solve [exfalso; roles];
    try (exfalso;
         match goal with H : ¬ _ |- _ => apply H; clear H; solve [roles] end).

Section RegisterTable.

Variable pbkdf2_hmac_sha256 : string → string → string.
Variable sha256_hexdigest : string → string.
Variables (user_data : UserCreate.t) (current_user : option User.t).
Variables (uid : string) (now : Z) (salt : string) (rel_uid : string) (rel_now : Z).

Lemma sql_register_fresh (db : Sql.DB) :
  UserCreate.username user_data ∉ UserModel.username <$> Sql.users db →
  uid ∉ UserModel.id <$> Sql.users db →
  rel_uid ∉ RelationshipModel.id <$> Sql.relationships db →
  uid ∉ RelationshipModel.retailer_id <$> Sql.relationships db →
  Sql.register_user pbkdf2_hmac_sha256 user_data current_user
    uid now salt rel_uid rel_now db
  = if decide (may_register current_user (UserCreate.role user_data)) then
      (Ok (User.mk uid (UserCreate.username user_data) (UserCreate.role user_data)
             (UserCreate.company_name user_data) (UserCreate.contact_number user_data)
             (User.id <$> current_user) now),
       Sql.mkDB
         (Sql.users db ++
            [UserModel.mk uid (UserCreate.username user_data)
               (pbkdf2_hmac_sha256 (UserCreate.password user_data) salt) salt
               (UserCreate.role user_data)
               (UserCreate.company_name user_data) (UserCreate.contact_number user_data)
               (User.id <$> current_user) now])
         (Sql.relationships db ++
            match current_user with
            | Some cu =>
                if decide (links current_user (UserCreate.role user_data))
                then [RelationshipModel.mk rel_uid (User.id cu) uid rel_now]
                else []
            | None => []
            end)
         (Sql.certificates db))
    else
      (Raise (HTTPException 403
                (if decide (UserCreate.role user_data = UserRole.ADMIN)
                 then "Cannot create admin users through registration"
                 else if decide (UserCreate.role user_data = UserRole.DISTRIBUTOR)
                 then "Only admins can create distributors"
                 else "Only admins or distributors can create retailers")), db).
Proof.
  intros Hname Hid Hrel Hedge.
  unfold Sql.register_user, Sql.select_user_by_username, Sql.insert_user,
    Sql.insert_relationship.
  run_all. rewrite filter_key_fresh by done. simpl.
  unfold may_register, links.
  assert (∀ d, ¬ Exists (λ r, RelationshipModel.distributor_id r = d
                            ∧ RelationshipModel.retailer_id r = uid)
                   (Sql.relationships db)) as Hno.
  { intros d Hex. apply Exists_exists in Hex as (r & Hr & _ & Hrid).
    apply Hedge. rewrite <- Hrid. by apply list_elem_of_fmap_2. }
  role_cases current_user user_data.
Qed.

Lemma mongo_register_fresh (db : Mongo.DB) :
  UserCreate.username user_data
    ∉ (λ u, User.username (UserDoc.user u)) <$> Mongo.users db →
  Mongo.register_user sha256_hexdigest user_data current_user uid now rel_now db
  = if decide (may_register current_user (UserCreate.role user_data)) then
      (Ok (User.mk uid (UserCreate.username user_data) (UserCreate.role user_data)
             (UserCreate.company_name user_data) (UserCreate.contact_number user_data)
             (User.id <$> current_user) now),
       Mongo.mkDB
         (Mongo.users db ++
            [UserDoc.mk
               (User.mk uid (UserCreate.username user_data) (UserCreate.role user_data)
                  (UserCreate.company_name user_data)
                  (UserCreate.contact_number user_data)
                  (User.id <$> current_user) now)
               (sha256_hexdigest (UserCreate.password user_data))])
         (Mongo.relationships db ++
            match current_user with
            | Some cu =>
                if decide (links current_user (UserCreate.role user_data))
                then [RelationshipDoc.mk (User.id cu) uid rel_now]
                else []
            | None => []
            end)
         (Mongo.certificates db))
    else
      (Raise (HTTPException 403
                (if decide (UserCreate.role user_data = UserRole.ADMIN)
                 then "Cannot create admin users through registration"
                 else if decide (UserCreate.role user_data = UserRole.DISTRIBUTOR)
                 then "Only admins can create distributors"
                 else "Only admins or distributors can create retailers")), db).
Proof.
  intros Hname.
  unfold Mongo.register_user, Mongo.find_user, Mongo.find_one.
  run_all. rewrite (filter_key_fresh (λ u, User.username (UserDoc.user u))) by done.
  simpl. unfold may_register, links.
  role_cases current_user user_data.
Qed.

End RegisterTable.





(** ** Sessions: login and the resolution of a token *)

Section Sessions.

Variable jwt_decode_sub : string → option (option string).
Variable jwt_encode : string → Z → string.
Variable pbkdf2_hmac_sha256 : string → string → string.
Variable sha256_hexdigest : string → string.
Variable minutes : Z.

Lemma sql_lookup_username (db : Sql.DB) (row : UserModel.t) :
  NoDup (UserModel.username <$> Sql.users db) → row ∈ Sql.users db →
  filter (λ u, UserModel.username u = UserModel.username row) (Sql.users db) = [row].
Proof.
  intros Hnd Hrow.
  destruct (filter_key_unique UserModel.username (Sql.users db)
              (UserModel.username row) Hnd) as (x & _ & _ & Hf).
  { by apply list_elem_of_fmap_2. }
  assert (row ∈ filter (λ u, UserModel.username u = UserModel.username row)
                  (Sql.users db)) as Hin by (apply list_elem_of_filter; done).
  rewrite Hf in Hin. apply list_elem_of_singleton in Hin. by subst.
Qed.

Lemma mongo_lookup_username (db : Mongo.DB) (doc : UserDoc.t) :
  NoDup ((λ u, User.username (UserDoc.user u)) <$> Mongo.users db) →
  doc ∈ Mongo.users db →
  Mongo.find_one (λ u, User.username (UserDoc.user u)
                       = User.username (UserDoc.user doc)) (Mongo.users db)
  = Some doc.
Proof.
  intros Hnd Hdoc. unfold Mongo.find_one.
  destruct (filter_key_unique (λ u, User.username (UserDoc.user u)) (Mongo.users db)
              (User.username (UserDoc.user doc)) Hnd) as (x & _ & _ & Hf).
  { by apply (list_elem_of_fmap_2 (λ u, User.username (UserDoc.user u))). }
  assert (doc ∈ filter (λ u, User.username (UserDoc.user u)
                             = User.username (UserDoc.user doc))
                  (Mongo.users db)) as Hin by (apply list_elem_of_filter; done).
  rewrite Hf in Hin. apply list_elem_of_singleton in Hin. subst. by rewrite Hf.
Qed.

Lemma sql_login_known (db : Sql.DB) (row : UserModel.t) (password : string) (now : Z) :
  NoDup (UserModel.username <$> Sql.users db) → row ∈ Sql.users db →
  Sql.login pbkdf2_hmac_sha256 jwt_encode minutes
    (UserLogin.mk (UserModel.username row) password) now db
  = if decide (pbkdf2_hmac_sha256 password (UserModel.password_salt row)
               = UserModel.password_hash row)
    then (Ok (Token.mk
                (jwt_encode (UserModel.username row)
                   (now + timedelta_minutes (if decide (minutes = 0) then 15
                                             else minutes)))
                "bearer" (Sql.to_user row)), db)
    else (Raise (HTTPException 401 "Incorrect username or password"), db).
Proof.
  intros Hnd Hrow.
  unfold Sql.login, Sql.select_user_by_username, Sql.verify_password,
    Sql.create_access_token, token_expiry.
  run_all. rewrite sql_lookup_username by done. simpl.
  rewrite bool_decide_decide. case_decide; [|done].
  unfold timedelta_minutes.
  destruct (decide (minutes = 0)) as [->|Hm]; simpl; [done|].
  rewrite decide_False by lia. done.
Qed.

Lemma sql_login_unknown (db : Sql.DB) (user_credentials : UserLogin.t) (now : Z) :
  UserLogin.username user_credentials ∉ UserModel.username <$> Sql.users db →
  Sql.login pbkdf2_hmac_sha256 jwt_encode minutes user_credentials now db
  = (Raise (HTTPException 401 "Incorrect username or password"), db).
Proof.
  intros Hno. unfold Sql.login, Sql.select_user_by_username. run_all.
  by rewrite filter_key_fresh.
Qed.

Lemma mongo_login_known (db : Mongo.DB) (doc : UserDoc.t) (password : string) (now : Z) :
  NoDup ((λ u, User.username (UserDoc.user u)) <$> Mongo.users db) →
  doc ∈ Mongo.users db →
  Mongo.login sha256_hexdigest jwt_encode
    (UserLogin.mk (User.username (UserDoc.user doc)) password) now db
  = if decide (sha256_hexdigest password = UserDoc.password_hash doc)
    then (Ok (Token.mk
                (jwt_encode (User.username (UserDoc.user doc))
                   (now + timedelta_minutes 30))
                "bearer" (UserDoc.user doc)), db)
    else (Raise (HTTPException 401 "Incorrect username or password"), db).
Proof.
  intros Hnd Hdoc.
  unfold Mongo.login, Mongo.find_user, Mongo.verify_password,
    Mongo.create_access_token, token_expiry.
  run_all. rewrite mongo_lookup_username by done. simpl.
  rewrite bool_decide_decide. by case_decide.
Qed.

Lemma mongo_login_unknown (db : Mongo.DB) (user_credentials : UserLogin.t) (now : Z) :
  UserLogin.username user_credentials
    ∉ (λ u, User.username (UserDoc.user u)) <$> Mongo.users db →
  Mongo.login sha256_hexdigest jwt_encode user_credentials now db
  = (Raise (HTTPException 401 "Incorrect username or password"), db).
Proof.
  intros Hno. unfold Mongo.login, Mongo.find_user, Mongo.find_one. run_all.
  by rewrite (filter_key_fresh (λ u, User.username (UserDoc.user u))).
Qed.

Lemma sql_get_current_user_known (db : Sql.DB) (row : UserModel.t) (token : string) :
  NoDup (UserModel.username <$> Sql.users db) → row ∈ Sql.users db →
  jwt_decode_sub token = Some (Some (UserModel.username row)) →
  Sql.get_current_user jwt_decode_sub token db = (Ok (Sql.to_user row), db).
Proof.
  intros Hnd Hrow Hdec. unfold Sql.get_current_user, Sql.select_user_by_username.
  rewrite Hdec. run_all. by rewrite sql_lookup_username.
Qed.

Lemma mongo_get_current_user_known (db : Mongo.DB) (doc : UserDoc.t) (token : string) :
  NoDup ((λ u, User.username (UserDoc.user u)) <$> Mongo.users db) →
  doc ∈ Mongo.users db →
  jwt_decode_sub token = Some (Some (User.username (UserDoc.user doc))) →
  Mongo.get_current_user jwt_decode_sub token db = (Ok (UserDoc.user doc), db).
Proof.
  intros Hnd Hdoc Hdec. unfold Mongo.get_current_user, Mongo.find_user.
  rewrite Hdec. run_all. by rewrite mongo_lookup_username.
Qed.

Lemma sql_get_current_user_ok (db db' : Sql.DB) (token : string) (u : User.t) :
  Sql.get_current_user jwt_decode_sub token db = (Ok u, db') →
  ∃ row, row ∈ Sql.users db ∧ u = Sql.to_user row
         ∧ jwt_decode_sub token = Some (Some (UserModel.username row)).
Proof.
  unfold Sql.get_current_user, Sql.select_user_by_username.
  destruct (jwt_decode_sub token) as [[n|]|]; [|done..]. run_all.
  destruct (filter (λ u, UserModel.username u = n) (Sql.users db))
    as [|row [|row' rest]] eqn:E; simpl; [done| |done].
  intros [= <- _].
  apply (filter_head_elem_of (λ u, UserModel.username u = n)) in E as [Hin <-].
  by exists row.
Qed.

Lemma mongo_get_current_user_ok (db db' : Mongo.DB) (token : string) (u : User.t) :
  Mongo.get_current_user jwt_decode_sub token db = (Ok u, db') →
  ∃ doc, doc ∈ Mongo.users db ∧ u = UserDoc.user doc
         ∧ jwt_decode_sub token = Some (Some (User.username u)).
Proof.
  unfold Mongo.get_current_user, Mongo.find_user, Mongo.find_one.
  destruct (jwt_decode_sub token) as [[n|]|]; [|done..]. run_all.
  destruct (filter (λ u, User.username (UserDoc.user u) = n) (Mongo.users db))
    as [|doc rest] eqn:E; simpl; [done|].
  intros [= <- _].
  apply (filter_head_elem_of (λ u, User.username (UserDoc.user u) = n)) in E
    as [Hin <-].
  by exists doc.
Qed.

Lemma mongo_get_current_user_fails (db : Mongo.DB) (token : string) :
  ¬ succeeds (Mongo.get_current_user jwt_decode_sub token db).1 →
  Mongo.get_current_user jwt_decode_sub token db
  = (Raise (HTTPException 401 "Could not validate credentials"), db).
Proof.
  unfold Mongo.get_current_user, Mongo.find_user, Mongo.find_one.
  destruct (jwt_decode_sub token) as [[n|]|]; [|done..]. run_all.
  destruct (filter _ (Mongo.users db)) as [|doc rest]; simpl; [done|].
  intros Hns. destruct Hns. by eexists.
Qed.

Lemma sql_get_current_user_fails (db : Sql.DB) (token : string) :
  NoDup (UserModel.username <$> Sql.users db) →
  ¬ succeeds (Sql.get_current_user jwt_decode_sub token db).1 →
  Sql.get_current_user jwt_decode_sub token db
  = (Raise (HTTPException 401 "Could not validate credentials"), db).
Proof.
  intros Hnd.
  unfold Sql.get_current_user, Sql.select_user_by_username.
  destruct (jwt_decode_sub token) as [[n|]|]; [|done..]. run_all.
  destruct (filter (λ u, UserModel.username u = n) (Sql.users db))
    as [|row [|row' rest]] eqn:E; simpl; [done| |].
  - intros Hns. destruct Hns. by eexists.
  - apply (filter_head_elem_of (λ u, UserModel.username u = n)) in E as Hrow.
    destruct Hrow as [Hrow <-].
    rewrite sql_lookup_username in E by done. discriminate.
Qed.

End Sessions.

(** [get_current_user] resolves a token to the stored identity whose
    username is the token's subject, and to nothing else: it succeeds
    exactly in that case, it writes nothing, and every failure is the one
    unauthenticated answer.  (Usernames are unique in the store.) *)
Theorem token_resolution
    (jwt_decode_sub : string → option (option string)) (token : string) :
  (∀ db : Sql.DB,
      NoDup (UserModel.username <$> Sql.users db) →
      (∀ u, Sql.get_current_user jwt_decode_sub token db = (Ok u, db)
            ↔ ∃ row, row ∈ Sql.users db ∧ u = Sql.to_user row
                     ∧ jwt_decode_sub token = Some (Some (UserModel.username row)))
      ∧ (¬ succeeds (Sql.get_current_user jwt_decode_sub token db).1 →
         Sql.get_current_user jwt_decode_sub token db
         = (Raise (HTTPException 401 "Could not validate credentials"), db)))
  ∧ (∀ db : Mongo.DB,
      NoDup ((λ u, User.username (UserDoc.user u)) <$> Mongo.users db) →
      (∀ u, Mongo.get_current_user jwt_decode_sub token db = (Ok u, db)
            ↔ ∃ doc, doc ∈ Mongo.users db ∧ u = UserDoc.user doc
                     ∧ jwt_decode_sub token = Some (Some (User.username u)))
      ∧ (¬ succeeds (Mongo.get_current_user jwt_decode_sub token db).1 →
         Mongo.get_current_user jwt_decode_sub token db
         = (Raise (HTTPException 401 "Could not validate credentials"), db))).
Proof.
  split; intros db Hnd; split.
  - intros u. split.
    + apply sql_get_current_user_ok.
    + intros (row & Hrow & -> & Hdec). by apply sql_get_current_user_known.
  - by apply sql_get_current_user_fails.
  - intros u. split.
    + apply mongo_get_current_user_ok.
    + intros (doc & Hdoc & -> & Hdec). by apply mongo_get_current_user_known.
  - apply mongo_get_current_user_fails.
Qed.

Lemma token_resolution_witness :
  Sql.get_current_user Fixture.jwt "dist" Fixture.sql = (Ok Fixture.dist, Fixture.sql)
  ∧ Mongo.get_current_user Fixture.jwt "nosub" Fixture.mongo
    = (Raise (HTTPException 401 "Could not validate credentials"), Fixture.mongo).
Proof.
  split.
  - destruct (token_resolution Fixture.jwt "dist") as [Hs _].
    destruct (Hs Fixture.sql) as [Hiff _]; [decide_by_compute|].
    apply Hiff. exists (Fixture.row Fixture.dist).
    split; [right; left|]. split; reflexivity.
  - destruct (token_resolution Fixture.jwt "nosub") as [_ Hm].
    destruct (Hm Fixture.mongo) as [_ Hfail]; [decide_by_compute|].
    apply Hfail. intros [u Hu]. vm_compute in Hu. discriminate.
Defined.



Section RegisterLogin.

Variable jwt_decode_sub : string → option (option string).
Variable jwt_encode : string → Z → string.
Variable pbkdf2_hmac_sha256 : string → string → string.
Variable sha256_hexdigest : string → string.
Variable minutes : Z.
Variables (user_data : UserCreate.t) (current_user : option User.t).
Variables (uid : string) (now : Z) (salt : string) (rel_uid : string) (rel_now : Z).
Variable login_time : Z.
Hypothesis allowed : may_register current_user (UserCreate.role user_data).

Lemma sql_register_login_whoami (db : Sql.DB) :
  NoDup (UserModel.username <$> Sql.users db) →
  UserCreate.username user_data ∉ UserModel.username <$> Sql.users db →
  uid ∉ UserModel.id <$> Sql.users db →
  rel_uid ∉ RelationshipModel.id <$> Sql.relationships db →
  uid ∉ RelationshipModel.retailer_id <$> Sql.relationships db →
  ∃ u db1 token,
    Sql.register_user pbkdf2_hmac_sha256 user_data current_user
      uid now salt rel_uid rel_now db = (Ok u, db1)
    ∧ Sql.login pbkdf2_hmac_sha256 jwt_encode minutes
        (UserLogin.mk (UserCreate.username user_data) (UserCreate.password user_data))
        login_time db1 = (Ok token, db1)
    ∧ Token.user token = u
    ∧ (∃ exp, Token.access_token token
              = jwt_encode (UserCreate.username user_data) exp)
    ∧ (jwt_decode_sub (Token.access_token token)
       = Some (Some (UserCreate.username user_data)) →
       Sql.get_current_user jwt_decode_sub (Token.access_token token) db1 = (Ok u, db1)).
Proof.
  intros Hnd Hname Hid Hrel Hedge.
  rewrite (sql_register_fresh pbkdf2_hmac_sha256 user_data current_user
             uid now salt rel_uid rel_now db Hname Hid Hrel Hedge).
  rewrite decide_True by done.
  set (row := UserModel.mk uid _ _ _ _ _ _ _ _).
  set (db1 := Sql.mkDB _ _ _).
  assert (NoDup (UserModel.username <$> Sql.users db1)) as Hnd1.
  { simpl. rewrite fmap_app. apply NoDup_app. split; [done|]. split.
    - intros x Hx Hx'. apply list_elem_of_singleton in Hx'. by subst.
    - apply NoDup_singleton. }
  assert (row ∈ Sql.users db1) as Hrow by (apply elem_of_app; right; left).
  pose proof (sql_login_known jwt_encode pbkdf2_hmac_sha256 minutes db1 row
                (UserCreate.password user_data) login_time Hnd1 Hrow) as Hlogin.
  rewrite decide_True in Hlogin by done.
  eexists _, db1, _. split; [reflexivity|]. split; [exact Hlogin|].
  split; [reflexivity|]. split; [by eexists|]. simpl. intros Hdec.
  by apply (sql_get_current_user_known jwt_decode_sub db1 row).
Qed.

Lemma mongo_register_login_whoami (db : Mongo.DB) :
  NoDup ((λ u, User.username (UserDoc.user u)) <$> Mongo.users db) →
  UserCreate.username user_data
    ∉ (λ u, User.username (UserDoc.user u)) <$> Mongo.users db →
  ∃ u db1 token,
    Mongo.register_user sha256_hexdigest user_data current_user uid now rel_now db
    = (Ok u, db1)
    ∧ Mongo.login sha256_hexdigest jwt_encode
        (UserLogin.mk (UserCreate.username user_data) (UserCreate.password user_data))
        login_time db1 = (Ok token, db1)
    ∧ Token.user token = u
    ∧ (∃ exp, Token.access_token token
              = jwt_encode (UserCreate.username user_data) exp)
    ∧ (jwt_decode_sub (Token.access_token token)
       = Some (Some (UserCreate.username user_data)) →
       Mongo.get_current_user jwt_decode_sub (Token.access_token token) db1
       = (Ok u, db1)).
Proof.
  intros Hnd Hname.
  rewrite (mongo_register_fresh sha256_hexdigest user_data current_user
             uid now rel_now db Hname).
  rewrite decide_True by done.
  set (doc := UserDoc.mk _ _).
  set (db1 := Mongo.mkDB _ _ _).
  assert (NoDup ((λ u, User.username (UserDoc.user u)) <$> Mongo.users db1)) as Hnd1.
  { simpl. rewrite fmap_app. apply NoDup_app. split; [done|]. split.
    - intros x Hx Hx'. apply list_elem_of_singleton in Hx'. by subst.
    - apply NoDup_singleton. }
  assert (doc ∈ Mongo.users db1) as Hdoc by (apply elem_of_app; right; left).
  pose proof (mongo_login_known jwt_encode sha256_hexdigest db1 doc
                (UserCreate.password user_data) login_time Hnd1 Hdoc) as Hlogin.
  rewrite decide_True in Hlogin by done.
  eexists _, db1, _. split; [reflexivity|]. split; [exact Hlogin|].
  split; [reflexivity|]. split; [by eexists|]. simpl. intros Hdec.
  by apply (mongo_get_current_user_known jwt_decode_sub db1 doc).
Qed.

End RegisterLogin.



(** ** Dashboard *)

(** Reading a key of a dashboard answer. *)
Ltac read_stats :=
  unfold certificate_counters; cbn [app];
  rewrite ?list_to_map_cons, ?list_to_map_nil;
  repeat (rewrite lookup_insert_ne by discriminate);
  rewrite ?lookup_insert_eq, ?lookup_empty.

Section Dashboard.

Lemma length_filter_split {A} (P : A → Prop) `{∀ x, Decision (P x)} (l : list A) :
  length l = (length (filter P l) + length (filter (λ x, ¬ P x) l))%nat.
Proof.
  induction l as [|x l IH]; [done|].
  destruct (decide (P x)).
  - rewrite filter_cons_True, (filter_cons_False (λ x, ¬ P x)) by tauto. simpl. lia.
  - rewrite filter_cons_False, (filter_cons_True (λ x, ¬ P x)) by tauto. simpl. lia.
Qed.

Lemma draft_counter (rows : list Certificate.t) :
  Z.of_nat (length rows) - count_submitted rows
  = Z.of_nat (length (filter (λ c, Certificate.status c ≠ "submitted") rows)).
Proof.
  unfold count_submitted.
  rewrite (length_filter_split (λ c, Certificate.status c = "submitted") rows) at 1.
  lia.
Qed.

Lemma counters_read (extra : list (string * Z)) (rows : list Certificate.t) :
  "total_certificates" ∉ extra.*1 → "submitted_certificates" ∉ extra.*1 →
  "draft_certificates" ∉ extra.*1 →
  let stats : gmap string Z := list_to_map (extra ++ certificate_counters rows) in
  stats !! "total_certificates" = Some (Z.of_nat (length rows))
  ∧ stats !! "submitted_certificates" = Some (count_submitted rows)
  ∧ stats !! "draft_certificates"
    = Some (Z.of_nat (length (filter (λ c, Certificate.status c ≠ "submitted") rows))).
Proof.
  intros H1 H2 H3 stats. subst stats.
  rewrite list_to_map_app.
  rewrite !lookup_union_r by (by apply not_elem_of_list_to_map_1).
  rewrite <- draft_counter. repeat split; read_stats; done.
Qed.

End Dashboard.

Section DashboardListing.

Variable caller : User.t.

Lemma sql_dashboard_rows (db : Sql.DB) :
  ∃ rows extra,
    Sql.get_certificates caller db = (Ok rows, db)
    ∧ Sql.get_dashboard_stats caller db
      = (Ok (list_to_map (extra ++ certificate_counters rows)), db)
    ∧ (User.role caller = UserRole.ADMIN →
       extra = [("total_users", Z.of_nat (length (Sql.users db)));
                ("total_distributors",
                 Z.of_nat (length (filter (λ u, UserModel.role u = UserRole.DISTRIBUTOR)
                                     (Sql.users db))));
                ("total_retailers",
                 Z.of_nat (length (filter (λ u, UserModel.role u = UserRole.RETAILER)
                                     (Sql.users db))))])
    ∧ (User.role caller = UserRole.DISTRIBUTOR →
       extra = [("total_retailers",
                 Z.of_nat (length (Sql.reachable_retailers db (User.id caller))))])
    ∧ (User.role caller ∉ [UserRole.ADMIN; UserRole.DISTRIBUTOR] → extra = []).
Proof.
  unfold Sql.get_certificates, Sql.get_dashboard_stats, Sql.select_relationships_of,
    Sql.reachable_retailers.
  destruct (decide (User.role caller = UserRole.ADMIN)) as [Ha|Ha].
  - eexists _, _. split; [reflexivity|]. split; [reflexivity|].
    split; [done|]. split; [intros Hd; rewrite Hd in Ha; discriminate|].
    intros Hno. destruct Hno. rewrite Ha. left.
  - destruct (decide (User.role caller = UserRole.DISTRIBUTOR)) as [Hd|Hd].
    + run_all.
      destruct (RelationshipModel.retailer_id <$> _) as [|x ids] eqn:E; simpl.
      * exists [], [("total_retailers", 0)]. repeat split; try done.
        intros Hno. destruct Hno. rewrite Hd. right; left.
      * exists (filter (λ c, Certificate.retailer_id c ∈ x :: ids) (Sql.certificates db)),
          [("total_retailers", Z.of_nat (length (x :: ids)))].
        split; [reflexivity|]. split; [reflexivity|].
        split; [done|]. split; [done|].
        intros Hno. destruct Hno. rewrite Hd. right; left.
    + run_all.
      exists (filter (λ c, Certificate.retailer_id c = User.id caller)
                (Sql.certificates db)), [].
      split; [reflexivity|]. split; [reflexivity|]. done.
Qed.

Lemma mongo_dashboard_rows (db : Mongo.DB) :
  ∃ rows extra,
    Mongo.get_certificates caller db = (Ok rows, db)
    ∧ Mongo.get_dashboard_stats caller db
      = (Ok (list_to_map (extra ++ certificate_counters rows)), db)
    ∧ (User.role caller = UserRole.ADMIN →
       extra = [("total_users", Z.of_nat (length (Mongo.users db)));
                ("total_distributors",
                 Z.of_nat (length (filter (λ u, User.role (UserDoc.user u)
                                                = UserRole.DISTRIBUTOR)
                                     (Mongo.users db))));
                ("total_retailers",
                 Z.of_nat (length (filter (λ u, User.role (UserDoc.user u)
                                                = UserRole.RETAILER)
                                     (Mongo.users db))))])
    ∧ (User.role caller = UserRole.DISTRIBUTOR →
       extra = [("total_retailers",
                 Z.of_nat (length (Mongo.reachable_retailers db (User.id caller))))])
    ∧ (User.role caller ∉ [UserRole.ADMIN; UserRole.DISTRIBUTOR] → extra = []).
Proof.
  unfold Mongo.get_certificates, Mongo.get_dashboard_stats, Mongo.retailer_ids_of,
    Mongo.reachable_retailers.
  destruct (decide (User.role caller = UserRole.ADMIN)) as [Ha|Ha].
  - eexists _, _. split; [reflexivity|]. split; [reflexivity|].
    split; [done|]. split; [intros Hd; rewrite Hd in Ha; discriminate|].
    intros Hno. destruct Hno. rewrite Ha. left.
  - destruct (decide (User.role caller = UserRole.DISTRIBUTOR)) as [Hd|Hd].
    + run_all.
      exists (filter (λ c, Certificate.retailer_id c
                           ∈ RelationshipDoc.retailer_id <$>
                               filter (λ r, RelationshipDoc.distributor_id r
                                            = User.id caller)
                                 (Mongo.relationships db))
                (Mongo.certificates db)),
        [("total_retailers",
          Z.of_nat (length (RelationshipDoc.retailer_id <$>
                              filter (λ r, RelationshipDoc.distributor_id r
                                           = User.id caller)
                                (Mongo.relationships db))))].
      split; [reflexivity|]. split; [reflexivity|].
      split; [done|]. split; [done|].
      intros Hno. destruct Hno. rewrite Hd. right; left.
    + run_all.
      exists (filter (λ c, Certificate.retailer_id c = User.id caller)
                (Mongo.certificates db)), [].
      split; [reflexivity|]. split; [reflexivity|]. done.
Qed.

End DashboardListing.





(** ** Updating: partial, and different in the two servers *)

Section UpdateDetails.

Variables (certificate_id : string) (cert_data : CertificateUpdate.t).
Variables (caller : User.t) (now : Z).
Hypothesis retailer : User.role caller = UserRole.RETAILER.

Lemma sql_update_certificate_nested (db : Sql.DB) (c : Certificate.t) :
  filter (λ x, Certificate.id x = certificate_id) (Sql.certificates db) = [c] →
  Certificate.retailer_id c = User.id caller →
  is_Some (CertificateUpdate.vehicle_details cert_data)
  ∨ is_Some (CertificateUpdate.owner_details cert_data)
  ∨ is_Some (CertificateUpdate.fitment_details cert_data) →
  Sql.update_certificate certificate_id cert_data caller now db
  = (Raise AttributeError, db).
Proof.
  intros Hsel Hown Hnested.
  unfold Sql.update_certificate, Sql.select_certificate. run_all.
  rewrite retailer, decide_True by (apply list_elem_of_singleton; done). simpl.
  rewrite Hsel. simpl. rewrite decide_True by done. simpl.
  destruct (CertificateUpdate.vehicle_details cert_data) as [v|]; simpl; [done|].
  destruct (CertificateUpdate.owner_details cert_data) as [o|]; simpl; [done|].
  destruct (CertificateUpdate.fitment_details cert_data) as [f|]; simpl; [done|].
  destruct Hnested as [[? ?]|[[? ?]|[? ?]]]; done.
Qed.

Lemma mongo_update_certificate_owner (db : Mongo.DB) (c : Certificate.t) :
  Mongo.find_one (λ x, Certificate.id x = certificate_id) (Mongo.certificates db)
  = Some c →
  Certificate.retailer_id c = User.id caller →
  let set := set_fields (CertificateUpdate.dealer_name cert_data)
               (CertificateUpdate.dealer_license cert_data)
               (CertificateUpdate.vehicle_details cert_data)
               (CertificateUpdate.owner_details cert_data)
               (CertificateUpdate.fitment_details cert_data)
               (CertificateUpdate.status cert_data) now in
  Mongo.update_certificate certificate_id cert_data caller now db
  = (Ok (set c), Mongo.updated certificate_id set db).
Proof.
  intros Hsel Hown set.
  destruct (mongo_update_certificate_cases certificate_id caller now cert_data db)
    as [[Hrole _]|[_ [[Hsel' _]|(x & Hsel' & Hx)]]]; try congruence.
  assert (x = c) as -> by congruence.
  destruct Hx as [[Hno _]|[_ ->]]; done.
Qed.

End UpdateDetails.



(** ** A mutation rewrites one row *)

Section OneRow.

Variable cid : string.

Lemma sql_updated_split (values : Certificate.t → Certificate.t)
    (l : list Certificate.t) (c : Certificate.t) :
  filter (λ x, Certificate.id x = cid) l = [c] →
  ∃ l1 l2, l = l1 ++ c :: l2
    ∧ (λ x, if decide (Certificate.id x = cid) then values x else x) <$> l
      = l1 ++ values c :: l2.
Proof.
  induction l as [|x l IH]; [done|].
  destruct (decide (Certificate.id x = cid)) as [Hx|Hx].
  - rewrite filter_cons_True by done. intros [= -> Hnil].
    exists [], l. split; [done|]. rewrite fmap_cons, decide_True by done.
    simpl. f_equal. rewrite <- (list_fmap_id l) at 2.
    apply list_fmap_ext. intros i y Hy. rewrite decide_False; [done|].
    apply (filter_nil_not_elem_of _ _ Hnil). by eapply list_elem_of_lookup_2.
  - rewrite filter_cons_False by done. intros Hsel.
    destruct (IH Hsel) as (l1 & l2 & -> & E).
    exists (x :: l1), l2. split; [done|].
    rewrite fmap_cons, decide_False by done. simpl. by f_equal.
Qed.

Lemma mongo_updated_split (set : Certificate.t → Certificate.t)
    (l : list Certificate.t) (c : Certificate.t) :
  Mongo.find_one (λ x, Certificate.id x = cid) l = Some c →
  ∃ l1 l2, l = l1 ++ c :: l2
    ∧ Mongo.update_one (λ x, Certificate.id x = cid) set l = l1 ++ set c :: l2.
Proof.
  unfold Mongo.find_one. induction l as [|x l IH]; [done|].
  simpl. destruct (decide (Certificate.id x = cid)) as [Hx|Hx].
  - rewrite filter_cons_True by done. simpl. intros [= ->]. by exists [], l.
  - rewrite filter_cons_False by done. intros Hsel.
    destruct (IH Hsel) as (l1 & l2 & -> & E).
    exists (x :: l1), l2. split; [done|]. simpl. by f_equal.
Qed.

End OneRow.

Section Rewrites.

Variables (certificate_id : string) (caller : User.t) (now : Z).

Lemma sql_update_certificate_row (cert_data : CertificateUpdate.t)
    (db db' : Sql.DB) (c' : Certificate.t) :
  Sql.update_certificate certificate_id cert_data caller now db = (Ok c', db') →
  Sql.users db' = Sql.users db ∧ Sql.relationships db' = Sql.relationships db
  ∧ ∃ l1 c l2,
      Sql.certificates db = l1 ++ c :: l2 ∧ Sql.certificates db' = l1 ++ c' :: l2
      ∧ c' = set_fields (CertificateUpdate.dealer_name cert_data)
               (CertificateUpdate.dealer_license cert_data) None None None
               (CertificateUpdate.status cert_data) now c.
Proof.
  intros E.
  destruct (sql_update_certificate_cases certificate_id caller now cert_data db)
    as [[_ E']|[_ [[_ E']|[(x & x' & rest & _ & E')|(c & Hsel & Hc)]]]];
    try congruence.
  destruct Hc as [[_ E']|[Hown [E'|E']]]; try congruence.
  rewrite E in E'. injection E' as -> ->.
  split; [done|]. split; [done|].
  destruct (sql_updated_split certificate_id
              (set_fields (CertificateUpdate.dealer_name cert_data)
                 (CertificateUpdate.dealer_license cert_data) None None None
                 (CertificateUpdate.status cert_data) now)
              (Sql.certificates db) c Hsel) as (l1 & l2 & E1 & E2).
  by exists l1, c, l2.
Qed.

Lemma mongo_update_certificate_row (cert_data : CertificateUpdate.t)
    (db db' : Mongo.DB) (c' : Certificate.t) :
  Mongo.update_certificate certificate_id cert_data caller now db = (Ok c', db') →
  Mongo.users db' = Mongo.users db ∧ Mongo.relationships db' = Mongo.relationships db
  ∧ ∃ l1 c l2,
      Mongo.certificates db = l1 ++ c :: l2 ∧ Mongo.certificates db' = l1 ++ c' :: l2
      ∧ c' = set_fields (CertificateUpdate.dealer_name cert_data)
               (CertificateUpdate.dealer_license cert_data)
               (CertificateUpdate.vehicle_details cert_data)
               (CertificateUpdate.owner_details cert_data)
               (CertificateUpdate.fitment_details cert_data)
               (CertificateUpdate.status cert_data) now c.
Proof.
  intros E.
  destruct (mongo_update_certificate_cases certificate_id caller now cert_data db)
    as [[_ E']|[_ [[_ E']|(c & Hsel & Hc)]]]; try congruence.
  destruct Hc as [[_ E']|[Hown E']]; try congruence.
  rewrite E in E'. injection E' as -> ->.
  split; [done|]. split; [done|].
  destruct (mongo_updated_split certificate_id
              (set_fields (CertificateUpdate.dealer_name cert_data)
                 (CertificateUpdate.dealer_license cert_data)
                 (CertificateUpdate.vehicle_details cert_data)
                 (CertificateUpdate.owner_details cert_data)
                 (CertificateUpdate.fitment_details cert_data)
                 (CertificateUpdate.status cert_data) now)
              (Mongo.certificates db) c Hsel) as (l1 & l2 & E1 & E2).
  by exists l1, c, l2.
Qed.

Lemma sql_upload_certificate_image_row (image_type : string) (contents : list N)
    (db db' : Sql.DB) (tag : string) :
  Sql.upload_certificate_image certificate_id image_type contents caller now db
  = (Ok tag, db') →
  tag = image_type ∧ image_type ∈ image_types
  ∧ Sql.users db' = Sql.users db ∧ Sql.relationships db' = Sql.relationships db
  ∧ ∃ l1 c l2,
      Sql.certificates db = l1 ++ c :: l2
      ∧ Sql.certificates db'
        = l1 ++ set_images (<[image_type := b64encode contents]> (Certificate.images c))
                  now c :: l2.
Proof.
  intros E.
  destruct (sql_upload_certificate_image_cases certificate_id image_type contents
              caller now db)
    as [[_ E']|[_ [[_ E']|[(x & x' & rest & _ & E')|(c & Hsel & Hc)]]]];
    try congruence.
  destruct Hc as [[_ E']|[Hown [[_ E']|[Htag E']]]]; try congruence.
  rewrite E in E'. injection E' as -> ->.
  split; [done|]. split; [done|]. split; [done|]. split; [done|].
  destruct (sql_updated_split certificate_id
              (set_images (<[image_type := b64encode contents]> (Certificate.images c)) now)
              (Sql.certificates db) c Hsel) as (l1 & l2 & E1 & E2).
  by exists l1, c, l2.
Qed.

Lemma mongo_upload_certificate_image_row (image_type : string) (contents : list N)
    (db db' : Mongo.DB) (tag : string) :
  Mongo.upload_certificate_image certificate_id image_type contents caller now db
  = (Ok tag, db') →
  tag = image_type ∧ image_type ∈ image_types
  ∧ Mongo.users db' = Mongo.users db ∧ Mongo.relationships db' = Mongo.relationships db
  ∧ ∃ l1 c l2,
      Mongo.certificates db = l1 ++ c :: l2
      ∧ Mongo.certificates db'
        = l1 ++ set_images (<[image_type := b64encode contents]> (Certificate.images c))
                  now c :: l2.
Proof.
  intros E.
  destruct (mongo_upload_certificate_image_cases certificate_id caller now
              image_type contents db)
    as [[_ E']|[_ [[_ E']|(c & Hsel & Hc)]]]; try congruence.
  destruct Hc as [[_ E']|[Hown [[_ E']|[Htag E']]]]; try congruence.
  rewrite E in E'. injection E' as -> ->.
  split; [done|]. split; [done|]. split; [done|]. split; [done|].
  destruct (mongo_updated_split certificate_id
              (λ doc, set_images (<[image_type := b64encode contents]>
                                    (Certificate.images doc)) now doc)
              (Mongo.certificates db) c Hsel) as (l1 & l2 & E1 & E2).
  by exists l1, c, l2.
Qed.

End Rewrites.





(** ** Image tags *)

Section Tags.

Lemma well_tagged_app (l : list Certificate.t) (c : Certificate.t) :
  well_tagged l → Certificate.images c = ∅ → well_tagged (l ++ [c]).
Proof.
  intros Hl Hc x Hx tag Htag. apply elem_of_app in Hx as [Hx|Hx].
  - by apply (Hl x).
  - apply list_elem_of_singleton in Hx. subst x.
    rewrite Hc, lookup_empty in Htag. by destruct Htag.
Qed.

Lemma well_tagged_row (l1 l2 : list Certificate.t) (c c' : Certificate.t) :
  well_tagged (l1 ++ c :: l2) →
  (∀ tag, is_Some (Certificate.images c' !! tag) →
          is_Some (Certificate.images c !! tag) ∨ tag ∈ image_types) →
  well_tagged (l1 ++ c' :: l2).
Proof.
  intros Hl Hc x Hx tag Htag.
  apply elem_of_app in Hx as [Hx|Hx].
  - apply (Hl x); [|done]. apply elem_of_app. by left.
  - apply elem_of_cons in Hx as [->|Hx].
    + destruct (Hc tag Htag) as [Hold|Hnew]; [|done].
      apply (Hl c); [|done]. apply elem_of_app. right. left.
    + apply (Hl x); [|done]. apply elem_of_app. right. by right.
Qed.

Lemma well_tagged_upload (l1 l2 : list Certificate.t) (c : Certificate.t)
    (image_type encoded : string) (now : Z) :
  well_tagged (l1 ++ c :: l2) → image_type ∈ image_types →
  well_tagged (l1 ++ set_images (<[image_type := encoded]> (Certificate.images c)) now c
                 :: l2).
Proof.
  intros Hwt Htag. apply (well_tagged_row _ _ c); [done|].
  intros tag. simpl. destruct (decide (tag = image_type)) as [->|Hne]; [by right|].
  rewrite lookup_insert_ne by done. by left.
Qed.

Lemma guarded_raise {DB A} (certificates : DB → list Certificate.t)
    (certificate_id : string) (caller : User.t) (db db' : DB) (e : exn) :
  guarded (A := A) certificates certificate_id caller db (Raise e, db') → db' = db.
Proof. intros Hg. by inversion Hg. Qed.

End Tags.

Section TagsKept.

Variables (certificate_id image_type : string) (contents : list N).
Variables (cert_data : CertificateUpdate.t) (order : CertificateCreate.t).
Variables (caller : User.t) (now : Z).
Variables (uid no_uuid : string) (fitment_date created_at updated_at : Z).

Lemma sql_upload_keeps_tags (db : Sql.DB) :
  well_tagged (Sql.certificates db) →
  well_tagged (Sql.certificates
                 (Sql.upload_certificate_image certificate_id image_type contents
                    caller now db).2).
Proof.
  intros Hwt.
  pose proof (sql_upload_certificate_image_guarded certificate_id caller now
                image_type contents db) as Hg.
  destruct (Sql.upload_certificate_image certificate_id image_type contents caller now db)
    as [[tag|e] db'] eqn:E; simpl.
  - destruct (sql_upload_certificate_image_row _ _ _ _ _ _ _ _ E)
      as (_ & Htag & _ & _ & l1 & c & l2 & E1 & E2).
    rewrite E2. rewrite E1 in Hwt. by apply well_tagged_upload.
  - by rewrite (guarded_raise _ _ _ _ _ _ Hg).
Qed.

Lemma mongo_upload_keeps_tags (db : Mongo.DB) :
  well_tagged (Mongo.certificates db) →
  well_tagged (Mongo.certificates
                 (Mongo.upload_certificate_image certificate_id image_type contents
                    caller now db).2).
Proof.
  intros Hwt.
  pose proof (mongo_upload_certificate_image_guarded certificate_id caller now
                image_type contents db) as Hg.
  destruct (Mongo.upload_certificate_image certificate_id image_type contents caller now db)
    as [[tag|e] db'] eqn:E; simpl.
  - destruct (mongo_upload_certificate_image_row _ _ _ _ _ _ _ _ E)
      as (_ & Htag & _ & _ & l1 & c & l2 & E1 & E2).
    rewrite E2. rewrite E1 in Hwt. by apply well_tagged_upload.
  - by rewrite (guarded_raise _ _ _ _ _ _ Hg).
Qed.

Lemma sql_update_keeps_tags (db : Sql.DB) :
  well_tagged (Sql.certificates db) →
  well_tagged (Sql.certificates
                 (Sql.update_certificate certificate_id cert_data caller now db).2).
Proof.
  intros Hwt.
  pose proof (sql_update_certificate_guarded certificate_id caller now cert_data db) as Hg.
  destruct (Sql.update_certificate certificate_id cert_data caller now db)
    as [[c'|e] db'] eqn:E; simpl.
  - destruct (sql_update_certificate_row _ _ _ _ _ _ _ E)
      as (_ & _ & l1 & c & l2 & E1 & E2 & ->).
    rewrite E2. rewrite E1 in Hwt. apply (well_tagged_row _ _ c); [done|].
    intros tag. simpl. by left.
  - by rewrite (guarded_raise _ _ _ _ _ _ Hg).
Qed.

Lemma mongo_update_keeps_tags (db : Mongo.DB) :
  well_tagged (Mongo.certificates db) →
  well_tagged (Mongo.certificates
                 (Mongo.update_certificate certificate_id cert_data caller now db).2).
Proof.
  intros Hwt.
  pose proof (mongo_update_certificate_guarded certificate_id caller now cert_data db)
    as Hg.
  destruct (Mongo.update_certificate certificate_id cert_data caller now db)
    as [[c'|e] db'] eqn:E; simpl.
  - destruct (mongo_update_certificate_row _ _ _ _ _ _ _ E)
      as (_ & _ & l1 & c & l2 & E1 & E2 & ->).
    rewrite E2. rewrite E1 in Hwt. apply (well_tagged_row _ _ c); [done|].
    intros tag. simpl. by left.
  - by rewrite (guarded_raise _ _ _ _ _ _ Hg).
Qed.

Lemma sql_create_keeps_tags (db : Sql.DB) :
  well_tagged (Sql.certificates db) →
  well_tagged (Sql.certificates
                 (Sql.create_certificate order caller uid no_uuid
                    fitment_date created_at updated_at db).2).
Proof.
  intros Hwt. unfold Sql.create_certificate, Sql.insert_certificate. run_all.
  repeat (case_decide; simpl; try done).
  by apply well_tagged_app.
Qed.

Lemma mongo_create_keeps_tags (db : Mongo.DB) :
  well_tagged (Mongo.certificates db) →
  well_tagged (Mongo.certificates
                 (Mongo.create_certificate order caller uid no_uuid
                    fitment_date created_at updated_at db).2).
Proof.
  intros Hwt. unfold Mongo.create_certificate. run_all.
  repeat (case_decide; simpl; try done).
  by apply well_tagged_app.
Qed.

End TagsKept.

(** The keys of the stored image maps never leave the four accepted
    tags: if every stored certificate has its image keys among "front",
    "back", "side1" and "side2", then so it is after a creation, after an
    update and after an attachment, whoever calls them with whatever
    arguments and whether they succeed or not. *)
Theorem image_tags_invariant
    (certificate_id image_type : string) (contents : list N)
    (cert_data : CertificateUpdate.t) (order : CertificateCreate.t)
    (caller : User.t) (now : Z)
    (uid no_uuid : string) (fitment_date created_at updated_at : Z) :
  (∀ db : Sql.DB,
      well_tagged (Sql.certificates db) →
      well_tagged (Sql.certificates
                     (Sql.create_certificate order caller uid no_uuid
                        fitment_date created_at updated_at db).2)
      ∧ well_tagged (Sql.certificates
                       (Sql.update_certificate certificate_id cert_data caller now db).2)
      ∧ well_tagged (Sql.certificates
                       (Sql.upload_certificate_image certificate_id image_type contents
                          caller now db).2))
  ∧ (∀ db : Mongo.DB,
      well_tagged (Mongo.certificates db) →
      well_tagged (Mongo.certificates
                     (Mongo.create_certificate order caller uid no_uuid
                        fitment_date created_at updated_at db).2)
      ∧ well_tagged (Mongo.certificates
                       (Mongo.update_certificate certificate_id cert_data caller now db).2)
      ∧ well_tagged (Mongo.certificates
                       (Mongo.upload_certificate_image certificate_id image_type contents
                          caller now db).2)).
Proof.
  split; intros db Hwt; (split; [|split]).
  - by apply sql_create_keeps_tags.
  - by apply sql_update_keeps_tags.
  - by apply sql_upload_keeps_tags.
  - by apply mongo_create_keeps_tags.
  - by apply mongo_update_keeps_tags.
  - by apply mongo_upload_keeps_tags.
Qed.

Lemma image_tags_invariant_witness :
  well_tagged (Sql.certificates Fixture.sql)
  ∧ well_tagged (Sql.certificates
                   (Sql.upload_certificate_image "c1" "front" [1; 2; 3]%N
                      Fixture.shop1 500 Fixture.sql).2).
Proof.
  assert (well_tagged (Sql.certificates Fixture.sql)) as Hwt.
  { intros c Hc tag Htag. simpl in Hc.
    apply elem_of_cons in Hc as [->|Hc];
      [unfold Fixture.cert1 in Htag; simpl in Htag;
       rewrite lookup_empty in Htag; by destruct Htag|].
    apply elem_of_cons in Hc as [->|Hc].
    - destruct (decide (tag = "side1")) as [->|Hne]; [decide_by_compute|].
      unfold Fixture.cert2 in Htag. simpl in Htag.
      rewrite lookup_singleton_ne in Htag by done. by destruct Htag.
    - apply list_elem_of_singleton in Hc as ->.
      unfold Fixture.cert3 in Htag. simpl in Htag.
      rewrite lookup_empty in Htag. by destruct Htag. }
  split; [exact Hwt|].
  destruct (image_tags_invariant "c1" "front" [1; 2; 3]%N Fixture.patch Fixture.order
              Fixture.shop1 500 "u" "n" 0 0 0) as [Hs _].
  by apply (Hs Fixture.sql Hwt).
Defined.

(** An attachment under a tag that is none of the four is refused with
    400 "Invalid image type" once the caller is known to own the
    certificate, and nothing is written; the refusal for the role, for an
    unknown id and for a certificate of somebody else come first. *)
Theorem upload_unknown_tag_refused
    (image_type : string) (contents : list N) (caller : User.t) (now : Z)
    (c : Certificate.t) :
  User.role caller = UserRole.RETAILER →
  Certificate.retailer_id c = User.id caller →
  image_type ∉ image_types →
  (∀ db : Sql.DB,
      NoDup (Certificate.id <$> Sql.certificates db) → c ∈ Sql.certificates db →
      Sql.upload_certificate_image (Certificate.id c) image_type contents caller now db
      = (Raise (HTTPException 400 "Invalid image type"), db))
  ∧ (∀ db : Mongo.DB,
      NoDup (Certificate.id <$> Mongo.certificates db) → c ∈ Mongo.certificates db →
      Mongo.upload_certificate_image (Certificate.id c) image_type contents caller now db
      = (Raise (HTTPException 400 "Invalid image type"), db)).
Proof.
  intros Hrole Hown Htag. split; intros db Hnd Hc.
  - pose proof (lookup_unique _ c _ Hnd Hc eq_refl) as Hsel.
    destruct (sql_upload_certificate_image_cases (Certificate.id c) image_type contents
                caller now db)
      as [[Hno _]|[_ [[Hsel' _]|[(x & x' & rest & Hsel' & _)|(x & Hsel' & Hx)]]]];
      try congruence.
    assert (x = c) as -> by congruence.
    destruct Hx as [[Hno _]|[_ [[_ E]|[Hin _]]]]; done.
  - pose proof (find_one_unique _ _ c Hnd Hc eq_refl) as Hsel.
    destruct (mongo_upload_certificate_image_cases (Certificate.id c) caller now
                image_type contents db)
      as [[Hno _]|[_ [[Hsel' _]|(x & Hsel' & Hx)]]]; try congruence.
    assert (x = c) as -> by congruence.
    destruct Hx as [[Hno _]|[_ [[_ E]|[Hin _]]]]; done.
Qed.

Lemma upload_unknown_tag_refused_witness :
  Mongo.upload_certificate_image "c1" "top" [1; 2; 3]%N Fixture.shop1 500 Fixture.mongo
  = (Raise (HTTPException 400 "Invalid image type"), Fixture.mongo).
Proof.
  destruct (upload_unknown_tag_refused "top" [1; 2; 3]%N Fixture.shop1 500 Fixture.cert1)
    as [_ Hm]; [reflexivity|reflexivity|decide_by_compute|].
  apply (Hm Fixture.mongo); [decide_by_compute|left].
Defined.

(** ** Submitting a draft, seen on the dashboard *)

Section Submit.

Variables (caller : User.t) (c : Certificate.t).
Hypothesis retailer : User.role caller = UserRole.RETAILER.
Hypothesis own : Certificate.retailer_id c = User.id caller.
Hypothesis draft : Certificate.status c ≠ "submitted".

Lemma own_counters_after_row (l1 l2 : list Certificate.t) (c' : Certificate.t) :
  Certificate.retailer_id c' = User.id caller →
  Certificate.status c' = "submitted" →
  let mine := filter (λ x, Certificate.retailer_id x = User.id caller) in
  length (mine (l1 ++ c' :: l2)) = length (mine (l1 ++ c :: l2))
  ∧ count_submitted (mine (l1 ++ c' :: l2)) = count_submitted (mine (l1 ++ c :: l2)) + 1.
Proof.
  intros Hown' Hsub mine. subst mine. unfold count_submitted.
  rewrite !filter_app, !(filter_cons_True _ c'), !(filter_cons_True _ c) by done.
  rewrite ?(filter_cons_True _ c') by done.
  rewrite ?(filter_cons_False _ c) by done.
  rewrite !length_app. simpl. split; lia.
Qed.

Lemma counters_after_submit (rows rows' : list Certificate.t) :
  length rows' = length rows →
  count_submitted rows' = count_submitted rows + 1 →
  let stats : gmap string Z := list_to_map (certificate_counters rows) in
  let stats' : gmap string Z := list_to_map (certificate_counters rows') in
  stats' !! "total_certificates" = stats !! "total_certificates"
  ∧ stats' !! "submitted_certificates" = Z.succ <$> stats !! "submitted_certificates"
  ∧ stats' !! "draft_certificates" = Z.pred <$> stats !! "draft_certificates".
Proof.
  intros Hlen Hsub stats stats'. subst stats stats'.
  repeat split; read_stats; rewrite ?Hlen, ?Hsub; simpl; try done;
    apply (f_equal Some); lia.
Qed.

Lemma sql_dashboard_retailer (db : Sql.DB) :
  Sql.get_dashboard_stats caller db
  = (Ok (list_to_map
           (certificate_counters
              (filter (λ x, Certificate.retailer_id x = User.id caller)
                 (Sql.certificates db)))), db).
Proof.
  unfold Sql.get_dashboard_stats. rewrite retailer.
  rewrite !decide_False by discriminate. by run_all.
Qed.

Lemma mongo_dashboard_retailer (db : Mongo.DB) :
  Mongo.get_dashboard_stats caller db
  = (Ok (list_to_map
           (certificate_counters
              (filter (λ x, Certificate.retailer_id x = User.id caller)
                 (Mongo.certificates db)))), db).
Proof.
  unfold Mongo.get_dashboard_stats. rewrite retailer.
  rewrite !decide_False by discriminate. by run_all.
Qed.

Lemma sql_submit_counters (cert_data : CertificateUpdate.t) (now : Z) (db : Sql.DB) :
  CertificateUpdate.status cert_data = Some "submitted" →
  CertificateUpdate.vehicle_details cert_data = None →
  CertificateUpdate.owner_details cert_data = None →
  CertificateUpdate.fitment_details cert_data = None →
  NoDup (Certificate.id <$> Sql.certificates db) → c ∈ Sql.certificates db →
  ∃ c' db' stats stats',
    Sql.update_certificate (Certificate.id c) cert_data caller now db = (Ok c', db')
    ∧ Sql.get_dashboard_stats caller db = (Ok stats, db)
    ∧ Sql.get_dashboard_stats caller db' = (Ok stats', db')
    ∧ stats' !! "total_certificates" = stats !! "total_certificates"
    ∧ stats' !! "submitted_certificates" = Z.succ <$> stats !! "submitted_certificates"
    ∧ stats' !! "draft_certificates" = Z.pred <$> stats !! "draft_certificates".
Proof.
  intros Hst Hv Ho Hf Hnd Hc.
  pose proof (lookup_unique _ c _ Hnd Hc eq_refl) as Hsel.
  pose proof (sql_update_certificate_owner (Certificate.id c) caller now cert_data db c
                retailer Hsel own Hv Ho Hf) as E. simpl in E.
  destruct (sql_update_certificate_row _ _ _ _ _ _ _ E)
    as (_ & _ & l1 & x & l2 & E1 & E2 & Ex).
  eexists _, _, _, _. split; [exact E|].
  split; [apply sql_dashboard_retailer|]. split; [apply sql_dashboard_retailer|].
  assert (x = c) as ->.
  { apply (same_id_same_row (Sql.certificates db)); [done| |done|].
    - rewrite E1. apply elem_of_app. right. left.
    - apply (f_equal Certificate.id) in Ex. simpl in Ex. done. }
  rewrite E1, E2.
  destruct (own_counters_after_row l1 l2
              (set_fields (CertificateUpdate.dealer_name cert_data)
                 (CertificateUpdate.dealer_license cert_data) None None None
                 (CertificateUpdate.status cert_data) now c)) as [Hlen Hsub].
  { done. } { simpl. by rewrite Hst. }
  by apply counters_after_submit.
Qed.

Lemma mongo_submit_counters (cert_data : CertificateUpdate.t) (now : Z) (db : Mongo.DB) :
  CertificateUpdate.status cert_data = Some "submitted" →
  NoDup (Certificate.id <$> Mongo.certificates db) → c ∈ Mongo.certificates db →
  ∃ c' db' stats stats',
    Mongo.update_certificate (Certificate.id c) cert_data caller now db = (Ok c', db')
    ∧ Mongo.get_dashboard_stats caller db = (Ok stats, db)
    ∧ Mongo.get_dashboard_stats caller db' = (Ok stats', db')
    ∧ stats' !! "total_certificates" = stats !! "total_certificates"
    ∧ stats' !! "submitted_certificates" = Z.succ <$> stats !! "submitted_certificates"
    ∧ stats' !! "draft_certificates" = Z.pred <$> stats !! "draft_certificates".
Proof.
  intros Hst Hnd Hc.
  pose proof (find_one_unique _ _ c Hnd Hc eq_refl) as Hsel.
  pose proof (mongo_update_certificate_owner (Certificate.id c) cert_data caller now
                retailer db c Hsel own) as E. simpl in E.
  destruct (mongo_update_certificate_row _ _ _ _ _ _ _ E)
    as (_ & _ & l1 & x & l2 & E1 & E2 & Ex).
  eexists _, _, _, _. split; [exact E|].
  split; [apply mongo_dashboard_retailer|]. split; [apply mongo_dashboard_retailer|].
  assert (x = c) as ->.
  { apply (same_id_same_row (Mongo.certificates db)); [done| |done|].
    - rewrite E1. apply elem_of_app. right. left.
    - apply (f_equal Certificate.id) in Ex. simpl in Ex. done. }
  rewrite E1, E2.
  destruct (own_counters_after_row l1 l2
              (set_fields (CertificateUpdate.dealer_name cert_data)
                 (CertificateUpdate.dealer_license cert_data)
                 (CertificateUpdate.vehicle_details cert_data)
                 (CertificateUpdate.owner_details cert_data)
                 (CertificateUpdate.fitment_details cert_data)
                 (CertificateUpdate.status cert_data) now c)) as [Hlen Hsub].
  { done. } { simpl. by rewrite Hst. }
  by apply counters_after_submit.
Qed.

End Submit.



(** ** The startup hook of [src/backend/server.py] *)

Section Startup.

Variable sha256_hexdigest : string → string.
Variable jwt_encode : string → Z → string.

Lemma mongo_default_admin_present (uid : string) (now : Z) (db : Mongo.DB) :
  (∃ u, u ∈ Mongo.users db ∧ User.role (UserDoc.user u) = UserRole.ADMIN) →
  Mongo.create_default_admin sha256_hexdigest uid now db = (Ok tt, db).
Proof.
  intros (u & Hu & Hrole). unfold Mongo.create_default_admin, Mongo.find_one. run_all.
  destruct (filter _ (Mongo.users db)) as [|x rest] eqn:E; [|done].
  by destruct (filter_nil_not_elem_of _ _ E u Hu).
Qed.

Lemma mongo_default_admin_absent (uid : string) (now : Z) (db : Mongo.DB) :
  (∀ u, u ∈ Mongo.users db → User.role (UserDoc.user u) ≠ UserRole.ADMIN) →
  Mongo.create_default_admin sha256_hexdigest uid now db
  = (Ok tt,
     Mongo.mkDB
       (Mongo.users db ++
          [UserDoc.mk (User.mk uid "admin" UserRole.ADMIN (Some "System Admin")
                         None None now)
             (sha256_hexdigest "admin123")])
       (Mongo.relationships db) (Mongo.certificates db)).
Proof.
  intros Hno. unfold Mongo.create_default_admin, Mongo.find_one. run_all.
  by rewrite filter_elem_of_nil.
Qed.

Lemma mongo_admin_decide (db : Mongo.DB) :
  (∃ u, u ∈ Mongo.users db ∧ User.role (UserDoc.user u) = UserRole.ADMIN)
  ∨ (∀ u, u ∈ Mongo.users db → User.role (UserDoc.user u) ≠ UserRole.ADMIN).
Proof.
  destruct (filter (λ u, User.role (UserDoc.user u) = UserRole.ADMIN) (Mongo.users db))
    as [|x rest] eqn:E.
  - right. by apply (filter_nil_not_elem_of _ _ E).
  - left. exists x. by apply (filter_head_elem_of _ _ _ _ E).
Qed.

Lemma mongo_default_admin_login (uid : string) (now t : Z) (db : Mongo.DB) :
  (∀ u, u ∈ Mongo.users db →
        User.role (UserDoc.user u) ≠ UserRole.ADMIN
        ∧ User.username (UserDoc.user u) ≠ "admin") →
  let db' := (Mongo.create_default_admin sha256_hexdigest uid now db).2 in
  ∃ token,
    Mongo.login sha256_hexdigest jwt_encode (UserLogin.mk "admin" "admin123") t db'
    = (Ok token, db')
    ∧ User.role (Token.user token) = UserRole.ADMIN
    ∧ User.id (Token.user token) = uid.
Proof.
  intros Hno db'. subst db'.
  rewrite mongo_default_admin_absent by (intros u Hu; by apply Hno). simpl.
  unfold Mongo.login, Mongo.find_user, Mongo.find_one, Mongo.verify_password. run_all.
  rewrite filter_app, filter_elem_of_nil by (intros u Hu; by apply Hno). simpl.
  rewrite bool_decide_eq_true_2 by done. by eexists.
Qed.

End Startup.

(** The startup hook always completes and leaves a user of role admin
    in the store.  It writes nothing when one is already there, so that
    running it again is a no-op; otherwise it appends the user "admin",
    and if no earlier user carries that name, "admin" can then log in
    with the password "admin123" and is answered as an admin. *)
Theorem default_admin_startup
    (sha256_hexdigest : string → string) (jwt_encode : string → Z → string)
    (uid : string) (now : Z) (db : Mongo.DB) :
  let db' := (Mongo.create_default_admin sha256_hexdigest uid now db).2 in
  (Mongo.create_default_admin sha256_hexdigest uid now db).1 = Ok tt
  ∧ (∃ u, u ∈ Mongo.users db' ∧ User.role (UserDoc.user u) = UserRole.ADMIN)
  ∧ ((∃ u, u ∈ Mongo.users db ∧ User.role (UserDoc.user u) = UserRole.ADMIN) →
     db' = db)
  ∧ (∀ (uid' : string) (now' : Z),
        Mongo.create_default_admin sha256_hexdigest uid' now' db' = (Ok tt, db'))
  ∧ ((∀ u, u ∈ Mongo.users db →
           User.role (UserDoc.user u) ≠ UserRole.ADMIN
           ∧ User.username (UserDoc.user u) ≠ "admin") →
     ∀ t, ∃ token,
       Mongo.login sha256_hexdigest jwt_encode (UserLogin.mk "admin" "admin123") t db'
       = (Ok token, db')
       ∧ User.role (Token.user token) = UserRole.ADMIN
       ∧ User.id (Token.user token) = uid).
Proof.
  intros db'.
  assert (∃ u, u ∈ Mongo.users db' ∧ User.role (UserDoc.user u) = UserRole.ADMIN)
    as Hadmin.
  { subst db'. destruct (mongo_admin_decide db) as [Hyes|Hno].
    - by rewrite mongo_default_admin_present.
    - rewrite mongo_default_admin_absent by done. simpl.
      eexists. split; [apply elem_of_app; right; left|done]. }
  split; [|split; [done|split; [|split]]].
  - destruct (mongo_admin_decide db) as [Hyes|Hno].
    + by rewrite mongo_default_admin_present.
    + by rewrite mongo_default_admin_absent.
  - intros Hyes. subst db'. by rewrite mongo_default_admin_present.
  - intros uid' now'. by apply mongo_default_admin_present.
  - intros Hno t. by apply mongo_default_admin_login.
Qed.

Lemma default_admin_startup_witness :
  ∃ token,
    Mongo.login Fixture.sha256 Fixture.jwt_encode (UserLogin.mk "admin" "admin123") 7
      (Mongo.create_default_admin Fixture.sha256 "a0" 1 (Mongo.mkDB [] [] [])).2
    = (Ok token, (Mongo.create_default_admin Fixture.sha256 "a0" 1 (Mongo.mkDB [] [] [])).2)
    ∧ User.role (Token.user token) = UserRole.ADMIN.
Proof.
  destruct (default_admin_startup Fixture.sha256 Fixture.jwt_encode "a0" 1
              (Mongo.mkDB [] [] [])) as (_ & _ & _ & _ & Hlogin).
  destruct (Hlogin (λ u Hu, False_ind _ (proj1 (elem_of_nil u) Hu)) 7)
    as (token & E & Hrole & _).
  exists token. by split.
Defined.

(** ** The two servers on the same data *)

Section Agreement.

Lemma fmap_filter_agree {A B C} (f : A → C) (g : B → C)
    (P : C → Prop) (P1 : A → Prop) (P2 : B → Prop)
    `{∀ x, Decision (P1 x)} `{∀ y, Decision (P2 y)} (l1 : list A) (l2 : list B) :
  (∀ x, P1 x ↔ P (f x)) → (∀ y, P2 y ↔ P (g y)) →
  f <$> l1 = g <$> l2 →
  f <$> filter P1 l1 = g <$> filter P2 l2.
Proof.
  intros H1 H2. revert l2. induction l1 as [|x l1 IH]; intros [|y l2] E; try done.
  rewrite !fmap_cons in E. injection E as Exy E.
  destruct (decide (P1 x)) as [Hx|Hx].
  - rewrite filter_cons_True by done.
    rewrite filter_cons_True by (apply H2; rewrite <- Exy; by apply H1).
    rewrite !fmap_cons. f_equal; auto.
  - rewrite filter_cons_False by done.
    rewrite filter_cons_False by (intros Hy; apply Hx, H1; rewrite Exy; by apply H2).
    auto.
Qed.

Lemma update_one_as_map (cid : string) (set : Certificate.t → Certificate.t)
    (l : list Certificate.t) (c : Certificate.t) :
  filter (λ x, Certificate.id x = cid) l = [c] →
  Mongo.update_one (λ x, Certificate.id x = cid) set l
  = (λ x, if decide (Certificate.id x = cid) then set c else x) <$> l.
Proof.
  induction l as [|x l IH]; [done|]. simpl.
  destruct (decide (Certificate.id x = cid)) as [Hx|Hx].
  - rewrite filter_cons_True by done. intros [= -> Hnil]. f_equal.
    rewrite <- (list_fmap_id l) at 1. apply list_fmap_ext. intros i y Hy.
    rewrite decide_False; [done|].
    apply (filter_nil_not_elem_of _ _ Hnil). by eapply list_elem_of_lookup_2.
  - rewrite filter_cons_False by done. intros Hsel. f_equal. auto.
Qed.

Lemma updated_as_map (cid : string) (values : Certificate.t → Certificate.t)
    (l : list Certificate.t) (c : Certificate.t) :
  filter (λ x, Certificate.id x = cid) l = [c] →
  (λ x, if decide (Certificate.id x = cid) then values x else x) <$> l
  = (λ x, if decide (Certificate.id x = cid) then values c else x) <$> l.
Proof.
  intros Hsel. apply list_fmap_ext. intros i x Hx. case_decide; [|done].
  assert (x ∈ filter (λ x, Certificate.id x = cid) l) as Hin.
  { apply list_elem_of_filter. split; [done|]. by eapply list_elem_of_lookup_2. }
  rewrite Hsel in Hin. apply list_elem_of_singleton in Hin. by subst.
Qed.

Variables (s : Sql.DB) (m : Mongo.DB).
Hypothesis same : same_data s m.

Lemma reachable_agree (d : string) :
  Sql.reachable_retailers s d = Mongo.reachable_retailers m d.
Proof.
  destruct same as (_ & Hrel & _).
  unfold Sql.reachable_retailers, Mongo.reachable_retailers.
  pose proof (fmap_filter_agree
                (λ r, (RelationshipModel.distributor_id r, RelationshipModel.retailer_id r))
                (λ r, (RelationshipDoc.distributor_id r, RelationshipDoc.retailer_id r))
                (λ p, p.1 = d)
                (λ r, RelationshipModel.distributor_id r = d)
                (λ r, RelationshipDoc.distributor_id r = d)
                (Sql.relationships s) (Mongo.relationships m)) as E.
  apply (f_equal (fmap snd)) in E; [|done..].
  by rewrite <- !list_fmap_compose in E.
Qed.

Lemma users_agree (P : User.t → Prop) `{∀ u, Decision (P u)} :
  Sql.to_user <$> filter (λ u, P (Sql.to_user u)) (Sql.users s)
  = UserDoc.user <$> filter (λ u, P (UserDoc.user u)) (Mongo.users m).
Proof.
  destruct same as (Hu & _ & _).
  by apply (fmap_filter_agree Sql.to_user UserDoc.user P).
Qed.

Lemma count_users_agree (role : string) :
  length (filter (λ u, UserModel.role u = role) (Sql.users s))
  = length (filter (λ u, User.role (UserDoc.user u) = role) (Mongo.users m)).
Proof.
  pose proof (users_agree (λ u, User.role u = role)) as E.
  apply (f_equal length) in E. by rewrite !length_fmap in E.
Qed.

Lemma get_certificates_agree (caller : User.t) :
  ∃ rows, Sql.get_certificates caller s = (Ok rows, s)
          ∧ Mongo.get_certificates caller m = (Ok rows, m).
Proof.
  pose proof (reachable_agree (User.id caller)) as Hreach.
  destruct same as (_ & _ & Hc).
  unfold Sql.get_certificates, Mongo.get_certificates, Sql.select_relationships_of,
    Mongo.retailer_ids_of.
  unfold Sql.reachable_retailers, Mongo.reachable_retailers in Hreach.
  repeat case_decide; run_all; rewrite <- ?Hreach, <- ?Hc.
  - by eexists.
  - destruct (RelationshipModel.retailer_id <$> _) as [|x ids]; simpl.
    + eexists. split; [done|]. rewrite filter_elem_of_nil; [done|].
      intros c _ Hin. by apply elem_of_nil in Hin.
    + by eexists.
  - by eexists.
Qed.

Lemma get_users_agree (caller : User.t) :
  ∃ o, Sql.get_users caller s = (o, s) ∧ Mongo.get_users caller m = (o, m).
Proof.
  pose proof (reachable_agree (User.id caller)) as Hreach.
  pose proof (users_agree
                (λ u, User.id u ∈ Sql.reachable_retailers s (User.id caller))) as Hu.
  destruct same as (Hall & _ & _).
  unfold Sql.get_users, Mongo.get_users, Sql.select_relationships_of,
    Mongo.retailer_ids_of.
  unfold Sql.reachable_retailers, Mongo.reachable_retailers in Hreach, Hu.
  run_all.
  destruct (decide (User.role caller ∈ [UserRole.ADMIN; UserRole.DISTRIBUTOR]));
    simpl; [|by eexists].
  destruct (decide (User.role caller = UserRole.ADMIN)); simpl.
  - rewrite Hall. by eexists.
  - rewrite <- Hreach.
    destruct (RelationshipModel.retailer_id <$> _) as [|x ids] eqn:E; simpl.
    + eexists. split; [done|]. rewrite filter_elem_of_nil; [done|].
      intros u _ Hin. by apply elem_of_nil in Hin.
    + simpl in Hu. rewrite Hu. by eexists.
Qed.

Lemma get_dashboard_stats_agree (caller : User.t) :
  ∃ stats, Sql.get_dashboard_stats caller s = (Ok stats, s)
           ∧ Mongo.get_dashboard_stats caller m = (Ok stats, m).
Proof.
  pose proof (reachable_agree (User.id caller)) as Hreach.
  pose proof (count_users_agree UserRole.DISTRIBUTOR) as Hd.
  pose proof (count_users_agree UserRole.RETAILER) as Hr.
  destruct same as (Hall & _ & Hc).
  apply (f_equal length) in Hall. rewrite !length_fmap in Hall.
  unfold Sql.get_dashboard_stats, Mongo.get_dashboard_stats, Sql.select_relationships_of,
    Mongo.retailer_ids_of.
  unfold Sql.reachable_retailers, Mongo.reachable_retailers in Hreach.
  repeat case_decide; run_all; rewrite <- ?Hreach, <- ?Hc, <- ?Hd, <- ?Hr, <- ?Hall.
  - by eexists.
  - destruct (RelationshipModel.retailer_id <$> _) as [|x ids]; simpl.
    + eexists. split; [done|]. rewrite filter_elem_of_nil; [done|].
      intros c _ Hin. by apply elem_of_nil in Hin.
    + by eexists.
  - by eexists.
Qed.

Lemma visible_agree (caller : User.t) (c : Certificate.t) :
  sql_visible s caller c ↔ mongo_visible m caller c.
Proof. unfold sql_visible, mongo_visible. by rewrite reachable_agree. Qed.

Lemma get_certificate_agree (certificate_id : string) (caller : User.t) :
  NoDup (Certificate.id <$> Sql.certificates s) → sql_unique_edges s →
  ∃ o, Sql.get_certificate certificate_id caller s = (o, s)
       ∧ Mongo.get_certificate certificate_id caller m = (o, m).
Proof.
  intros Hnd Hedges. pose proof same as (_ & _ & Hc).
  destruct (filter (λ x, Certificate.id x = certificate_id) (Sql.certificates s))
    as [|c rest] eqn:Hsel.
  - pose proof (filter_nil_not_elem_of _ _ Hsel) as Hno.
    eexists. split; [by apply sql_get_certificate_unknown|].
    apply mongo_get_certificate_unknown. by rewrite <- Hc.
  - destruct (filter_head_elem_of _ _ _ _ Hsel) as [Hin <-].
    rewrite (sql_get_certificate_visible caller c s Hnd Hedges Hin).
    rewrite (mongo_get_certificate_visible caller c m) by (by rewrite <- Hc).
    destruct (decide (sql_visible s caller c)) as [Hv|Hv].
    + rewrite decide_True by (by apply visible_agree). by eexists.
    + rewrite decide_False by (by rewrite <- visible_agree). by eexists.
Qed.

End Agreement.



Section WriteAgreement.

Variables (s : Sql.DB) (m : Mongo.DB).
Hypothesis same : same_data s m.
Hypothesis keyed : NoDup (Certificate.id <$> Sql.certificates s).

Variables (certificate_id : string) (caller : User.t) (now : Z).

Lemma find_agree :
  Mongo.find_one (λ x, Certificate.id x = certificate_id) (Mongo.certificates m)
  = head (filter (λ x, Certificate.id x = certificate_id) (Sql.certificates s)).
Proof. destruct same as (_ & _ & Hc). unfold Mongo.find_one. by rewrite Hc. Qed.

Lemma updated_agree (values set : Certificate.t → Certificate.t) (c : Certificate.t) :
  filter (λ x, Certificate.id x = certificate_id) (Sql.certificates s) = [c] →
  values c = set c →
  same_data (Sql.updated certificate_id values s) (Mongo.updated certificate_id set m).
Proof.
  intros Hsel Hc. destruct same as (Hu & Hr & Hcerts).
  split; [done|]. split; [done|]. unfold Sql.updated, Mongo.updated. simpl.
  rewrite <- Hcerts.
  rewrite (update_one_as_map _ _ _ c Hsel), (updated_as_map _ _ _ c Hsel).
  by rewrite Hc.
Qed.

Lemma upload_agree (image_type : string) (contents : list N) :
  ∃ o s' m',
    Sql.upload_certificate_image certificate_id image_type contents caller now s = (o, s')
    ∧ Mongo.upload_certificate_image certificate_id image_type contents caller now m
      = (o, m')
    ∧ same_data s' m'.
Proof.
  pose proof find_agree as Hfind.
  destruct (sql_upload_certificate_image_cases certificate_id image_type contents
              caller now s)
    as [[Hrole ->]|[Hrole [[Hsel ->]|[(c & c' & rest & Hsel & ->)|(c & Hsel & Hc)]]]];
    destruct (mongo_upload_certificate_image_cases certificate_id caller now
                image_type contents m)
    as [[Hrole' ->]|[Hrole' [[Hsel' ->]|(x & Hsel' & Hx)]]];
    rewrite ?Hsel in Hfind; simpl in Hfind; try congruence;
    try (by destruct (sql_ambiguous _ _ _ _ _ Hsel));
    try (by eexists _, _, _).
  assert (x = c) as -> by congruence.
  destruct Hc as [[Hown ->]|[Hown [[Htag ->]|[Htag ->]]]];
    destruct Hx as [[Hown' ->]|[Hown' [[Htag' ->]|[Htag' ->]]]];
    try done; try (by eexists _, _, _).
  eexists _, _, _. split; [done|]. split; [done|]. by apply (updated_agree _ _ c).
Qed.

Lemma update_agree (cert_data : CertificateUpdate.t) :
  CertificateUpdate.vehicle_details cert_data = None →
  CertificateUpdate.owner_details cert_data = None →
  CertificateUpdate.fitment_details cert_data = None →
  ∃ o s' m',
    Sql.update_certificate certificate_id cert_data caller now s = (o, s')
    ∧ Mongo.update_certificate certificate_id cert_data caller now m = (o, m')
    ∧ same_data s' m'.
Proof.
  intros Hv Ho Hf. pose proof find_agree as Hfind.
  destruct (sql_update_certificate_cases certificate_id caller now cert_data s)
    as [[Hrole ->]|[Hrole [[Hsel ->]|[(c & c' & rest & Hsel & ->)|(c & Hsel & Hc)]]]];
    destruct (mongo_update_certificate_cases certificate_id caller now cert_data m)
    as [[Hrole' ->]|[Hrole' [[Hsel' ->]|(x & Hsel' & Hx)]]];
    rewrite ?Hsel in Hfind; simpl in Hfind; try congruence;
    try (by destruct (sql_ambiguous _ _ _ _ _ Hsel));
    try (by eexists _, _, _).
  assert (x = c) as -> by congruence.
  destruct Hx as [[Hown' ->]|[Hown' ->]].
  - destruct Hc as [[Hown ->]|[Hown _]]; [|done]. by eexists _, _, _.
  - rewrite (sql_update_certificate_owner certificate_id caller now cert_data s c)
      by done.
    rewrite Hv, Ho, Hf.
    eexists _, _, _. split; [done|]. split; [done|]. by apply (updated_agree _ _ c).
Qed.

Lemma create_agree (cert_data : CertificateCreate.t)
    (uid no_uuid : string) (fitment_date created_at updated_at : Z) :
  uid ∉ Certificate.id <$> Sql.certificates s →
  default_certificate_no no_uuid ∉ Certificate.certificate_no <$> Sql.certificates s →
  ∃ o s' m',
    Sql.create_certificate cert_data caller uid no_uuid
      fitment_date created_at updated_at s = (o, s')
    ∧ Mongo.create_certificate cert_data caller uid no_uuid
        fitment_date created_at updated_at m = (o, m')
    ∧ same_data s' m'.
Proof.
  intros Hid Hno. destruct same as (Hu & Hr & Hc).
  destruct (decide (User.role caller = UserRole.RETAILER)) as [Hrole|Hrole].
  - rewrite sql_create_certificate_stored, mongo_create_certificate_stored by done.
    eexists _, _, _. split; [done|]. split; [done|].
    split; [done|]. split; [done|]. simpl. by rewrite Hc.
  - rewrite sql_create_certificate_refused, mongo_create_certificate_refused by done.
    by eexists _, _, _.
Qed.

End WriteAgreement.



(** ** A distributor and the retailers he registers *)

Section Onboarding.

Variable pbkdf2_hmac_sha256 : string → string → string.
Variable sha256_hexdigest : string → string.
Variables (d : User.t) (user_data : UserCreate.t).
Variables (uid : string) (now : Z) (salt : string) (rel_uid : string) (rel_now : Z).
Variables (order : CertificateCreate.t) (cert_uid no_uuid : string) (t1 t2 t3 : Z).
Hypothesis distributor : User.role d = UserRole.DISTRIBUTOR.
Hypothesis new_retailer : UserCreate.role user_data = UserRole.RETAILER.

Lemma distributor_may_register : may_register (Some d) (UserCreate.role user_data).
Proof.
  rewrite new_retailer. unfold may_register. simpl. rewrite distributor.
  split; [done|]. split; [done|]. intros _. right; left.
Qed.

Lemma distributor_links : links (Some d) (UserCreate.role user_data).
Proof. unfold links. simpl. by rewrite new_retailer, distributor. Qed.

Lemma sql_onboarding (db : Sql.DB) :
  UserCreate.username user_data ∉ UserModel.username <$> Sql.users db →
  uid ∉ UserModel.id <$> Sql.users db →
  rel_uid ∉ RelationshipModel.id <$> Sql.relationships db →
  uid ∉ RelationshipModel.retailer_id <$> Sql.relationships db →
  cert_uid ∉ Certificate.id <$> Sql.certificates db →
  default_certificate_no no_uuid ∉ Certificate.certificate_no <$> Sql.certificates db →
  ∃ r db1 c db2 rows,
    Sql.register_user pbkdf2_hmac_sha256 user_data (Some d)
      uid now salt rel_uid rel_now db = (Ok r, db1)
    ∧ Sql.create_certificate order r cert_uid no_uuid t1 t2 t3 db1 = (Ok c, db2)
    ∧ Certificate.retailer_id c = User.id r
    ∧ Sql.get_certificates d db2 = (Ok rows, db2)
    ∧ c ∈ rows
    ∧ ∀ d', User.role d' = UserRole.DISTRIBUTOR → User.id d' ≠ User.id d →
            ∃ rows', Sql.get_certificates d' db2 = (Ok rows', db2) ∧ c ∉ rows'.
Proof.
  intros Hname Hid Hrel Hedge Hcid Hcno.
  eexists _, _, _, _, _. split.
  { rewrite sql_register_fresh by done.
    rewrite decide_True by apply distributor_may_register.
    rewrite decide_True by apply distributor_links. done. }
  split; [by rewrite sql_create_certificate_stored|].
  split; [done|].
  split; [by apply sql_get_certificates_distributor|].
  split.
  - apply list_elem_of_filter. simpl. split; [|apply elem_of_app; right; left].
    unfold Sql.reachable_retailers. simpl.
    rewrite filter_app, fmap_app, filter_cons_True by done.
    apply elem_of_app. right. left.
  - intros d' Hd' Hne. eexists. split; [by apply sql_get_certificates_distributor|].
    intros Hin. apply list_elem_of_filter in Hin as [Hin _]. simpl in Hin.
    unfold Sql.reachable_retailers in Hin. simpl in Hin.
    rewrite filter_app, filter_cons_False, filter_nil, app_nil_r in Hin
      by (simpl; congruence).
    apply Hedge. apply list_elem_of_fmap in Hin as (e & -> & He).
    apply list_elem_of_fmap_2. apply list_elem_of_filter in He. tauto.
Qed.

Lemma mongo_onboarding (db : Mongo.DB) :
  UserCreate.username user_data
    ∉ (λ u, User.username (UserDoc.user u)) <$> Mongo.users db →
  ∃ r db1 c db2 rows,
    Mongo.register_user sha256_hexdigest user_data (Some d) uid now rel_now db
    = (Ok r, db1)
    ∧ Mongo.create_certificate order r cert_uid no_uuid t1 t2 t3 db1 = (Ok c, db2)
    ∧ Certificate.retailer_id c = User.id r
    ∧ Mongo.get_certificates d db2 = (Ok rows, db2)
    ∧ c ∈ rows
    ∧ (uid ∉ RelationshipDoc.retailer_id <$> Mongo.relationships db →
       ∀ d', User.role d' = UserRole.DISTRIBUTOR → User.id d' ≠ User.id d →
             ∃ rows', Mongo.get_certificates d' db2 = (Ok rows', db2) ∧ c ∉ rows').
Proof.
  intros Hname.
  eexists _, _, _, _, _. split.
  { rewrite mongo_register_fresh by done.
    rewrite decide_True by apply distributor_may_register.
    rewrite decide_True by apply distributor_links. done. }
  split; [by rewrite mongo_create_certificate_stored|].
  split; [done|].
  split; [by apply mongo_get_certificates_distributor|].
  split.
  - apply list_elem_of_filter. simpl. split; [|apply elem_of_app; right; left].
    unfold Mongo.reachable_retailers. simpl.
    rewrite filter_app, fmap_app, filter_cons_True by done.
    apply elem_of_app. right. left.
  - intros Hedge d' Hd' Hne. eexists.
    split; [by apply mongo_get_certificates_distributor|].
    intros Hin. apply list_elem_of_filter in Hin as [Hin _]. simpl in Hin.
    unfold Mongo.reachable_retailers in Hin. simpl in Hin.
    rewrite filter_app, filter_cons_False, filter_nil, app_nil_r in Hin
      by (simpl; congruence).
    apply Hedge. apply list_elem_of_fmap in Hin as (e & -> & He).
    apply list_elem_of_fmap_2. apply list_elem_of_filter in He. tauto.
Qed.

End Onboarding.



(** ** Keys *)

Section KeysKept.

Lemma mongo_register_user_keeps_names (sha256_hexdigest : string → string)
    (user_data : UserCreate.t)
    (current_user : option User.t) (uid : string) (now rel_now : Z) (db : Mongo.DB) :
  NoDup ((λ u, User.username (UserDoc.user u)) <$> Mongo.users db) →
  let db' := (Mongo.register_user sha256_hexdigest user_data current_user
                uid now rel_now db).2 in
  NoDup ((λ u, User.username (UserDoc.user u)) <$> Mongo.users db')
  ∧ Mongo.certificates db' = Mongo.certificates db.
Proof.
  intros Hnd db'. subst db'.
  destruct (decide (UserCreate.username user_data
                    ∈ (λ u, User.username (UserDoc.user u)) <$> Mongo.users db))
    as [Hin|Hfresh].
  - unfold Mongo.register_user, Mongo.find_user, Mongo.find_one. run_all.
    destruct (filter_key_present (λ u, User.username (UserDoc.user u)) _ _ Hin)
      as (x & rest & ->). done.
  - rewrite mongo_register_fresh by done.
    case_decide; simpl; [|done]. split; [|done].
    rewrite fmap_app. apply NoDup_app. split; [done|].
    split; [|apply NoDup_singleton].
    intros x Hx Hx'. apply list_elem_of_singleton in Hx'. by subst x.
Qed.

Lemma sql_create_keeps_keys (order : CertificateCreate.t) (caller : User.t)
    (uid no_uuid : string) (t1 t2 t3 : Z) (db : Sql.DB) :
  NoDup (Certificate.id <$> Sql.certificates db) →
  NoDup (Certificate.certificate_no <$> Sql.certificates db) →
  let db' := (Sql.create_certificate order caller uid no_uuid t1 t2 t3 db).2 in
  NoDup (Certificate.id <$> Sql.certificates db')
  ∧ NoDup (Certificate.certificate_no <$> Sql.certificates db')
  ∧ Sql.users db' = Sql.users db.
Proof.
  intros Hids Hnos db'. subst db'.
  unfold Sql.create_certificate, Sql.insert_certificate. run_all.
  repeat (case_decide; simpl; try done).
  rewrite !fmap_app, !NoDup_app. simpl.
  split; [|split; [|done]]; (split; [done|]); (split; [|apply NoDup_singleton]);
    intros x Hx Hx'; apply list_elem_of_singleton in Hx'; subst x; tauto.
Qed.

Lemma sql_update_keeps_numbers (certificate_id : string) (cert_data : CertificateUpdate.t)
    (caller : User.t) (now : Z) (db : Sql.DB) :
  let db' := (Sql.update_certificate certificate_id cert_data caller now db).2 in
  Certificate.certificate_no <$> Sql.certificates db'
  = Certificate.certificate_no <$> Sql.certificates db
  ∧ Sql.users db' = Sql.users db.
Proof.
  intros db'. subst db'.
  pose proof (sql_update_certificate_guarded certificate_id caller now cert_data db) as Hg.
  destruct (Sql.update_certificate certificate_id cert_data caller now db)
    as [[c'|e] db'] eqn:E; simpl.
  - destruct (sql_update_certificate_row _ _ _ _ _ _ _ E)
      as (Hu & _ & l1 & c & l2 & E1 & E2 & ->).
    split; [|done]. rewrite E1, E2, !fmap_app, !fmap_cons. done.
  - by rewrite (guarded_raise _ _ _ _ _ _ Hg).
Qed.

Lemma sql_upload_keeps_numbers (certificate_id image_type : string) (contents : list N)
    (caller : User.t) (now : Z) (db : Sql.DB) :
  let db' := (Sql.upload_certificate_image certificate_id image_type contents
                caller now db).2 in
  Certificate.certificate_no <$> Sql.certificates db'
  = Certificate.certificate_no <$> Sql.certificates db
  ∧ Sql.users db' = Sql.users db.
Proof.
  intros db'. subst db'.
  pose proof (sql_upload_certificate_image_guarded certificate_id caller now
                image_type contents db) as Hg.
  destruct (Sql.upload_certificate_image certificate_id image_type contents caller now db)
    as [[tag|e] db'] eqn:E; simpl.
  - destruct (sql_upload_certificate_image_row _ _ _ _ _ _ _ _ E)
      as (_ & _ & Hu & _ & l1 & c & l2 & E1 & E2).
    split; [|done]. rewrite E1, E2, !fmap_app, !fmap_cons. done.
  - by rewrite (guarded_raise _ _ _ _ _ _ Hg).
Qed.

End KeysKept.

(** The keys the other properties rely on are kept by the handlers.  In
    [src/server.py] user ids, user names, certificate ids and certificate
    numbers stay pairwise distinct through registration, creation, update
    and attachment, whatever the arguments and the outcome.  In
    [src/backend/server.py], where no index enforces anything, the check
    of [register_user] alone keeps the user names distinct, and update
    and attachment leave the list of certificate ids as it is. *)
Theorem unique_keys_kept
    (pbkdf2_hmac_sha256 : string → string → string)
    (sha256_hexdigest : string → string)
    (user_data : UserCreate.t) (current_user : option User.t)
    (uid : string) (now : Z) (salt : string) (rel_uid : string) (rel_now : Z)
    (order : CertificateCreate.t) (cert_uid no_uuid : string) (t1 t2 t3 : Z)
    (certificate_id : string) (cert_data : CertificateUpdate.t)
    (image_type : string) (contents : list N) (caller : User.t) :
  let sql_keys (db : Sql.DB) :=
    NoDup (UserModel.id <$> Sql.users db)
    ∧ NoDup (UserModel.username <$> Sql.users db)
    ∧ NoDup (Certificate.id <$> Sql.certificates db)
    ∧ NoDup (Certificate.certificate_no <$> Sql.certificates db) in
  (∀ db : Sql.DB,
      sql_keys db →
      sql_keys (Sql.register_user pbkdf2_hmac_sha256 user_data current_user
                  uid now salt rel_uid rel_now db).2
      ∧ sql_keys (Sql.create_certificate order caller cert_uid no_uuid t1 t2 t3 db).2
      ∧ sql_keys (Sql.update_certificate certificate_id cert_data caller now db).2
      ∧ sql_keys (Sql.upload_certificate_image certificate_id image_type contents
                    caller now db).2)
  ∧ (∀ db : Mongo.DB,
      (NoDup ((λ u, User.username (UserDoc.user u)) <$> Mongo.users db) →
       NoDup ((λ u, User.username (UserDoc.user u))
                <$> Mongo.users (Mongo.register_user sha256_hexdigest user_data
                                   current_user uid now rel_now db).2))
      ∧ Certificate.id <$> Mongo.certificates
                             (Mongo.update_certificate certificate_id cert_data
                                caller now db).2
        = Certificate.id <$> Mongo.certificates db
      ∧ Certificate.id <$> Mongo.certificates
                             (Mongo.upload_certificate_image certificate_id image_type
                                contents caller now db).2
        = Certificate.id <$> Mongo.certificates db).
Proof.
  intros sql_keys. subst sql_keys. simpl. split.
  - intros db (Hids & Hnames & Hcids & Hnos).
    split; [|split; [|split]].
    + destruct (sql_register_user_keeps_keys pbkdf2_hmac_sha256 user_data current_user
                  uid now salt rel_uid rel_now db Hids Hnames) as (H1 & H2 & H3).
      by rewrite H3.
    + destruct (sql_create_keeps_keys order caller cert_uid no_uuid t1 t2 t3 db
                  Hcids Hnos) as (H1 & H2 & H3).
      by rewrite H3.
    + destruct (sql_update_keeps_numbers certificate_id cert_data caller now db)
        as [H1 H2].
      destruct (sql_mutations_keep_ids certificate_id cert_data image_type contents
                  caller now db) as [H3 _].
      by rewrite H1, H2, H3.
    + destruct (sql_upload_keeps_numbers certificate_id image_type contents caller now db)
        as [H1 H2].
      destruct (sql_mutations_keep_ids certificate_id cert_data image_type contents
                  caller now db) as [_ H3].
      by rewrite H1, H2, H3.
  - intros db. split; [|apply mongo_mutations_keep_ids].
    intros Hnd.
    by destruct (mongo_register_user_keeps_names sha256_hexdigest user_data current_user
                   uid now rel_now db Hnd).
Qed.

Lemma unique_keys_kept_witness :
  NoDup (UserModel.username
           <$> Sql.users
                 (Sql.register_user Fixture.pbkdf2 (Fixture.new_user "shop1" "retailer")
                    (Some Fixture.admin) "u9" 900 "salt9" "e9" 901 Fixture.sql).2).
Proof.
  destruct (unique_keys_kept Fixture.pbkdf2 Fixture.sha256
              (Fixture.new_user "shop1" "retailer") (Some Fixture.admin)
              "u9" 900 "salt9" "e9" 901 Fixture.order "c9" "n9" 1 2 3
              "c1" Fixture.patch "front" [] Fixture.shop1) as [Hs _].
  destruct (Hs Fixture.sql) as ((_ & Hnames & _) & _); [|exact Hnames].
  repeat split; decide_by_compute.
Defined.
